(** * gpymusic: catalogue entities of [music_objects.py]

    A shallow embedding of [src/music_objects.py]: the classes
    [MusicObject], [Artist], [Album] and [Song], which are Python dicts
    with a handful of methods.  Records coming from the remote API and
    from the persisted (JSON) queue are dynamically typed, so the
    embedding keeps a universe of Python values, the exceptions that the
    subscripting and iteration primitives raise, and models every entity
    as the dict that it is. *)

From Stdlib Require Import List String Ascii ZArith Lia Bool Arith.
From Stdlib Require Import DecimalString.
From Stdlib Require DecimalPos.
Import ListNotations.
Open Scope list_scope.
Open Scope string_scope.
Set Warnings "-register-all".

(** ** Python values *)

(** The values a decoded JSON document can hold (numbers are integers:
    no field read by this module is a float).  A [str] is a string of
    8-bit characters, read as Latin-1 code points.  A dict keeps its
    items in insertion order, as Python does; its keys are strings. *)
Inductive value : Type :=
| VNone
| VBool (b : bool)
| VInt (z : Z)
| VStr (s : string)
| VList (l : list value)
| VDict (d : list (string * value)).

Definition dict : Type := list (string * value).

(** Nesting depth of a value; scalars have height 0. *)
Fixpoint height (v : value) : nat :=
  match v with
  | VList l =>
      S ((fix hs (l : list value) : nat :=
            match l with
            | [] => 0
            | x :: l' => Nat.max (height x) (hs l')
            end) l)
  | VDict d =>
      S ((fix hd (d : list (string * value)) : nat :=
            match d with
            | [] => 0
            | (_, x) :: d' => Nat.max (height x) (hd d')
            end) d)
  | _ => 0
  end.

Definition heights (l : list value) : nat :=
  fold_right (fun x acc => Nat.max (height x) acc) 0 l.

Definition dict_height (d : dict) : nat :=
  fold_right (fun kv acc => Nat.max (height (snd kv)) acc) 0 d.

(** ** Exceptions and the error monad *)

Inductive exn : Type :=
| KeyError (key : string)
| TypeError
| IndexError
| ValueError
| SystemExit (msg : string)
| ExternalError (msg : string)
| RecursionError.

Inductive result (A : Type) : Type :=
| OK (a : A)
| Raise (e : exn).
Arguments OK {A} a.
Arguments Raise {A} e.

Definition rbind {A B} (m : result A) (f : A -> result B) : result B :=
  match m with
  | OK a => f a
  | Raise e => Raise e
  end.

Declare Scope result_scope.
Delimit Scope result_scope with result.
Notation "x <- m ;; k" := (rbind m (fun x => k))
  (at level 61, m at next level, right associativity) : result_scope.
Open Scope result_scope.

(** [[f(x) for x in l]]: the first exception aborts the comprehension. *)
Fixpoint mapM {A B} (f : A -> result B) (l : list A) : result (list B) :=
  match l with
  | [] => OK []
  | x :: l' => y <- f x ;; ys <- mapM f l' ;; OK (y :: ys)
  end.

Definition is_KeyError (e : exn) : bool :=
  match e with KeyError _ => true | _ => false end.

Definition is_TypeError (e : exn) : bool :=
  match e with TypeError => true | _ => false end.

(** [try: body  except E: handler], for the exception class picked by
    [catches]. *)
Definition try_except {A} (body : result A) (catches : exn -> bool)
    (handler : result A) : result A :=
  match body with
  | OK a => OK a
  | Raise e => if catches e then handler else Raise e
  end.

(** A result that is not the marker of an exhausted recursion depth. *)
Definition clean {A} (m : result A) : Prop := m <> Raise RecursionError.

(** ** Dicts *)

Fixpoint dict_get (k : string) (d : dict) : option value :=
  match d with
  | [] => None
  | (k', v) :: d' => if String.eqb k k' then Some v else dict_get k d'
  end.

(** [k in d] *)
Definition dict_mem (k : string) (d : dict) : bool :=
  match dict_get k d with Some _ => true | None => false end.

(** [d[k] = v]: an existing key keeps its place, a new key goes last. *)
Fixpoint dict_set (k : string) (v : value) (d : dict) : dict :=
  match d with
  | [] => [(k, v)]
  | (k', v') :: d' =>
      if String.eqb k k' then (k, v) :: d' else (k', v') :: dict_set k v d'
  end.

(** ** Primitive operations on values *)

Module Py.

(** [v[k]] for a string key [k]. *)
Definition getitem (v : value) (k : string) : result value :=
  match v with
  | VDict d =>
      match dict_get k d with
      | Some x => OK x
      | None => Raise (KeyError k)
      end
  | _ => Raise TypeError
  end.

(** [v[0]] *)
Definition getitem0 (v : value) : result value :=
  match v with
  | VList [] => Raise IndexError
  | VList (x :: _) => OK x
  | VStr EmptyString => Raise IndexError
  | VStr (String c _) => OK (VStr (String c EmptyString))
  | VDict _ => Raise (KeyError "0")
  | _ => Raise TypeError
  end.

Fixpoint chars (s : string) : list value :=
  match s with
  | EmptyString => []
  | String c s' => VStr (String c EmptyString) :: chars s'
  end.

(** The items a [for] loop or a comprehension visits. *)
Definition iter (v : value) : result (list value) :=
  match v with
  | VList l => OK l
  | VStr s => OK (chars s)
  | VDict d => OK (map (fun kv => VStr (fst kv)) d)
  | _ => Raise TypeError
  end.

(** Truth value, as tested by [if v:]. *)
Definition truthy (v : value) : bool :=
  match v with
  | VNone => false
  | VBool b => b
  | VInt z => negb (z =? 0)%Z
  | VStr s => negb (String.eqb s "")
  | VList l => match l with [] => false | _ => true end
  | VDict d => match d with [] => false | _ => true end
  end.

Definition len (v : value) : result Z :=
  match v with
  | VList l => OK (Z.of_nat (List.length l))
  | VStr s => OK (Z.of_nat (String.length s))
  | VDict d => OK (Z.of_nat (List.length d))
  | _ => Raise TypeError
  end.

(** How many items [x[:n]] keeps out of [len]. *)
Definition slice_stop (len : nat) (n : Z) : nat :=
  if (n <? 0)%Z then Z.to_nat (Z.of_nat len + n) else Z.to_nat n.

(** [v[:n]] *)
Definition slice_to (v : value) (n : Z) : result value :=
  match v with
  | VList l => OK (VList (firstn (slice_stop (List.length l) n) l))
  | VStr s =>
      OK (VStr (String.substring 0
                  (Nat.min (slice_stop (String.length s) n)
                           (String.length s)) s))
  | _ => Raise TypeError
  end.

(** The decimal form of an integer, with its sign. *)
Definition str_of_Z (z : Z) : string :=
  NilZero.string_of_int (Z.to_int z).

(** The conversion between [int] and [str] refuses numbers of more than
    4300 decimal digits (CPython 3.11, [sys.get_int_max_str_digits()]). *)
Definition max_str_digits : nat := 4300.

(** The number of decimal digits of an integer. *)
Definition int_digits (z : Z) : nat := String.length (str_of_Z (Z.abs z)).

(** [str(z)] for an integer. *)
Definition str_int (z : Z) : result string :=
  if (max_str_digits <? int_digits z)%nat then Raise ValueError
  else OK (str_of_Z z).

Fixpoint zeros (n : nat) : string :=
  match n with
  | O => ""
  | S n' => String "0" (zeros n')
  end.

(** [s.zfill(width)] *)
Definition zfill (width : nat) (s : string) : string :=
  if (width <=? String.length s)%nat then s
  else
    let pad := zeros (width - String.length s) in
    match s with
    | String c rest =>
        if (Ascii.eqb c "+" || Ascii.eqb c "-")%bool
        then String c (pad ++ rest)
        else pad ++ s
    | EmptyString => pad
    end.

(** The characters [int()] skips around a number: tab to carriage
    return, space, U+0085 and U+00A0. *)
Definition is_space (c : ascii) : bool :=
  let n := nat_of_ascii c in
  ((9 <=? n)%nat && (n <=? 13)%nat || (n =? 32)%nat
   || (n =? 133)%nat || (n =? 160)%nat)%bool.

Definition digit_of (c : ascii) : option Z :=
  let n := nat_of_ascii c in
  if ((48 <=? n)%nat && (n <=? 57)%nat)%bool then Some (Z.of_nat (n - 48))
  else None.

Fixpoint lstrip (s : list ascii) : list ascii :=
  match s with
  | c :: s' => if is_space c then lstrip s' else s
  | [] => []
  end.

Definition strip (s : list ascii) : list ascii :=
  List.rev (lstrip (List.rev (lstrip s))).

(** Decimal digits, single underscores allowed between two digits. *)
Fixpoint parse_digits (acc : Z) (after_digit : bool) (s : list ascii)
  : option Z :=
  match s with
  | [] => if after_digit then Some acc else None
  | c :: s' =>
      match digit_of c with
      | Some d => parse_digits (10 * acc + d) true s'
      | None =>
          if (Ascii.eqb c "_" && after_digit)%bool
          then parse_digits acc false s'
          else None
      end
  end.

Definition parse_int (s : string) : option Z :=
  match strip (list_ascii_of_string s) with
  | c :: s' =>
      if Ascii.eqb c "-" then option_map Z.opp (parse_digits 0 false s')
      else if Ascii.eqb c "+" then parse_digits 0 false s'
      else parse_digits 0 false (c :: s')
  | [] => None
  end.

(** The number of digit characters of a string, leading zeros
    included, underscores left out. *)
Definition count_digits (s : string) : nat :=
  List.length
    (List.filter (fun c => match digit_of c with Some _ => true | None => false end)
       (list_ascii_of_string s)).

(** [int(v)]: a string of more than 4300 digits is refused. *)
Definition int (v : value) : result Z :=
  match v with
  | VInt z => OK z
  | VBool b => OK (Z.b2z b)
  | VStr s =>
      match parse_int s with
      | Some z =>
          if (max_str_digits <? count_digits s)%nat then Raise ValueError
          else OK z
      | None => Raise ValueError
      end
  | _ => Raise TypeError
  end.

(** [ord(c)]: [c] must be a string of length one. *)
Definition ord (c : value) : result Z :=
  match c with
  | VStr (String a EmptyString) => OK (Z.of_nat (nat_of_ascii a))
  | _ => Raise TypeError
  end.

Fixpoint concat (l : list string) : string :=
  match l with
  | [] => ""
  | s :: l' => s ++ concat l'
  end.

(** [sep.join(l)]: every item must be a [str]. *)
Fixpoint join (sep : string) (l : list value) : result string :=
  match l with
  | [] => OK ""
  | [VStr s] => OK s
  | VStr s :: l' => rest <- join sep l' ;; OK (s ++ sep ++ rest)
  | _ => Raise TypeError
  end.

Definition hex_digit (n : nat) : ascii :=
  if (n <? 10)%nat then ascii_of_nat (48 + n) else ascii_of_nat (87 + n).

Definition printable (c : ascii) : bool :=
  let n := nat_of_ascii c in
  ((32 <=? n)%nat && (n <? 127)%nat
   || (161 <=? n)%nat && negb (n =? 173)%nat)%bool.

(** The double quote character. *)
Definition dquote : ascii := ascii_of_nat 34.

Fixpoint has_char (c : ascii) (s : string) : bool :=
  match s with
  | EmptyString => false
  | String c' s' => (Ascii.eqb c c' || has_char c s')%bool
  end.

Fixpoint escape (quote : ascii) (s : string) : string :=
  match s with
  | EmptyString => ""
  | String c s' =>
      let n := nat_of_ascii c in
      (if (Ascii.eqb c quote || Ascii.eqb c "\")%bool
       then String "\" (String c "")
       else if (n =? 10)%nat then "\n"
       else if (n =? 13)%nat then "\r"
       else if (n =? 9)%nat then "\t"
       else if printable c then String c ""
       else String "\" (String "x"
              (String (hex_digit (n / 16)) (String (hex_digit (n mod 16)) ""))))
      ++ escape quote s'
  end.

(** [repr(s)] for a string: single quotes unless the string holds a
    single quote and no double quote. *)
Definition repr_str (s : string) : string :=
  let q : ascii :=
    if (has_char "'" s && negb (has_char dquote s))%bool then dquote
    else "'"%char in
  String q (escape q s ++ String q "").

(** [repr(v)]; it raises where an integer inside [v] has too many
    digits to be written out. *)
Fixpoint repr (v : value) : result string :=
  match v with
  | VNone => OK "None"
  | VBool true => OK "True"
  | VBool false => OK "False"
  | VInt z => str_int z
  | VStr s => OK (repr_str s)
  | VList l =>
      body <- (fix items (l : list value) : result string :=
                 match l with
                 | [] => OK ""
                 | [x] => repr x
                 | x :: l' =>
                     a <- repr x ;; b <- items l' ;; OK (a ++ ", " ++ b)
                 end) l ;;
      OK ("[" ++ body ++ "]")
  | VDict d =>
      body <- (fix items (d : list (string * value)) : result string :=
                 match d with
                 | [] => OK ""
                 | [(k, x)] => a <- repr x ;; OK (repr_str k ++ ": " ++ a)
                 | (k, x) :: d' =>
                     a <- repr x ;; b <- items d' ;;
                     OK (repr_str k ++ ": " ++ a ++ ", " ++ b)
                 end) d ;;
      OK ("{" ++ body ++ "}")
  end.

(** [str(v)], the rendering [%s] uses. *)
Definition str (v : value) : result string :=
  match v with
  | VStr s => OK s
  | _ => repr v
  end.

Definition as_num (v : value) : option Z :=
  match v with
  | VBool b => Some (Z.b2z b)
  | VInt z => Some z
  | _ => None
  end.

(** [a == b].  Lists compare item by item; dicts compare as maps,
    whatever the order of their items; [True == 1]. *)
Fixpoint eqb (a b : value) : bool :=
  match a, b with
  | VNone, VNone => true
  | VStr s, VStr t => String.eqb s t
  | VList l, VList m =>
      (fix all2 (l m : list value) : bool :=
         match l, m with
         | [], [] => true
         | x :: l', y :: m' => (eqb x y && all2 l' m')%bool
         | _, _ => false
         end) l m
  | VDict d, VDict e =>
      (Nat.eqb (List.length d) (List.length e)
       && (fix sub (d : list (string * value)) : bool :=
             match d with
             | [] => true
             | (k, x) :: d' =>
                 (match dict_get k e with
                  | Some y => eqb x y
                  | None => false
                  end && sub d')%bool
             end) d)%bool
  | _, _ =>
      match as_num a, as_num b with
      | Some x, Some y => (x =? y)%Z
      | _, _ => false
      end
  end.

End Py.

(** ** MusicObject.__init__ and the three constructors *)

(** [MusicObject.__init__]: the four fields common to songs, artists and
    albums, assigned in this order. *)
Definition MusicObject_init (self : dict) (id name kind full : value) : dict :=
  dict_set "full" full
    (dict_set "kind" kind (dict_set "name" name (dict_set "id" id self))).

(** [Song.time_from_ms] *)
Definition Song_time_from_ms (ms : value) : result string :=
  ms <- Py.int ms ;;
  minutes <- Py.str_int (ms / 60000) ;;
  let minutes := Py.zfill 2 minutes in
  seconds <- Py.str_int ((ms / 1000) mod 60) ;;
  let seconds := Py.zfill 2 seconds in
  OK (minutes ++ ":" ++ seconds).

(** A constructor takes the record, the [full] argument and the [source]
    argument, and yields the entity or raises. *)
Definition ctor : Type := value -> value -> string -> result dict.

(** A list of entities, as stored under ['songs'] or ['albums']. *)
Definition entities (l : list dict) : value := VList (map VDict l).

(** The bodies of the three [__init__] methods.  Each class builds
    entities of the other two, so the bodies are written over the
    constructors they call; the knot is tied below. *)
Section Bodies.

Variables Artist Album Song : ctor.

(** [Artist.__init__(self, artist, full=False, source='api')] *)
Definition Artist_body (artist full : value) (source : string)
  : result dict :=
  if source =? "api" then
    id <- Py.getitem artist "artistId" ;;
    name <- Py.getitem artist "name" ;;
    let self := MusicObject_init [] id name (VStr "artist") full in
    songs <- try_except
               (tracks <- Py.getitem artist "topTracks" ;;
                items <- Py.iter tracks ;;
                mapM (fun s => Song s (VBool true) "api") items)
               is_KeyError (OK []) ;;
    let self := dict_set "songs" (entities songs) self in
    albums <- try_except
                (albums <- Py.getitem artist "albums" ;;
                 items <- Py.iter albums ;;
                 mapM (fun a => Album a (VBool false) "api") items)
                is_KeyError (OK []) ;;
    OK (dict_set "albums" (entities albums) self)
  else if source =? "json" then
    id <- Py.getitem artist "id" ;;
    name <- Py.getitem artist "name" ;;
    let self := MusicObject_init [] id name (VStr "artist") full in
    songs <- (songs <- Py.getitem artist "songs" ;;
              items <- Py.iter songs ;;
              mapM (fun song => Song song (VBool true) "json") items) ;;
    let self := dict_set "songs" (entities songs) self in
    albums <- (albums <- Py.getitem artist "albums" ;;
               items <- Py.iter albums ;;
               mapM (fun album => Album album (VBool false) "json") items) ;;
    OK (dict_set "albums" (entities albums) self)
  else OK [].

(** [Album.__init__(self, album, full=False, source='api')] *)
Definition Album_body (album full : value) (source : string)
  : result dict :=
  if source =? "api" then
    id <- Py.getitem album "albumId" ;;
    name <- Py.getitem album "name" ;;
    let self := MusicObject_init [] id name (VStr "album") full in
    artist <- (ids <- Py.getitem album "artistId" ;;
               id0 <- Py.getitem0 ids ;;
               aname <- Py.getitem album "artist" ;;
               Artist (VDict [("artistId", id0); ("name", aname)])
                      (VBool false) "api") ;;
    let self := dict_set "artist" (VDict artist) self in
    songs <- try_except
               (tracks <- Py.getitem album "tracks" ;;
                items <- Py.iter tracks ;;
                mapM (fun s => Song s (VBool true) "api") items)
               is_KeyError (OK []) ;;
    OK (dict_set "songs" (entities songs) self)
  else if source =? "json" then
    id <- Py.getitem album "id" ;;
    name <- Py.getitem album "name" ;;
    let self := MusicObject_init [] id name (VStr "album") full in
    artist <- (a <- Py.getitem album "artist" ;;
               Artist a (VBool false) "json") ;;
    let self := dict_set "artist" (VDict artist) self in
    songs <- (songs <- Py.getitem album "songs" ;;
              items <- Py.iter songs ;;
              mapM (fun song => Song song (VBool true) "json") items) ;;
    OK (dict_set "songs" (entities songs) self)
  else OK [].

(** [Song.__init__(self, song, full=True, source='api')] *)
Definition Song_body (song full : value) (source : string)
  : result dict :=
  if source =? "api" then
    id <- Py.getitem song "storeId" ;;
    name <- Py.getitem song "title" ;;
    let self := MusicObject_init [] id name (VStr "song") full in
    artist <- try_except
                (aname <- Py.getitem song "artist" ;;
                 ids <- Py.getitem song "artistId" ;;
                 id0 <- Py.getitem0 ids ;;
                 Artist (VDict [("name", aname); ("artistId", id0)])
                        (VBool false) "api")
                is_TypeError
                (aname <- Py.getitem song "artist" ;;
                 ids <- Py.getitem song "artistId" ;;
                 Artist (VDict [("name", aname); ("artistId", ids)])
                        (VBool false) "api") ;;
    let self := dict_set "artist" (VDict artist) self in
    album <- (alname <- Py.getitem song "album" ;;
              alid <- Py.getitem song "albumId" ;;
              aname <- Py.getitem song "artist" ;;
              ids <- Py.getitem song "artistId" ;;
              Album (VDict [("name", alname); ("albumId", alid);
                            ("artist", aname); ("artistId", ids)])
                    (VBool false) "api") ;;
    let self := dict_set "album" (VDict album) self in
    time <- (ms <- Py.getitem song "durationMillis" ;;
             Song_time_from_ms ms) ;;
    OK (dict_set "time" (VStr time) self)
  else if source =? "json" then
    id <- Py.getitem song "id" ;;
    name <- Py.getitem song "name" ;;
    let self := MusicObject_init [] id name (VStr "song") full in
    artist <- (a <- Py.getitem song "artist" ;;
               Artist a (VBool false) "json") ;;
    let self := dict_set "artist" (VDict artist) self in
    album <- (a <- Py.getitem song "album" ;;
              Album a (VBool false) "json") ;;
    let self := dict_set "album" (VDict album) self in
    time <- Py.getitem song "time" ;;
    OK (dict_set "time" time self)
  else OK [].

End Bodies.

(** The constructors at recursion depth [n]: a call nested deeper than
    [n] raises [RecursionError]. *)
Fixpoint Artist_at (n : nat) (artist full : value) (source : string)
  {struct n} : result dict :=
  match n with
  | O => Raise RecursionError
  | S n' => Artist_body (Album_at n') (Song_at n') artist full source
  end
with Album_at (n : nat) (album full : value) (source : string)
  {struct n} : result dict :=
  match n with
  | O => Raise RecursionError
  | S n' => Album_body (Artist_at n') (Song_at n') album full source
  end
with Song_at (n : nat) (song full : value) (source : string)
  {struct n} : result dict :=
  match n with
  | O => Raise RecursionError
  | S n' => Song_body (Artist_at n') (Album_at n') song full source
  end.

(** A record of height [h] nests its constructor calls at most
    [3 * h + 3] deep: a call on a nested record lowers the height, a call
    on a freshly built dict goes from Song to Album to Artist. *)
Definition depth_for (record : value) : nat := 3 * height record + 3.

Definition Artist_init : ctor :=
  fun artist => Artist_at (depth_for artist) artist.

Definition Album_init : ctor :=
  fun album => Album_at (depth_for album) album.

Definition Song_init : ctor :=
  fun song => Song_at (depth_for song) song.

(** ** Methods that only read the entity *)

(** [Artist.verify] *)
Definition Artist_verify (item : dict) : bool :=
  forallb (fun k => dict_mem k item)
    ["id"; "name"; "kind"; "full"; "songs"; "albums"].

(** [Album.verify] *)
Definition Album_verify (item : dict) : bool :=
  forallb (fun k => dict_mem k item)
    ["id"; "name"; "kind"; "full"; "artist"; "songs"].

(** [Song.verify]: the source tests [k], not [k in item]. *)
Definition Song_verify (item : dict) : bool :=
  forallb (fun k => Py.truthy (VStr k))
    ["id"; "name"; "kind"; "full"; "artist"; "album"; "time"].

(** The method [MusicObject.__hash__], called as [e.__hash__()]: the
    decimal code points of the id, joined into a string. *)
Definition MusicObject_hash (self : dict) : result string :=
  id <- Py.getitem (VDict self) "id" ;;
  cs <- Py.iter id ;;
  parts <- mapM (fun c => o <- Py.ord c ;; Py.str_int o) cs ;;
  OK (Py.concat parts).

(** [hash(e)], which sets, dict keys and [in] on them use: it calls
    [__hash__] and refuses a result that is not an integer. *)
Definition entity_hash (self : dict) : result Z :=
  _ <- MusicObject_hash self ;;
  Raise TypeError.

(** No class of the module defines [__eq__]: two entities compare as the
    dicts they are. *)
Definition MusicObject_eq (a b : dict) : bool := Py.eqb (VDict a) (VDict b).

(** [Artist.__str__]; [str()] refuses a result that is not a [str]. *)
Definition Artist_str (self : value) : result string :=
  name <- Py.getitem self "name" ;;
  match name with
  | VStr s => OK s
  | _ => Raise TypeError
  end.

(** [Album.__str__] *)
Definition Album_str (self : value) : result string :=
  name <- Py.getitem self "name" ;;
  artist <- Py.getitem self "artist" ;;
  aname <- Py.getitem artist "name" ;;
  Py.join " - " [name; aname].

(** [Song.__str__] *)
Definition Song_str (self : value) : result string :=
  name <- Py.getitem self "name" ;;
  artist <- Py.getitem self "artist" ;;
  aname <- Py.getitem artist "name" ;;
  Py.join " - " [name; aname].

(** ** Methods with effects *)

(** What the module does to the outside world, in the order it does it. *)
Inductive event : Type :=
| EvIsFile (path : string)
| EvGoodbye (msg : string)
| EvGetStreamUrl (id : value)
| EvNowPlaying (line : string)
| EvCall (argv : list string)
| EvLookup (id : value) (max_top_tracks : option Z).

(** The state a method runs in: the entity [self] it may assign to, and
    the events so far, oldest first. *)
Record state : Type := mkState { self_of : dict; trace : list event }.

Definition M (A : Type) : Type := state -> result A * state.

Definition ret {A} (a : A) : M A := fun st => (OK a, st).

Definition bind {A B} (m : M A) (f : A -> M B) : M B :=
  fun st =>
    match m st with
    | (OK a, st') => f a st'
    | (Raise e, st') => (Raise e, st')
    end.

Declare Scope M_scope.
Delimit Scope M_scope with M.
Notation "x <- m ;; k" := (bind m (fun x => k))
  (at level 61, m at next level, right associativity) : M_scope.

Definition lift {A} (r : result A) : M A := fun st => (r, st).

Definition emit (e : event) : M unit :=
  fun st => (OK tt, mkState (self_of st) (trace st ++ [e])%list).

Definition get_self : M dict := fun st => (OK (self_of st), st).

(** [self[k]] *)
Definition self_getitem (k : string) : M value :=
  fun st => (Py.getitem (VDict (self_of st)) k, st).

(** [self[k] = v] *)
Definition self_setitem (k : string) (v : value) : M unit :=
  fun st => (OK tt, mkState (dict_set k v (self_of st)) (trace st)).

Definition is_call (e : event) : bool :=
  match e with EvCall _ => true | _ => false end.

Definition is_isfile (e : event) : bool :=
  match e with EvIsFile _ => true | _ => false end.

Definition count_events (p : event -> bool) (tr : list event) : nat :=
  List.length (filter p tr).

(** [a/b], as [os.path.join] builds it for a relative [b]. *)
Definition path_join (a b : string) : string :=
  match List.rev (list_ascii_of_string a) with
  | [] => b
  | c :: _ => if Ascii.eqb c "/" then a ++ b else a ++ "/" ++ b
  end.

(** ['(%d/%d) %s (%s)' % (i, n, song, time)]; [i] and [n] are bounded by
    the length of a list, far below the digit limit of [str]. *)
Definition now_playing_line (i n : nat) (song time : string) : string :=
  "(" ++ Py.str_of_Z (Z.of_nat i) ++ "/" ++ Py.str_of_Z (Z.of_nat n)
      ++ ") " ++ song ++ " (" ++ time ++ ")".

(** A lookup capability as [fill] receives it: the id and, for artists,
    the [max_top_tracks] keyword. *)
Definition lookup_fn : Type := value -> option Z -> result value.

Definition call_lookup (func : lookup_fn) (id : value) (kw : option Z)
  : M value :=
  (_ <- emit (EvLookup id kw) ;; lift (func id kw))%M.

(** [[Song(song) for song in record[key]]] *)
Definition songs_of (record : value) (key : string) : result (list dict) :=
  tracks <- Py.getitem record key ;;
  items <- Py.iter tracks ;;
  mapM (fun song => Song_init song (VBool true) "api") items.

(** [[Album(album) for album in record[key]]] *)
Definition albums_of (record : value) (key : string) : result (list dict) :=
  albums <- Py.getitem record key ;;
  items <- Py.iter albums ;;
  mapM (fun album => Album_init album (VBool false) "api") items.

(** [Artist.fill(self, func, limit=100)] *)
Definition Artist_fill (func : lookup_fn) (limit : Z) : M unit :=
  (full <- self_getitem "full" ;;
   if Py.truthy full then ret tt
   else
     id <- self_getitem "id" ;;
     data <- call_lookup func id (Some limit) ;;
     songs <- lift (songs_of data "topTracks") ;;
     _ <- self_setitem "songs" (entities songs) ;;
     albums <- lift (albums_of data "albums") ;;
     _ <- self_setitem "albums" (entities albums) ;;
     self_setitem "full" (VBool true))%M.

(** [Album.fill(self, func, limit=100)]: the limit is not used. *)
Definition Album_fill (func : lookup_fn) (limit : Z) : M unit :=
  (full <- self_getitem "full" ;;
   if Py.truthy full then ret tt
   else
     id <- self_getitem "id" ;;
     data <- call_lookup func id None ;;
     songs <- lift (songs_of data "tracks") ;;
     _ <- self_setitem "songs" (entities songs) ;;
     self_setitem "full" (VBool true))%M.

(** [Song.fill(self, func, limit=0)] *)
Definition Song_fill (func : lookup_fn) (limit : Z) : M unit := ret tt.

(** [self[key][:min(len(self[key]), limit)]] *)
Definition self_first (key : string) (limit : Z) : M value :=
  (items <- self_getitem key ;;
   n <- lift (Py.len items) ;;
   lift (Py.slice_to items (Z.min n limit)))%M.

(** [Artist.collect(self, limit=20)] *)
Definition Artist_collect (limit : Z) : M value :=
  (songs <- self_first "songs" limit ;;
   self <- get_self ;;
   albums <- self_first "albums" limit ;;
   ret (VDict [("songs", songs); ("artists", VList [VDict self]);
               ("albums", albums)]))%M.

(** [Album.collect(self, limit=20)] *)
Definition Album_collect (limit : Z) : M value :=
  (songs <- self_first "songs" limit ;;
   artist <- self_getitem "artist" ;;
   self <- get_self ;;
   ret (VDict [("songs", songs); ("artists", VList [artist]);
               ("albums", VList [VDict self])]))%M.

(** [Song.collect(self, limit=None)] *)
Definition Song_collect (limit : option Z) : M value :=
  (self <- get_self ;;
   artist <- self_getitem "artist" ;;
   album <- self_getitem "album" ;;
   ret (VDict [("songs", VList [VDict self]); ("artists", VList [artist]);
               ("albums", VList [album])]))%M.

(** The collaborators of [play], none of them part of this module: the
    home directory that [expanduser('~')] yields, the file system as
    [isfile] sees it, what a call of [consts.w.goodbye] comes to (it
    returns, or raises), the stream-URL lookup of the API client, and the
    exit status of the k-th run of the player (k = 1 for the first). *)
Record world : Type := mkWorld {
  home : string;
  isfile : string -> bool;
  goodbye_outcome : string -> result unit;
  get_stream_url : value -> result string;
  mpv_exit : nat -> Z
}.

Section Playback.

Variable w : world.

Definition conf_path : string :=
  path_join (path_join (path_join (home w) ".config") "pmcli")
    "mpv_input.conf".

Definition check_isfile (path : string) : M bool :=
  (_ <- emit (EvIsFile path) ;; ret (isfile w path))%M.

(** [consts.w.goodbye(msg)] *)
Definition goodbye (msg : string) : M unit :=
  (_ <- emit (EvGoodbye msg) ;; lift (goodbye_outcome w msg))%M.

(** Modelled from the spec: [consts.w.now_playing] is the progress
    sink; it takes the line and returns. *)
Definition now_playing (line : string) : M unit := emit (EvNowPlaying line).

Definition stream_url (id : value) : M string :=
  (_ <- emit (EvGetStreamUrl id) ;; lift (get_stream_url w id))%M.

(** [subprocess.call(argv)]: runs the player and yields its exit status. *)
Definition call (argv : list string) : M Z :=
  fun st =>
    let k := S (count_events is_call (trace st)) in
    (OK (mpv_exit w k), mkState (self_of st) (trace st ++ [EvCall argv])%list).

(** The [for] loop of [play], from the song numbered [i] on; [n] is
    [len(songs)].  The items are songs, so [str(song)] is
    [Song.__str__]. *)
Fixpoint play_from (n i : nat) (songs : list value) : M (option nat) :=
  match songs with
  | [] => ret None
  | song :: rest =>
      (id <- lift (Py.getitem song "id") ;;
       url <- stream_url id ;;
       title <- lift (Song_str song) ;;
       time <- lift (Py.getitem song "time") ;;
       shown <- lift (Py.str time) ;;
       _ <- now_playing (now_playing_line i n title shown) ;;
       code <- call ["mpv"; "--really-quiet"; "--input-conf"; conf_path; url] ;;
       if (code =? 11)%Z then ret (if (i <? n)%nat then Some i else None)
       else play_from n (S i) rest)%M
  end.

(** [MusicObject.play(songs)] *)
Definition MusicObject_play (songs : list value) : M (option nat) :=
  (found <- check_isfile conf_path ;;
   _ <- (if negb found then goodbye "No mpv_input.conf found."
         else ret tt) ;;
   play_from (List.length songs) 1 songs)%M.

(** [MusicObject.play(songs)] on any object: the loop looks at [songs]
    only once the configuration file has been checked. *)
Definition MusicObject_play_value (songs : value) : M (option nat) :=
  (found <- check_isfile conf_path ;;
   _ <- (if negb found then goodbye "No mpv_input.conf found."
         else ret tt) ;;
   items <- lift (Py.iter songs) ;;
   play_from (List.length items) 1 items)%M.


(** [Artist.play(self)], with [consts.mapping['artists']['lookup']]
    as [lookup]. *)
Definition Artist_play (lookup : lookup_fn) : M unit :=
  (full <- self_getitem "full" ;;
   _ <- (if negb (Py.truthy full) then Artist_fill lookup 100 else ret tt) ;;
   songs <- self_getitem "songs" ;;
   _ <- MusicObject_play_value songs ;;
   ret tt)%M.

(** [Album.play(self)], with [consts.mapping['albums']['lookup']] as
    [lookup]. *)
Definition Album_play (lookup : lookup_fn) : M unit :=
  (full <- self_getitem "full" ;;
   _ <- (if negb (Py.truthy full) then Album_fill lookup 100 else ret tt) ;;
   songs <- self_getitem "songs" ;;
   _ <- MusicObject_play_value songs ;;
   ret tt)%M.

(** Whether every step of playing [song] before the player starts
    goes through: its id and time are there, its title and time
    render, and the stream URL resolves. *)
Definition playable (song : value) : bool :=
  match (id <- Py.getitem song "id" ;;
         _ <- get_stream_url w id ;;
         _ <- Song_str song ;;
         time <- Py.getitem song "time" ;;
         Py.str time) with
  | OK _ => true
  | Raise _ => false
  end.

End Playback.


(** A method run on [self] from an empty trace. *)
Definition run {A} (m : M A) (self : dict) : result A * state :=
  m (mkState self []).

(** The persisted shape of an entity: an entity is a dict, and writing
    it out keeps its items as they are. *)
Definition persisted (e : dict) : value := VDict e.

(** ** Sample records *)

(** A song record as the API returns it, with the given [artistId]. *)
Definition api_song (store_id title : string) (artist_id : value) : value :=
  VDict [("storeId", VStr store_id); ("title", VStr title);
         ("artist", VStr "Nina"); ("artistId", artist_id);
         ("album", VStr "Live"); ("albumId", VStr "B1");
         ("durationMillis", VStr "125000")].

Definition api_album : value :=
  VDict [("albumId", VStr "B1"); ("name", VStr "Live");
         ("artistId", VList [VStr "A1"]); ("artist", VStr "Nina");
         ("tracks", VList [api_song "S1" "One" (VList [VStr "A1"]);
                           api_song "S2" "Two" (VList [VStr "A1"])])].

Definition api_artist : value :=
  VDict [("artistId", VStr "A1"); ("name", VStr "Nina");
         ("topTracks", VList [api_song "S1" "One" (VList [VStr "A1"]);
                              api_song "S2" "Two" (VList [VStr "A1"]);
                              api_song "S3" "Three" (VList [VStr "A1"])]);
         ("albums", VList [api_album])].

(** A song record without its ['storeId']. *)
Definition api_song_no_id : value :=
  VDict [("title", VStr "One"); ("artist", VStr "Nina");
         ("artistId", VList [VStr "A1"]); ("album", VStr "Live");
         ("albumId", VStr "B1"); ("durationMillis", VStr "125000")].

(** The entity a constructor returned, or the empty dict if it raised. *)
Definition built (r : result dict) : dict :=
  match r with
  | OK e => e
  | Raise _ => []
  end.

Definition nina : dict := built (Artist_init api_artist (VBool false) "api").

Definition nina_partial : dict :=
  built (Artist_init (VDict [("artistId", VStr "A1"); ("name", VStr "Nina")])
           (VBool false) "api").

Definition simone_partial : dict :=
  built (Artist_init (VDict [("artistId", VStr "A1"); ("name", VStr "Simone")])
           (VBool false) "api").

Definition live : dict := built (Album_init api_album (VBool false) "api").

Definition song_one : dict :=
  built (Song_init (api_song "S1" "One" (VList [VStr "A1"])) (VBool true) "api").

Definition nina_songs : list value :=
  match dict_get "songs" nina with
  | Some (VList l) => l
  | _ => []
  end.

Definition nina_albums : list value :=
  match dict_get "albums" nina with
  | Some (VList l) => l
  | _ => []
  end.

(** A persisted artist, its keys in another order and with one more. *)
Definition json_artist : value :=
  VDict [("name", VStr "Nina"); ("note", VStr "kept by hand");
         ("albums", VList [VDict live]); ("songs", VList [VDict song_one]);
         ("id", VStr "A1")].

Definition nina_short : dict :=
  built (Artist_init json_artist (VBool false) "json").

Definition queue3 : list value :=
  map (fun r => VDict (built (Song_init r (VBool true) "api")))
    [api_song "S1" "One" (VList [VStr "A1"]);
     api_song "S2" "Two" (VList [VStr "A1"]);
     api_song "S3" "Three" (VList [VStr "A1"])].

(** A world where the configuration file is there or not, [goodbye]
    exits, every stream URL resolves, and the player quits on its run
    number [quit_at]. *)
Definition sample_world (conf_found : bool) (quit_at : nat) : world :=
  mkWorld "/home/nina" (fun _ => conf_found)
    (fun msg => Raise (SystemExit msg))
    (fun id => s <- Py.str id ;; OK ("https://stream/" ++ s))
    (fun k => if (k =? quit_at)%nat then 11%Z else 0%Z).

(** A lookup capability that knows one artist and one album. *)
Definition sample_lookup : lookup_fn :=
  fun id _ =>
    if Py.eqb id (VStr "A1") then OK api_artist
    else if Py.eqb id (VStr "B1") then OK api_album
    else Raise (ExternalError "not found").

(** ** Further definitions *)

(** The first of [keys], in order, that [d] does not have. *)
Definition first_missing (keys : list string) (d : dict) : option string :=
  find (fun k => negb (dict_mem k d)) keys.

Definition is_dict (v : value) : bool :=
  match v with VDict _ => true | _ => false end.

Definition is_url (e : event) : bool :=
  match e with EvGetStreamUrl _ => true | _ => false end.

Definition is_report (e : event) : bool :=
  match e with EvNowPlaying _ => true | _ => false end.

Definition is_lookup (e : event) : bool :=
  match e with EvLookup _ _ => true | _ => false end.

(** The events of the loop of [play]: stream-URL lookups, progress
    lines and runs of the player. *)
Definition is_round (e : event) : bool :=
  (is_url e || is_report e || is_call e)%bool.


(** The second half of [Artist.play] and [Album.play]:
    [MusicObject.play(self['songs'])]. *)
Definition play_own_songs (w : world) : M unit :=
  (songs <- self_getitem "songs" ;;
   _ <- MusicObject_play_value w songs ;;
   ret tt)%M.

Definition is_digit (c : ascii) : bool :=
  match Py.digit_of c with Some _ => true | None => false end.

(** A persisted artist that calls itself a full album. *)
Definition mislabelled_artist : value :=
  VDict [("id", VStr "A1"); ("name", VStr "Nina"); ("kind", VStr "album");
         ("full", VBool true); ("songs", VList []); ("albums", VList [])].

(** A lookup capability that is out of reach. *)
Definition offline_lookup : lookup_fn :=
  fun _ _ => Raise (ExternalError "offline").

(** A lookup capability whose artist has good top tracks and an album
    that is no record at all. *)
Definition broken_albums_lookup : lookup_fn :=
  fun _ _ =>
    OK (VDict [("artistId", VStr "A1"); ("name", VStr "Nina");
               ("topTracks", VList [api_song "S1" "One" (VList [VStr "A1"])]);
               ("albums", VList [VInt 1])]).

(** [item] without its key [k]. *)
Definition persisted_without (k : string) (item : dict) : dict :=
  filter (fun kv => negb (String.eqb (fst kv) k)) item.

(** * Properties *)

(** ** The error monad *)

Lemma rbind_ext {A B} (m : result A) (f g : A -> result B) :
  (forall a, m = OK a -> f a = g a) -> rbind m f = rbind m g.
Proof. destruct m; simpl; auto. Qed.

Lemma rbind_cong {A B} (m m' : result A) (f g : A -> result B) :
  m = m' -> (forall a, m = OK a -> f a = g a) -> rbind m f = rbind m' g.
Proof. intros <-. apply rbind_ext. Qed.

Lemma rbind_OK {A B} (m : result A) (f : A -> result B) (b : B) :
  rbind m f = OK b -> exists a, m = OK a /\ f a = OK b.
Proof. destruct m; simpl; [eauto | discriminate]. Qed.

Lemma mapM_ext {A B} (f g : A -> result B) (l : list A) :
  (forall x, In x l -> f x = g x) -> mapM f l = mapM g l.
Proof.
  induction l as [|x l IH]; simpl; intros H; [reflexivity|].
  rewrite (H x (or_introl eq_refl)), IH by auto. reflexivity.
Qed.

Lemma try_except_ext {A} (b b' h h' : result A) (c : exn -> bool) :
  b = b' -> h = h' -> try_except b c h = try_except b' c h'.
Proof. intros; subst; reflexivity. Qed.

(** ** Heights *)

Lemma height_VList (l : list value) : height (VList l) = S (heights l).
Proof.
  reflexivity.
Qed.

Lemma height_VDict (d : dict) : height (VDict d) = S (dict_height d).
Proof.
  simpl. f_equal. induction d as [|[k x] d IH]; simpl; [reflexivity|].
  now rewrite IH.
Qed.

Lemma heights_In (l : list value) (x : value) :
  In x l -> height x <= heights l.
Proof.
  induction l as [|y l IH]; simpl; [tauto|].
  intros [->|H]; [lia | specialize (IH H); lia].
Qed.

Lemma dict_get_height (k : string) (d : dict) (v : value) :
  dict_get k d = Some v -> height v <= dict_height d.
Proof.
  induction d as [|[k' x] d IH]; simpl; [discriminate|].
  destruct (k =? k').
  - intros [= ->]. lia.
  - intros H. specialize (IH H). lia.
Qed.

Lemma getitem_height (r v : value) (k : string) :
  Py.getitem r k = OK v -> height v < height r.
Proof.
  destruct r; simpl; try discriminate.
  destruct (dict_get k d) eqn:E; [|discriminate].
  intros [= ->]. apply dict_get_height in E.
  change (height v < height (VDict d)). rewrite height_VDict. lia.
Qed.

Lemma chars_height (s : string) (x : value) : In x (Py.chars s) -> height x = 0.
Proof.
  induction s as [|c s IH]; simpl; [tauto|].
  intros [<-|H]; auto.
Qed.

Lemma iter_height (v x : value) (l : list value) :
  Py.iter v = OK l -> In x l -> height x <= height v.
Proof.
  destruct v; simpl; try discriminate; intros [= <-] H.
  - apply chars_height in H. lia.
  - apply heights_In in H.
    change (height x <= height (VList l0)). rewrite height_VList. lia.
  - apply in_map_iff in H. destruct H as [kv [<- _]]. simpl. lia.
Qed.

Lemma getitem0_height (v x : value) :
  Py.getitem0 v = OK x -> height x <= height v.
Proof.
  destruct v; simpl; try discriminate.
  - destruct s; [discriminate|]. intros [= <-]. simpl. lia.
  - destruct l as [|y l]; [discriminate|]. intros [= <-].
    change (height y <= height (VList (y :: l))). rewrite height_VList.
    simpl. lia.
Qed.

(** The items of [record[key]] lie strictly below [record]. *)
Lemma items_height (r c x : value) (k : string) (l : list value) :
  Py.getitem r k = OK c -> Py.iter c = OK l -> In x l -> height x < height r.
Proof.
  intros Hc Hl Hx. apply getitem_height in Hc.
  pose proof (iter_height _ _ _ Hl Hx). lia.
Qed.

Lemma fresh2_height (r : value) (k1 k2 : string) (x1 x2 : value) :
  height x1 < height r -> height x2 < height r ->
  height (VDict [(k1, x1); (k2, x2)]) <= height r.
Proof. intros. rewrite height_VDict. simpl. lia. Qed.

Lemma fresh4_height (r : value) (k1 k2 k3 k4 : string) (x1 x2 x3 x4 : value) :
  height x1 < height r -> height x2 < height r ->
  height x3 < height r -> height x4 < height r ->
  height (VDict [(k1, x1); (k2, x2); (k3, x3); (k4, x4)]) <= height r.
Proof. intros. rewrite height_VDict. simpl. lia. Qed.

(** ** The constructors do not depend on the recursion depth *)

Section BodiesExt.

Variables Artist Album Song Artist' Album' Song' : ctor.

Ltac step := apply rbind_ext; intros ? ?.

Ltac below :=
  repeat match goal with
    | H : Py.getitem _ _ = OK _ |- _ => apply getitem_height in H
    | H : Py.getitem0 _ = OK _ |- _ => apply getitem0_height in H
    end; lia.

Lemma Artist_body_ext (r full : value) (source : string) :
  (forall v f s, height v < height r -> Album v f s = Album' v f s) ->
  (forall v f s, height v < height r -> Song v f s = Song' v f s) ->
  Artist_body Album Song r full source = Artist_body Album' Song' r full source.
Proof.
  intros HA HS. unfold Artist_body.
  destruct (source =? "api"); [|destruct (source =? "json"); [|reflexivity]].
  - do 2 step. apply rbind_cong; [apply try_except_ext; [|reflexivity]|intros].
    { do 2 step. apply mapM_ext; intros x Hx. apply HS. eauto using items_height. }
    apply rbind_cong; [apply try_except_ext; [|reflexivity]|reflexivity].
    do 2 step. apply mapM_ext; intros x Hx. apply HA. eauto using items_height.
  - do 2 step. apply rbind_cong; [|intros].
    { do 2 step. apply mapM_ext; intros x Hx. apply HS. eauto using items_height. }
    apply rbind_cong; [|reflexivity].
    do 2 step. apply mapM_ext; intros x Hx. apply HA. eauto using items_height.
Qed.

Lemma Album_body_ext (r full : value) (source : string) :
  (forall v f s, height v <= height r -> Artist v f s = Artist' v f s) ->
  (forall v f s, height v < height r -> Song v f s = Song' v f s) ->
  Album_body Artist Song r full source = Album_body Artist' Song' r full source.
Proof.
  intros HA HS. unfold Album_body.
  destruct (source =? "api"); [|destruct (source =? "json"); [|reflexivity]].
  - do 2 step. apply rbind_cong; [|intros].
    { do 3 step. apply HA. apply fresh2_height; below. }
    apply rbind_cong; [apply try_except_ext; [|reflexivity]|reflexivity].
    do 2 step. apply mapM_ext; intros x Hx. apply HS. eauto using items_height.
  - do 2 step. apply rbind_cong; [|intros].
    { step. apply HA. below. }
    apply rbind_cong; [|reflexivity].
    do 2 step. apply mapM_ext; intros x Hx. apply HS. eauto using items_height.
Qed.

Lemma Song_body_ext (r full : value) (source : string) :
  (forall v f s, height v <= height r -> Artist v f s = Artist' v f s) ->
  (forall v f s, height v <= height r -> Album v f s = Album' v f s) ->
  Song_body Artist Album r full source = Song_body Artist' Album' r full source.
Proof.
  intros HA HB. unfold Song_body.
  destruct (source =? "api"); [|destruct (source =? "json"); [|reflexivity]].
  - do 2 step. apply rbind_cong; [apply try_except_ext|intros].
    { do 3 step. apply HA. apply fresh2_height; below. }
    { do 2 step. apply HA. apply fresh2_height; below. }
    apply rbind_cong; [|reflexivity].
    do 4 step. apply HB. apply fresh4_height; below.
  - do 2 step. apply rbind_cong; [|intros].
    { step. apply HA. below. }
    apply rbind_cong; [|reflexivity].
    step. apply HB. below.
Qed.

End BodiesExt.

(** Any two depths above the bound give the same result. *)
Lemma ctor_at_irrelevant (n : nat) :
  forall m r f s,
    (3 * height r < n -> 3 * height r < m ->
     Artist_at n r f s = Artist_at m r f s) /\
    (3 * height r + 1 < n -> 3 * height r + 1 < m ->
     Album_at n r f s = Album_at m r f s) /\
    (3 * height r + 2 < n -> 3 * height r + 2 < m ->
     Song_at n r f s = Song_at m r f s).
Proof.
  induction n as [|n IH]; intros m r f s; (split; [|split]); intros Hn Hm;
    try lia; (destruct m as [|m]; [lia|]); simpl.
  - apply Artist_body_ext; intros v f' s' Hv; apply IH; lia.
  - apply Album_body_ext; intros v f' s' Hv; apply IH; lia.
  - apply Song_body_ext; intros v f' s' Hv; apply IH; lia.
Qed.

(** The constructors satisfy the equations of the source: each
    [__init__] runs its body over the other two constructors. *)
Lemma Artist_init_eq (artist full : value) (source : string) :
  Artist_init artist full source
  = Artist_body Album_init Song_init artist full source.
Proof.
  unfold Artist_init at 1, depth_for.
  replace (3 * height artist + 3) with (S (3 * height artist + 2)) by lia.
  simpl. apply Artist_body_ext; intros v f s Hv;
    apply ctor_at_irrelevant; unfold depth_for; lia.
Qed.

Lemma Album_init_eq (album full : value) (source : string) :
  Album_init album full source
  = Album_body Artist_init Song_init album full source.
Proof.
  unfold Album_init at 1, depth_for.
  replace (3 * height album + 3) with (S (3 * height album + 2)) by lia.
  simpl. apply Album_body_ext; intros v f s Hv;
    apply ctor_at_irrelevant; unfold depth_for; lia.
Qed.

Lemma Song_init_eq (song full : value) (source : string) :
  Song_init song full source
  = Song_body Artist_init Album_init song full source.
Proof.
  unfold Song_init at 1, depth_for.
  replace (3 * height song + 3) with (S (3 * height song + 2)) by lia.
  simpl. apply Song_body_ext; intros v f s Hv;
    apply ctor_at_irrelevant; unfold depth_for; lia.
Qed.

(** ** The recursion depth is never exhausted *)

Lemma clean_OK {A} (a : A) : clean (OK a).
Proof. discriminate. Qed.

Lemma clean_bind {A B} (m : result A) (f : A -> result B) :
  clean m -> (forall a, m = OK a -> clean (f a)) -> clean (rbind m f).
Proof.
  destruct m; simpl; intros H1 H2; [exact (H2 a eq_refl)|].
  intros [= ->]. now apply H1.
Qed.

Lemma clean_mapM {A B} (f : A -> result B) (l : list A) :
  (forall x, In x l -> clean (f x)) -> clean (mapM f l).
Proof.
  induction l as [|x l IH]; simpl; intros H; [apply clean_OK|].
  apply clean_bind; [auto|intros y _].
  apply clean_bind; [auto|intros ys _; apply clean_OK].
Qed.

Lemma clean_try {A} (b h : result A) (c : exn -> bool) :
  clean b -> clean h -> clean (try_except b c h).
Proof.
  unfold try_except. destruct b; auto. destruct (c e); auto.
Qed.

Lemma clean_getitem (v : value) (k : string) : clean (Py.getitem v k).
Proof.
  destruct v; simpl; try discriminate. destruct (dict_get k d); discriminate.
Qed.

Lemma clean_getitem0 (v : value) : clean (Py.getitem0 v).
Proof.
  destruct v as [| | |[|]|[|]|]; discriminate.
Qed.

Lemma clean_iter (v : value) : clean (Py.iter v).
Proof. destruct v; discriminate. Qed.

Lemma clean_str_int (z : Z) : clean (Py.str_int z).
Proof.
  unfold Py.str_int. destruct (Py.max_str_digits <? Py.int_digits z)%nat;
    discriminate.
Qed.

Lemma clean_time_from_ms (ms : value) : clean (Song_time_from_ms ms).
Proof.
  unfold Song_time_from_ms. apply clean_bind.
  - destruct ms; simpl; try discriminate.
    destruct (Py.parse_int s); [|discriminate].
    destruct (Py.max_str_digits <? Py.count_digits s)%nat; discriminate.
  - intros z _. apply clean_bind; [apply clean_str_int|intros m _].
    apply clean_bind; [apply clean_str_int|intros; apply clean_OK].
Qed.

Section BodiesClean.

Variables Artist Album Song : ctor.

Ltac below :=
  repeat match goal with
    | H : Py.getitem _ _ = OK _ |- _ => apply getitem_height in H
    | H : Py.getitem0 _ = OK _ |- _ => apply getitem0_height in H
    end; lia.

Ltac prim :=
  first [ apply clean_OK | apply clean_getitem | apply clean_getitem0
        | apply clean_iter | apply clean_time_from_ms ].

Ltac step := apply clean_bind; [try prim | intros ? ?].

Lemma Artist_body_clean (r full : value) (source : string) :
  (forall v f s, height v < height r -> clean (Album v f s)) ->
  (forall v f s, height v < height r -> clean (Song v f s)) ->
  clean (Artist_body Album Song r full source).
Proof.
  intros HA HS. unfold Artist_body.
  destruct (source =? "api"); [|destruct (source =? "json"); [|prim]].
  - do 2 step. step.
    { apply clean_try; [|prim]. do 2 step.
      apply clean_mapM; intros x Hx. apply HS. eauto using items_height. }
    step; [|prim]. apply clean_try; [|prim]. do 2 step.
    apply clean_mapM; intros x Hx. apply HA. eauto using items_height.
  - do 2 step. step.
    { do 2 step.
      apply clean_mapM; intros x Hx. apply HS. eauto using items_height. }
    step; [|prim]. do 2 step.
    apply clean_mapM; intros x Hx. apply HA. eauto using items_height.
Qed.

Lemma Album_body_clean (r full : value) (source : string) :
  (forall v f s, height v <= height r -> clean (Artist v f s)) ->
  (forall v f s, height v < height r -> clean (Song v f s)) ->
  clean (Album_body Artist Song r full source).
Proof.
  intros HA HS. unfold Album_body.
  destruct (source =? "api"); [|destruct (source =? "json"); [|prim]].
  - do 2 step. step.
    { do 3 step. apply HA. apply fresh2_height; below. }
    step; [|prim]. apply clean_try; [|prim]. do 2 step.
    apply clean_mapM; intros x Hx. apply HS. eauto using items_height.
  - do 2 step. step.
    { step. apply HA. below. }
    step; [|prim]. do 2 step.
    apply clean_mapM; intros x Hx. apply HS. eauto using items_height.
Qed.

Lemma Song_body_clean (r full : value) (source : string) :
  (forall v f s, height v <= height r -> clean (Artist v f s)) ->
  (forall v f s, height v <= height r -> clean (Album v f s)) ->
  clean (Song_body Artist Album r full source).
Proof.
  intros HA HB. unfold Song_body.
  destruct (source =? "api"); [|destruct (source =? "json"); [|prim]].
  - do 2 step. step.
    { apply clean_try.
      - do 3 step. apply HA. apply fresh2_height; below.
      - do 2 step. apply HA. apply fresh2_height; below. }
    step.
    { do 4 step. apply HB. apply fresh4_height; below. }
    step; [|prim]. step. prim.
  - do 2 step. step.
    { step. apply HA. below. }
    step.
    { step. apply HB. below. }
    step. prim.
Qed.

End BodiesClean.

Lemma ctor_at_clean (n : nat) :
  forall r f s,
    (3 * height r < n -> clean (Artist_at n r f s)) /\
    (3 * height r + 1 < n -> clean (Album_at n r f s)) /\
    (3 * height r + 2 < n -> clean (Song_at n r f s)).
Proof.
  induction n as [|n IH]; intros r f s; (split; [|split]); intros Hn;
    try lia; simpl.
  - apply Artist_body_clean; intros v f' s' Hv; apply IH; lia.
  - apply Album_body_clean; intros v f' s' Hv; apply IH; lia.
  - apply Song_body_clean; intros v f' s' Hv; apply IH; lia.
Qed.

(** The three constructors are total: whatever the record, they return
    an entity or raise one of the exceptions of the source, never the
    depth marker. *)
Lemma ctors_total (record full : value) (source : string) :
  Artist_init record full source <> Raise RecursionError /\
  Album_init record full source <> Raise RecursionError /\
  Song_init record full source <> Raise RecursionError.
Proof.
  repeat split; apply ctor_at_clean; unfold depth_for; lia.
Qed.

(** ** Durations *)

Example time_from_ms_125000 : Song_time_from_ms (VInt 125000) = OK "02:05".
Proof. reflexivity. Qed.

Example time_from_ms_59000 : Song_time_from_ms (VInt 59000) = OK "00:59".
Proof. reflexivity. Qed.

Example time_from_ms_3600000 : Song_time_from_ms (VInt 3600000) = OK "60:00".
Proof. reflexivity. Qed.

(** The API sends the duration as a string of digits. *)
Example time_from_ms_str : Song_time_from_ms (VStr "228000") = OK "03:48".
Proof. reflexivity. Qed.

(** ** The constructors, one source at a time *)

Lemma Artist_init_json (artist full : value) :
  Artist_init artist full "json" =
    id <- Py.getitem artist "id" ;;
    name <- Py.getitem artist "name" ;;
    songs <- (songs <- Py.getitem artist "songs" ;;
              items <- Py.iter songs ;;
              mapM (fun song => Song_init song (VBool true) "json") items) ;;
    albums <- (albums <- Py.getitem artist "albums" ;;
               items <- Py.iter albums ;;
               mapM (fun album => Album_init album (VBool false) "json") items) ;;
    OK [("id", id); ("name", name); ("kind", VStr "artist"); ("full", full);
        ("songs", entities songs); ("albums", entities albums)].
Proof. rewrite Artist_init_eq. reflexivity. Qed.

Lemma Album_init_json (album full : value) :
  Album_init album full "json" =
    id <- Py.getitem album "id" ;;
    name <- Py.getitem album "name" ;;
    artist <- (a <- Py.getitem album "artist" ;;
               Artist_init a (VBool false) "json") ;;
    songs <- (songs <- Py.getitem album "songs" ;;
              items <- Py.iter songs ;;
              mapM (fun song => Song_init song (VBool true) "json") items) ;;
    OK [("id", id); ("name", name); ("kind", VStr "album"); ("full", full);
        ("artist", VDict artist); ("songs", entities songs)].
Proof. rewrite Album_init_eq. reflexivity. Qed.

Lemma Song_init_json (song full : value) :
  Song_init song full "json" =
    id <- Py.getitem song "id" ;;
    name <- Py.getitem song "name" ;;
    artist <- (a <- Py.getitem song "artist" ;;
               Artist_init a (VBool false) "json") ;;
    album <- (a <- Py.getitem song "album" ;;
              Album_init a (VBool false) "json") ;;
    time <- Py.getitem song "time" ;;
    OK [("id", id); ("name", name); ("kind", VStr "song"); ("full", full);
        ("artist", VDict artist); ("album", VDict album); ("time", time)].
Proof. rewrite Song_init_eq. reflexivity. Qed.

Lemma Artist_init_api (artist full : value) :
  Artist_init artist full "api" =
    id <- Py.getitem artist "artistId" ;;
    name <- Py.getitem artist "name" ;;
    songs <- try_except
               (tracks <- Py.getitem artist "topTracks" ;;
                items <- Py.iter tracks ;;
                mapM (fun s => Song_init s (VBool true) "api") items)
               is_KeyError (OK []) ;;
    albums <- try_except
                (albums <- Py.getitem artist "albums" ;;
                 items <- Py.iter albums ;;
                 mapM (fun a => Album_init a (VBool false) "api") items)
                is_KeyError (OK []) ;;
    OK [("id", id); ("name", name); ("kind", VStr "artist"); ("full", full);
        ("songs", entities songs); ("albums", entities albums)].
Proof. rewrite Artist_init_eq. reflexivity. Qed.

Lemma Album_init_api (album full : value) :
  Album_init album full "api" =
    id <- Py.getitem album "albumId" ;;
    name <- Py.getitem album "name" ;;
    artist <- (ids <- Py.getitem album "artistId" ;;
               id0 <- Py.getitem0 ids ;;
               aname <- Py.getitem album "artist" ;;
               Artist_init (VDict [("artistId", id0); ("name", aname)])
                 (VBool false) "api") ;;
    songs <- try_except
               (tracks <- Py.getitem album "tracks" ;;
                items <- Py.iter tracks ;;
                mapM (fun s => Song_init s (VBool true) "api") items)
               is_KeyError (OK []) ;;
    OK [("id", id); ("name", name); ("kind", VStr "album"); ("full", full);
        ("artist", VDict artist); ("songs", entities songs)].
Proof. rewrite Album_init_eq. reflexivity. Qed.

Lemma Song_init_api (song full : value) :
  Song_init song full "api" =
    id <- Py.getitem song "storeId" ;;
    name <- Py.getitem song "title" ;;
    artist <- try_except
                (aname <- Py.getitem song "artist" ;;
                 ids <- Py.getitem song "artistId" ;;
                 id0 <- Py.getitem0 ids ;;
                 Artist_init (VDict [("name", aname); ("artistId", id0)])
                   (VBool false) "api")
                is_TypeError
                (aname <- Py.getitem song "artist" ;;
                 ids <- Py.getitem song "artistId" ;;
                 Artist_init (VDict [("name", aname); ("artistId", ids)])
                   (VBool false) "api") ;;
    album <- (alname <- Py.getitem song "album" ;;
              alid <- Py.getitem song "albumId" ;;
              aname <- Py.getitem song "artist" ;;
              ids <- Py.getitem song "artistId" ;;
              Album_init (VDict [("name", alname); ("albumId", alid);
                                 ("artist", aname); ("artistId", ids)])
                (VBool false) "api") ;;
    time <- (ms <- Py.getitem song "durationMillis" ;;
             Song_time_from_ms ms) ;;
    OK [("id", id); ("name", name); ("kind", VStr "song"); ("full", full);
        ("artist", VDict artist); ("album", VDict album); ("time", VStr time)].
Proof. rewrite Song_init_eq. reflexivity. Qed.

(** An artist built from nothing but an id and a name, as albums and
    songs build theirs. *)
Lemma Artist_init_minimal (id name : value) :
  Artist_init (VDict [("artistId", id); ("name", name)]) (VBool false) "api"
  = OK [("id", id); ("name", name); ("kind", VStr "artist");
        ("full", VBool false); ("songs", entities []); ("albums", entities [])]
  /\ Artist_init (VDict [("name", name); ("artistId", id)]) (VBool false) "api"
  = OK [("id", id); ("name", name); ("kind", VStr "artist");
        ("full", VBool false); ("songs", entities []); ("albums", entities [])].
Proof. rewrite !Artist_init_api. split; reflexivity. Qed.

(** ** Persisted records *)

Lemma mapM_reparse (F G : value -> result dict) (items : list value) :
  forall es,
    (forall x e, In x items -> F x = OK e -> G (VDict e) = OK e) ->
    mapM F items = OK es ->
    mapM G (map VDict es) = OK es.
Proof.
  induction items as [|x items IH]; simpl; intros es H E.
  - injection E as <-. reflexivity.
  - destruct (F x) as [e|] eqn:Ex; [|discriminate]. simpl in E.
    destruct (mapM F items) as [es'|] eqn:Ees; [|discriminate].
    injection E as <-. simpl.
    rewrite (H x e (or_introl eq_refl) Ex). simpl.
    rewrite (IH es' (fun y e' Hy => H y e' (or_intror Hy)) eq_refl).
    reflexivity.
Qed.

Tactic Notation "bind_inv" hyp(H) "as" ident(x) ident(Hx) :=
  let H' := fresh in
  destruct (rbind_OK _ _ _ H) as (x & Hx & H'); clear H; rename H' into H.

Lemma json_roundtrip_below (n : nat) :
  forall r, height r < n ->
  forall full e,
    (Artist_init r full "json" = OK e ->
     Artist_init (persisted e) full "json" = OK e) /\
    (Album_init r full "json" = OK e ->
     Album_init (persisted e) full "json" = OK e) /\
    (Song_init r full "json" = OK e ->
     Song_init (persisted e) full "json" = OK e).
Proof.
  induction n as [|n IH]; intros r Hr full e; [lia|].
  assert (Hsongs : forall c items es,
             Py.getitem r "songs" = OK c -> Py.iter c = OK items ->
             mapM (fun song => Song_init song (VBool true) "json") items = OK es ->
             mapM (fun song => Song_init song (VBool true) "json")
               (map VDict es) = OK es).
  { intros c items es Hc Hi. apply mapM_reparse. intros x e' Hx.
    apply (IH x). pose proof (items_height _ _ _ _ _ Hc Hi Hx). lia. }
  assert (Halbums : forall c items es,
             Py.getitem r "albums" = OK c -> Py.iter c = OK items ->
             mapM (fun album => Album_init album (VBool false) "json") items
             = OK es ->
             mapM (fun album => Album_init album (VBool false) "json")
               (map VDict es) = OK es).
  { intros c items es Hc Hi. apply mapM_reparse. intros x e' Hx.
    apply (IH x). pose proof (items_height _ _ _ _ _ Hc Hi Hx). lia. }
  split; [|split]; intros H.
  - rewrite Artist_init_json in H.
    bind_inv H as id Hid. bind_inv H as name Hname.
    bind_inv H as songs Hs. bind_inv H as albums Ha. injection H as <-.
    bind_inv Hs as c Hc. bind_inv Hs as items Hi.
    bind_inv Ha as c' Hc'. bind_inv Ha as items' Hi'.
    rewrite Artist_init_json. unfold persisted, entities. cbn [Py.getitem dict_get].
    simpl String.eqb. cbn [rbind Py.iter].
    rewrite (Hsongs _ _ _ Hc Hi Hs). cbn [rbind].
    rewrite (Halbums _ _ _ Hc' Hi' Ha). reflexivity.
  - rewrite Album_init_json in H.
    bind_inv H as id Hid. bind_inv H as name Hname.
    bind_inv H as artist Ha. bind_inv H as songs Hs. injection H as <-.
    bind_inv Ha as a Hga. bind_inv Hs as c Hc. bind_inv Hs as items Hi.
    rewrite Album_init_json. unfold persisted, entities. cbn [Py.getitem dict_get].
    simpl String.eqb. cbn [rbind Py.iter].
    assert (Ea : Artist_init (VDict artist) (VBool false) "json" = OK artist).
    { apply (IH a); [|exact Ha]. apply getitem_height in Hga. lia. }
    rewrite Ea. cbn [rbind].
    rewrite (Hsongs _ _ _ Hc Hi Hs). reflexivity.
  - rewrite Song_init_json in H.
    bind_inv H as id Hid. bind_inv H as name Hname.
    bind_inv H as artist Ha. bind_inv H as album Hb. bind_inv H as time Ht.
    injection H as <-.
    bind_inv Ha as a Hga. bind_inv Hb as b Hgb.
    rewrite Song_init_json. unfold persisted. cbn [Py.getitem dict_get].
    simpl String.eqb. cbn [rbind].
    assert (Ea : Artist_init (VDict artist) (VBool false) "json" = OK artist).
    { apply (IH a); [|exact Ha]. apply getitem_height in Hga. lia. }
    assert (Eb : Album_init (VDict album) (VBool false) "json" = OK album).
    { apply (IH b); [|exact Hb]. apply getitem_height in Hgb. lia. }
    rewrite Ea. cbn [rbind]. rewrite Eb. reflexivity.
Qed.

(** C2.  An entity built by a constructor in its json mode from a
    persisted record, written out again in the persisted shape and read
    back by the same constructor, is the entity itself: same id, name,
    kind and full flag, and the same nested artists, albums and songs. *)
Theorem json_roundtrip (record full : value) (e : dict) :
  (Artist_init record full "json" = OK e ->
   Artist_init (persisted e) full "json" = OK e) /\
  (Album_init record full "json" = OK e ->
   Album_init (persisted e) full "json" = OK e) /\
  (Song_init record full "json" = OK e ->
   Song_init (persisted e) full "json" = OK e).
Proof.
  apply (json_roundtrip_below (S (height record))). lia.
Qed.

(** ** Dicts *)

Lemma dict_get_set_same (k : string) (v : value) (d : dict) :
  dict_get k (dict_set k v d) = Some v.
Proof.
  induction d as [|[k' v'] d IH]; simpl.
  - now rewrite String.eqb_refl.
  - destruct (k =? k') eqn:E; simpl; [now rewrite String.eqb_refl|].
    now rewrite E.
Qed.

Lemma dict_get_set_other (k k' : string) (v : value) (d : dict) :
  k <> k' -> dict_get k (dict_set k' v d) = dict_get k d.
Proof.
  intros Hk. apply String.eqb_neq in Hk.
  induction d as [|[k0 v0] d IH]; simpl.
  - now rewrite Hk.
  - destruct (k' =? k0) eqn:E; simpl.
    + apply String.eqb_eq in E. subst k0. now rewrite Hk.
    + now rewrite IH.
Qed.

(** ** fill *)

Lemma fill_full (func : lookup_fn) (limit : Z) (st : state) (full : value) :
  dict_get "full" (self_of st) = Some full ->
  Py.truthy full = true ->
  Artist_fill func limit st = (OK tt, st) /\
  Album_fill func limit st = (OK tt, st).
Proof.
  intros Hfull Ht.
  unfold Artist_fill, Album_fill, bind, self_getitem, Py.getitem.
  now rewrite Hfull, Ht.
Qed.

(** C7.  On an entity whose [full] flag is true, [fill] does nothing,
    whatever the lookup capability and the limit: the lookup is not
    called (the trace is the same) and the entity is the same, for
    artists, albums and songs alike.  So a second [fill] changes nothing
    either, and a full entity stays full. *)
Theorem fill_full_noop (func func' : lookup_fn) (limit limit' : Z)
    (st : state) (full : value) :
  dict_get "full" (self_of st) = Some full ->
  Py.truthy full = true ->
  (Artist_fill func limit st = (OK tt, st) /\
   Album_fill func limit st = (OK tt, st) /\
   Song_fill func limit st = (OK tt, st)) /\
  (bind (Artist_fill func limit) (fun _ => Artist_fill func' limit') st
   = Artist_fill func limit st /\
   bind (Album_fill func limit) (fun _ => Album_fill func' limit') st
   = Album_fill func limit st /\
   bind (Song_fill func limit) (fun _ => Song_fill func' limit') st
   = Song_fill func limit st).
Proof.
  intros Hfull Ht.
  assert (A : forall f l, Artist_fill f l st = (OK tt, st))
    by (intros f l; apply (fill_full f l st full Hfull Ht)).
  assert (B : forall f l, Album_fill f l st = (OK tt, st))
    by (intros f l; apply (fill_full f l st full Hfull Ht)).
  split; [auto|].
  unfold bind. rewrite !A, !B. auto.
Qed.

(** What a successful [Artist.fill] on a partial artist leaves behind. *)
Lemma Artist_fill_partial (func : lookup_fn) (limit : Z) (st st' : state)
    (full : value) :
  dict_get "full" (self_of st) = Some full ->
  Py.truthy full = false ->
  Artist_fill func limit st = (OK tt, st') ->
  exists id data songs albums,
    dict_get "id" (self_of st) = Some id /\
    func id (Some limit) = OK data /\
    songs_of data "topTracks" = OK songs /\
    albums_of data "albums" = OK albums /\
    st' = mkState
            (dict_set "full" (VBool true)
               (dict_set "albums" (entities albums)
                  (dict_set "songs" (entities songs) (self_of st))))
            (trace st ++ [EvLookup id (Some limit)])%list.
Proof.
  intros Hfull Ht. unfold Artist_fill, bind at 1, self_getitem at 1, Py.getitem.
  rewrite Hfull, Ht.
  unfold bind, self_getitem, call_lookup, bind, emit, lift, self_setitem, Py.getitem.
  destruct (dict_get "id" (self_of st)) as [id|] eqn:Eid; [|discriminate].
  cbn [self_of trace].
  destruct (func id (Some limit)) as [data|] eqn:Ed; [|discriminate].
  destruct (songs_of data "topTracks") as [songs|] eqn:Es; [|discriminate].
  destruct (albums_of data "albums") as [albums|] eqn:Ea; [|discriminate].
  intros [= <-]. exists id, data, songs, albums. auto.
Qed.

Lemma Album_fill_partial (func : lookup_fn) (limit : Z) (st st' : state)
    (full : value) :
  dict_get "full" (self_of st) = Some full ->
  Py.truthy full = false ->
  Album_fill func limit st = (OK tt, st') ->
  exists id data songs,
    dict_get "id" (self_of st) = Some id /\
    func id None = OK data /\
    songs_of data "tracks" = OK songs /\
    st' = mkState
            (dict_set "full" (VBool true)
               (dict_set "songs" (entities songs) (self_of st)))
            (trace st ++ [EvLookup id None])%list.
Proof.
  intros Hfull Ht. unfold Album_fill, bind at 1, self_getitem at 1, Py.getitem.
  rewrite Hfull, Ht.
  unfold bind, self_getitem, call_lookup, bind, emit, lift, self_setitem, Py.getitem.
  destruct (dict_get "id" (self_of st)) as [id|] eqn:Eid; [|discriminate].
  cbn [self_of trace].
  destruct (func id None) as [data|] eqn:Ed; [|discriminate].
  destruct (songs_of data "tracks") as [songs|] eqn:Es; [|discriminate].
  intros [= <-]. exists id, data, songs. auto.
Qed.

Lemma fill_has_full (m : M unit) (st st' : state) :
  (exists k : value -> M unit, m = bind (self_getitem "full") k) ->
  m st = (OK tt, st') ->
  exists full, dict_get "full" (self_of st) = Some full.
Proof.
  intros [k ->]. unfold bind, self_getitem, Py.getitem.
  destruct (dict_get "full" (self_of st)); [eauto | discriminate].
Qed.

(** C10.  A successful [fill] of an artist assigns to ['songs'],
    ['albums'] and ['full'] and to nothing else; a successful [fill] of
    an album assigns to ['songs'] and ['full'] and to nothing else.  So
    the id, the name and the kind of the entity are what they were, and
    so is the nested artist of an album. *)
Theorem fill_frame (func : lookup_fn) (limit : Z) (st st' : state) :
  (Artist_fill func limit st = (OK tt, st') ->
   (forall k, k <> "songs" -> k <> "albums" -> k <> "full" ->
              dict_get k (self_of st') = dict_get k (self_of st)) /\
   dict_get "id" (self_of st') = dict_get "id" (self_of st) /\
   dict_get "name" (self_of st') = dict_get "name" (self_of st) /\
   dict_get "kind" (self_of st') = dict_get "kind" (self_of st)) /\
  (Album_fill func limit st = (OK tt, st') ->
   (forall k, k <> "songs" -> k <> "full" ->
              dict_get k (self_of st') = dict_get k (self_of st)) /\
   dict_get "id" (self_of st') = dict_get "id" (self_of st) /\
   dict_get "name" (self_of st') = dict_get "name" (self_of st) /\
   dict_get "kind" (self_of st') = dict_get "kind" (self_of st) /\
   dict_get "artist" (self_of st') = dict_get "artist" (self_of st)).
Proof.
  split; intros H.
  - assert (F : forall k, k <> "songs" -> k <> "albums" -> k <> "full" ->
                          dict_get k (self_of st') = dict_get k (self_of st)).
    { destruct (fill_has_full _ st st' (ex_intro _ _ eq_refl) H) as [full Hf].
      destruct (Py.truthy full) eqn:Ht.
      - destruct (fill_full func limit st full Hf Ht) as [E _].
        rewrite E in H. now inversion H.
      - destruct (Artist_fill_partial func limit st st' full Hf Ht H)
          as (id & data & songs & albums & _ & _ & _ & _ & ->).
        intros k H1 H2 H3. cbn [self_of].
        now rewrite !dict_get_set_other. }
    split; [exact F|]. repeat split; apply F; discriminate.
  - assert (F : forall k, k <> "songs" -> k <> "full" ->
                          dict_get k (self_of st') = dict_get k (self_of st)).
    { destruct (fill_has_full _ st st' (ex_intro _ _ eq_refl) H) as [full Hf].
      destruct (Py.truthy full) eqn:Ht.
      - destruct (fill_full func limit st full Hf Ht) as [_ E].
        rewrite E in H. now inversion H.
      - destruct (Album_fill_partial func limit st st' full Hf Ht H)
          as (id & data & songs & _ & _ & _ & ->).
        intros k H1 H2. cbn [self_of].
        now rewrite !dict_get_set_other. }
    split; [exact F|]. repeat split; apply F; discriminate.
Qed.

(** A successful [fill] of an artist or of an album leaves the entity
    full, so the next [fill] does nothing. *)
Lemma fill_then_full (func func' : lookup_fn) (limit limit' : Z)
    (st st' : state) :
  (Artist_fill func limit st = (OK tt, st') ->
   dict_get "full" (self_of st') <> None /\
   Artist_fill func' limit' st' = (OK tt, st')) /\
  (Album_fill func limit st = (OK tt, st') ->
   dict_get "full" (self_of st') <> None /\
   Album_fill func' limit' st' = (OK tt, st')).
Proof.
  split; intros H;
    destruct (fill_has_full _ st st' (ex_intro _ _ eq_refl) H) as [full Hf];
    destruct (Py.truthy full) eqn:Ht.
  - destruct (fill_full func limit st full Hf Ht) as [E _].
    rewrite E in H. injection H as <-. split; [congruence|].
    apply (fill_full func' limit' st full Hf Ht).
  - destruct (Artist_fill_partial func limit st st' full Hf Ht H)
      as (id & data & songs & albums & _ & _ & _ & _ & ->).
    cbn [self_of]. rewrite dict_get_set_same. split; [discriminate|].
    apply (fill_full func' limit' _ (VBool true)); [|reflexivity].
    cbn [self_of]. apply dict_get_set_same.
  - destruct (fill_full func limit st full Hf Ht) as [_ E].
    rewrite E in H. injection H as <-. split; [congruence|].
    apply (fill_full func' limit' st full Hf Ht).
  - destruct (Album_fill_partial func limit st st' full Hf Ht H)
      as (id & data & songs & _ & _ & _ & ->).
    cbn [self_of]. rewrite dict_get_set_same. split; [discriminate|].
    apply (fill_full func' limit' _ (VBool true)); [|reflexivity].
    cbn [self_of]. apply dict_get_set_same.
Qed.

(** ** collect *)

Lemma slice_to_list (l : list value) (limit : Z) :
  (0 <= limit)%Z ->
  Py.slice_to (VList l) (Z.min (Z.of_nat (List.length l)) limit)
  = OK (VList (firstn (Z.to_nat limit) l)).
Proof.
  intros H. unfold Py.slice_to, Py.slice_stop.
  destruct (Z.ltb_spec (Z.min (Z.of_nat (List.length l)) limit) 0); [lia|].
  do 2 f_equal.
  destruct (Z.min_spec (Z.of_nat (List.length l)) limit) as [[Hlt ->]|[Hle ->]].
  - rewrite Nat2Z.id, firstn_all. symmetry. apply firstn_all2. lia.
  - reflexivity.
Qed.

Lemma self_first_list (key : string) (limit : Z) (st : state)
    (l : list value) :
  dict_get key (self_of st) = Some (VList l) ->
  (0 <= limit)%Z ->
  self_first key limit st = (OK (VList (firstn (Z.to_nat limit) l)), st).
Proof.
  intros Hk Hl. unfold self_first, bind, self_getitem, lift, Py.getitem.
  rewrite Hk. cbn [Py.len]. now rewrite slice_to_list.
Qed.

(** C8.  [collect] for a limit that is not negative.  An artist yields
    its first [limit] songs, itself, and its first [limit] albums; an
    album its first [limit] songs, its artist, and itself; a song
    itself, its artist and its album, whatever the limit.  The number of
    songs kept is [min(len(songs), limit)].  The state after the call is
    the state before it: the entity is not assigned to, and no lookup is
    made, so no [fill] took place. *)
Theorem collect_lists (st : state) (limit : Z) :
  (0 <= limit)%Z ->
  (forall songs albums,
      dict_get "songs" (self_of st) = Some (VList songs) ->
      dict_get "albums" (self_of st) = Some (VList albums) ->
      Artist_collect limit st
      = (OK (VDict [("songs", VList (firstn (Z.to_nat limit) songs));
                    ("artists", VList [VDict (self_of st)]);
                    ("albums", VList (firstn (Z.to_nat limit) albums))]), st)
      /\ Z.of_nat (List.length (firstn (Z.to_nat limit) songs))
         = Z.min (Z.of_nat (List.length songs)) limit
      /\ Z.of_nat (List.length (firstn (Z.to_nat limit) albums))
         = Z.min (Z.of_nat (List.length albums)) limit) /\
  (forall songs artist,
      dict_get "songs" (self_of st) = Some (VList songs) ->
      dict_get "artist" (self_of st) = Some artist ->
      Album_collect limit st
      = (OK (VDict [("songs", VList (firstn (Z.to_nat limit) songs));
                    ("artists", VList [artist]);
                    ("albums", VList [VDict (self_of st)])]), st)
      /\ Z.of_nat (List.length (firstn (Z.to_nat limit) songs))
         = Z.min (Z.of_nat (List.length songs)) limit) /\
  (forall artist album any_limit,
      dict_get "artist" (self_of st) = Some artist ->
      dict_get "album" (self_of st) = Some album ->
      Song_collect any_limit st
      = (OK (VDict [("songs", VList [VDict (self_of st)]);
                    ("artists", VList [artist]);
                    ("albums", VList [album])]), st)).
Proof.
  intros Hl. split; [|split].
  - intros songs albums Hs Ha. split; [|split; rewrite length_firstn; lia].
    unfold Artist_collect, bind, get_self, ret.
    now rewrite (self_first_list "songs" limit st songs Hs Hl),
      (self_first_list "albums" limit st albums Ha Hl).
  - intros songs artist Hs Ha. split; [|rewrite length_firstn; lia].
    unfold Album_collect, bind, get_self, ret, self_getitem, Py.getitem.
    now rewrite (self_first_list "songs" limit st songs Hs Hl), Ha.
  - intros artist album any_limit Ha Hb.
    unfold Song_collect, bind, get_self, ret, self_getitem, Py.getitem.
    now rewrite Ha, Hb.
Qed.

(** ** Playback *)

Lemma count_events_app (p : event -> bool) (a b : list event) :
  count_events p (a ++ b)%list = count_events p a + count_events p b.
Proof. unfold count_events. now rewrite filter_app, length_app. Qed.

Section PlaybackFacts.

Variable w : world.




(** Whatever the songs are, the loop only appends events, none of them
    an existence check, and leaves [self] alone. *)
Lemma play_from_trace (songs : list value) :
  forall n i st,
  exists evs,
    trace (snd (play_from w n i songs st)) = (trace st ++ evs)%list /\
    Forall (fun e => is_isfile e = false) evs /\
    self_of (snd (play_from w n i songs st)) = self_of st.
Proof.
  induction songs as [|song rest IH]; intros n i st.
  - exists []. simpl. rewrite app_nil_r. auto.
  - cbn [play_from].
    unfold bind, lift, stream_url, now_playing, call, emit, bind, lift.
    destruct (Py.getitem song "id") as [id|];
      [|exists []; simpl; rewrite app_nil_r; auto].
    cbn -[now_playing_line count_events Nat.ltb Z.eqb app play_from].
    destruct (get_stream_url w id) as [url|];
      [|exists [EvGetStreamUrl id]; simpl; auto].
    destruct (Song_str song) as [title|];
      [|exists [EvGetStreamUrl id]; simpl; auto].
    destruct (Py.getitem song "time") as [time|];
      [|exists [EvGetStreamUrl id]; simpl; auto].
    cbn -[now_playing_line count_events Nat.ltb Z.eqb app play_from Py.str].
    destruct (Py.str time) as [shown|];
      [|exists [EvGetStreamUrl id]; simpl; auto].
    cbn -[now_playing_line count_events Nat.ltb Z.eqb app play_from].
    rewrite <- !app_assoc. cbn [app].
    match goal with |- context [Z.eqb ?c 11] => destruct (Z.eqb c 11) end.
    + eexists. cbn [ret snd fst trace self_of]. repeat split.
      repeat constructor.
    + match goal with |- context [play_from w n (S i) rest ?s] =>
        destruct (IH n (S i) s) as (evs & E & F & S) end.
      rewrite E, S. cbn [trace self_of]. rewrite <- app_assoc. cbn [app].
      eexists. repeat split. repeat constructor. exact F.
Qed.

Lemma MusicObject_play_found (songs : list value) (st : state) :
  isfile w (conf_path w) = true ->
  MusicObject_play w songs st
  = play_from w (List.length songs) 1 songs
      (mkState (self_of st) (trace st ++ [EvIsFile (conf_path w)])%list).
Proof.
  intros H. unfold MusicObject_play, check_isfile, bind, emit, ret.
  now rewrite H.
Qed.

End PlaybackFacts.


(** C9.  When the input configuration of the player is not at
    [~/.config/pmcli/mpv_input.conf] and [goodbye] is the termination
    sink it is meant to be (the call raises), [play] ends in [goodbye]
    right after the existence check: no stream URL is looked up, no
    progress line is reported and the player is not run.  In every run
    the existence check is the first thing [play] does and it is done
    once, whatever the number of songs. *)
Theorem play_without_conf (w : world) (songs : list value) (st : state) :
  (forall e,
      isfile w (conf_path w) = false ->
      goodbye_outcome w "No mpv_input.conf found." = Raise e ->
      MusicObject_play w songs st
      = (Raise e,
         mkState (self_of st)
           (trace st ++ [EvIsFile (conf_path w);
                         EvGoodbye "No mpv_input.conf found."])%list)) /\
  (exists evs,
      trace (snd (MusicObject_play w songs st))
      = (trace st ++ EvIsFile (conf_path w) :: evs)%list /\
      Forall (fun e => is_isfile e = false) evs).
Proof.
  split.
  - intros e H G.
    unfold MusicObject_play, check_isfile, goodbye, bind, emit, ret, lift.
    rewrite H. cbn [negb self_of trace]. rewrite G. now rewrite <- app_assoc.
  - destruct (isfile w (conf_path w)) eqn:H.
    + rewrite (MusicObject_play_found w songs st H).
      destruct (play_from_trace w songs (List.length songs) 1
                  (mkState (self_of st)
                     (trace st ++ [EvIsFile (conf_path w)])%list))
        as (evs & E & F & _).
      exists evs. rewrite E. cbn [trace]. rewrite <- app_assoc. auto.
    + unfold MusicObject_play, check_isfile, goodbye, bind, emit, ret, lift.
      rewrite H. cbn [negb self_of trace].
      destruct (goodbye_outcome w "No mpv_input.conf found.") as [[]|e].
      * match goal with |- context [play_from w ?n 1 songs ?s] =>
          destruct (play_from_trace w songs n 1 s) as (evs & E & F & _) end.
        exists (EvGoodbye "No mpv_input.conf found." :: evs).
        rewrite E. cbn [trace]. rewrite <- !app_assoc. cbn [List.app].
        split; [reflexivity | constructor; [reflexivity | exact F]].
      * exists [EvGoodbye "No mpv_input.conf found."].
        cbn [snd trace]. rewrite <- app_assoc.
        split; [reflexivity | repeat constructor].
Qed.

(** ** verify *)

Lemma Artist_verify_iff (item : dict) :
  Artist_verify item = true <->
  (forall k, In k ["id"; "name"; "kind"; "full"; "songs"; "albums"] ->
             dict_mem k item = true).
Proof. unfold Artist_verify. apply forallb_forall. Qed.

Lemma Album_verify_iff (item : dict) :
  Album_verify item = true <->
  (forall k, In k ["id"; "name"; "kind"; "full"; "artist"; "songs"] ->
             dict_mem k item = true).
Proof. unfold Album_verify. apply forallb_forall. Qed.

(** [Artist.verify] and [Album.verify] turn down a record that lacks
    one of their keys. *)
Lemma verify_missing_key (item : dict) (k : string) :
  dict_mem k item = false ->
  (In k ["id"; "name"; "kind"; "full"; "songs"; "albums"] ->
   Artist_verify item = false) /\
  (In k ["id"; "name"; "kind"; "full"; "artist"; "songs"] ->
   Album_verify item = false).
Proof.
  intros Hk. split; intros Hin.
  - destruct (Artist_verify item) eqn:E; [|reflexivity].
    rewrite Artist_verify_iff in E. rewrite (E k Hin) in Hk. discriminate.
  - destruct (Album_verify item) eqn:E; [|reflexivity].
    rewrite Album_verify_iff in E. rewrite (E k Hin) in Hk. discriminate.
Qed.

(** Each [verify] accepts what the constructor of its class builds. *)
Lemma verify_built (record full : value) (source : string) (e : dict) :
  source = "api" \/ source = "json" ->
  (Artist_init record full source = OK e -> Artist_verify e = true) /\
  (Album_init record full source = OK e -> Album_verify e = true) /\
  (Song_init record full source = OK e -> Song_verify e = true).
Proof.
  intros [-> | ->]; (split; [|split]); intros H; try reflexivity.
  - rewrite Artist_init_api in H.
    bind_inv H as id Hid. bind_inv H as name Hname.
    bind_inv H as songs Hs. bind_inv H as albums Ha. now injection H as <-.
  - rewrite Album_init_api in H.
    bind_inv H as id Hid. bind_inv H as name Hname.
    bind_inv H as artist Ha. bind_inv H as songs Hs. now injection H as <-.
  - rewrite Artist_init_json in H.
    bind_inv H as id Hid. bind_inv H as name Hname.
    bind_inv H as songs Hs. bind_inv H as albums Ha. now injection H as <-.
  - rewrite Album_init_json in H.
    bind_inv H as id Hid. bind_inv H as name Hname.
    bind_inv H as artist Ha. bind_inv H as songs Hs. now injection H as <-.
Qed.

(** What the constructors store under the keys that [collect] reads:
    lists of entities, and entities. *)
Lemma built_lists (record full : value) (source : string) (e : dict) :
  source = "api" \/ source = "json" ->
  (Artist_init record full source = OK e ->
   exists songs albums,
     dict_get "songs" e = Some (entities songs) /\
     dict_get "albums" e = Some (entities albums)) /\
  (Album_init record full source = OK e ->
   exists songs artist,
     dict_get "songs" e = Some (entities songs) /\
     dict_get "artist" e = Some (VDict artist)) /\
  (Song_init record full source = OK e ->
   exists artist album,
     dict_get "artist" e = Some (VDict artist) /\
     dict_get "album" e = Some (VDict album)).
Proof.
  intros [-> | ->]; (split; [|split]); intros H.
  - rewrite Artist_init_api in H.
    bind_inv H as id Hid. bind_inv H as name Hname.
    bind_inv H as songs Hs. bind_inv H as albums Ha. injection H as <-.
    exists songs, albums. split; reflexivity.
  - rewrite Album_init_api in H.
    bind_inv H as id Hid. bind_inv H as name Hname.
    bind_inv H as artist Ha. bind_inv H as songs Hs. injection H as <-.
    exists songs, artist. split; reflexivity.
  - rewrite Song_init_api in H.
    bind_inv H as id Hid. bind_inv H as name Hname.
    bind_inv H as artist Ha. bind_inv H as album Hb. bind_inv H as time Ht.
    injection H as <-. exists artist, album. split; reflexivity.
  - rewrite Artist_init_json in H.
    bind_inv H as id Hid. bind_inv H as name Hname.
    bind_inv H as songs Hs. bind_inv H as albums Ha. injection H as <-.
    exists songs, albums. split; reflexivity.
  - rewrite Album_init_json in H.
    bind_inv H as id Hid. bind_inv H as name Hname.
    bind_inv H as artist Ha. bind_inv H as songs Hs. injection H as <-.
    exists songs, artist. split; reflexivity.
  - rewrite Song_init_json in H.
    bind_inv H as id Hid. bind_inv H as name Hname.
    bind_inv H as artist Ha. bind_inv H as album Hb. bind_inv H as time Ht.
    injection H as <-. exists artist, album. split; reflexivity.
Qed.

(** C3.  [Song.verify] on the empty record, which has none of the seven
    keys of a song: the answer is [True].  The method tests the key
    names themselves, so it accepts every record. *)
Theorem Song_verify_empty_record :
  Song_verify [] = true /\
  forallb (fun k => negb (dict_mem k []))
    ["id"; "name"; "kind"; "full"; "artist"; "album"; "time"] = true /\
  (forall item, Song_verify item = true).
Proof. repeat split. Qed.

(** ** Equality and hash *)

Lemma eqb_VDict (d e : dict) :
  Py.eqb (VDict d) (VDict e)
  = (Nat.eqb (List.length d) (List.length e)
     && forallb (fun kv => match dict_get (fst kv) e with
                           | Some y => Py.eqb (snd kv) y
                           | None => false
                           end) d)%bool.
Proof.
  cbn [Py.eqb]. f_equal.
  induction d as [|[k x] d IH]; [reflexivity|].
  cbn [forallb fst snd]. now rewrite IH.
Qed.

Lemma dict_get_In (k : string) (d : dict) (v : value) :
  dict_get k d = Some v -> In (k, v) d.
Proof.
  induction d as [|[k' x] d IH]; simpl; [discriminate|].
  destruct (k =? k') eqn:E.
  - apply String.eqb_eq in E. intros [= ->]. subst. now left.
  - intros H. right. auto.
Qed.

(** Equal entities agree on every key. *)
Lemma MusicObject_eq_get (a b : dict) (k : string) (v : value) :
  MusicObject_eq a b = true ->
  dict_get k a = Some v ->
  exists v', dict_get k b = Some v' /\ Py.eqb v v' = true.
Proof.
  unfold MusicObject_eq. rewrite eqb_VDict.
  intros H Hk. apply andb_prop in H. destruct H as [_ H].
  rewrite forallb_forall in H. specialize (H _ (dict_get_In _ _ _ Hk)).
  cbn [fst snd] in H. destruct (dict_get k b) as [v'|]; [eauto | discriminate].
Qed.

Lemma eqb_VStr (s : string) (v : value) :
  Py.eqb (VStr s) v = true -> v = VStr s.
Proof.
  destruct v; simpl; try discriminate.
  intros H. apply String.eqb_eq in H. now subst.
Qed.

Lemma str_int_byte (c : ascii) :
  Py.str_int (Z.of_nat (nat_of_ascii c))
  = OK (Py.str_of_Z (Z.of_nat (nat_of_ascii c))).
Proof.
  destruct c as [[] [] [] [] [] [] [] []]; vm_compute; reflexivity.
Qed.

Lemma hash_chars (s : string) :
  mapM (fun c => o <- Py.ord c ;; Py.str_int o) (Py.chars s)
  = OK (map (fun c => Py.str_of_Z (Z.of_nat (nat_of_ascii c)))
          (list_ascii_of_string s)).
Proof.
  induction s as [|c s IH]; [reflexivity|].
  cbn [Py.chars mapM Py.ord rbind list_ascii_of_string map].
  rewrite str_int_byte. cbn [rbind]. now rewrite IH.
Qed.

(** What [__hash__] returns on an entity whose id is a string. *)
Lemma MusicObject_hash_str (a : dict) (s : string) :
  dict_get "id" a = Some (VStr s) ->
  MusicObject_hash a
  = OK (Py.concat (map (fun c => Py.str_of_Z (Z.of_nat (nat_of_ascii c)))
                     (list_ascii_of_string s))).
Proof.
  intros H. unfold MusicObject_hash, Py.getitem. rewrite H.
  cbn [rbind Py.iter]. now rewrite hash_chars.
Qed.

(** [hash(e)] returns for no entity: [__hash__] raises, or it returns a
    string, which [hash] refuses. *)
Lemma entity_hash_raises (e : dict) : exists x, entity_hash e = Raise x.
Proof.
  unfold entity_hash. destruct (MusicObject_hash e) as [h|x]; simpl; eauto.
Qed.

(** A key has a value exactly when it is among the keys. *)
Lemma dict_get_None (k : string) (d : dict) :
  dict_get k d = None <-> ~ In k (map fst d).
Proof.
  induction d as [|[k' x] d IH]; simpl; [tauto|].
  destruct (k =? k') eqn:E.
  - apply String.eqb_eq in E. subst. split; [discriminate | tauto].
  - apply String.eqb_neq in E. rewrite IH. split; [|tauto].
    intros H [H'|H']; [congruence | tauto].
Qed.

(** With no key twice, every item is the one its key finds. *)
Lemma In_dict_get (k : string) (v : value) (d : dict) :
  NoDup (map fst d) -> In (k, v) d -> dict_get k d = Some v.
Proof.
  induction d as [|[k' x] d IH]; simpl; [tauto|].
  intros N. inversion N as [|? ? Hk Hd]; subst.
  intros [[= -> ->] | H].
  - now rewrite String.eqb_refl.
  - destruct (k =? k') eqn:E; [|auto].
    apply String.eqb_eq in E. subst k'. exfalso. apply Hk.
    change k with (fst (k, v)). now apply in_map.
Qed.

(** The keys after an assignment: as before, or with the new key last. *)
Lemma dict_set_keys_either (k : string) (v : value) (d : dict) :
  map fst (dict_set k v d)
  = if dict_mem k d then map fst d else (map fst d ++ [k])%list.
Proof.
  unfold dict_mem. induction d as [|[k' x] d IH]; simpl; [reflexivity|].
  destruct (k =? k') eqn:E; simpl.
  - apply String.eqb_eq in E. now subst.
  - rewrite IH. now destruct (dict_get k d).
Qed.

(** Assignment keeps the keys of a dict distinct. *)
Lemma dict_set_NoDup (k : string) (v : value) (d : dict) :
  NoDup (map fst d) -> NoDup (map fst (dict_set k v d)).
Proof.
  intros N. rewrite dict_set_keys_either. unfold dict_mem.
  destruct (dict_get k d) eqn:E; [exact N|].
  apply dict_get_None in E. apply NoDup_rev in N.
  rewrite <- (rev_involutive (_ ++ _)%list). apply NoDup_rev.
  rewrite rev_app_distr. simpl. constructor; [|exact N].
  now rewrite <- in_rev.
Qed.

(** The constructors build dicts: no key twice. *)
Lemma entity_keys_NoDup (record full : value) (source : string) (e : dict) :
  Artist_init record full source = OK e \/
  Album_init record full source = OK e \/
  Song_init record full source = OK e ->
  NoDup (map fst e).
Proof.
  assert (K : forall l : list string,
             (fix distinct (l : list string) : bool :=
                match l with
                | [] => true
                | k :: l' =>
                    (negb (existsb (String.eqb k) l') && distinct l')%bool
                end) l = true -> NoDup l).
  { induction l as [|k l IH]; [constructor|].
    intros H. apply andb_prop in H. destruct H as [H1 H2].
    constructor; [|auto]. intros Hin.
    apply negb_true_iff in H1. apply not_true_iff_false in H1. apply H1.
    apply existsb_exists. exists k. split; [exact Hin | apply String.eqb_refl]. }
  destruct (source =? "api") eqn:Ea;
    [apply String.eqb_eq in Ea; subst source
    |destruct (source =? "json") eqn:Ej;
     [apply String.eqb_eq in Ej; subst source|]].
  - intros [H | [H | H]].
    + rewrite Artist_init_api in H.
      bind_inv H as id Hid. bind_inv H as name Hname.
      bind_inv H as songs Hs. bind_inv H as albums Ha. injection H as <-.
      apply K. reflexivity.
    + rewrite Album_init_api in H.
      bind_inv H as id Hid. bind_inv H as name Hname.
      bind_inv H as artist Ha. bind_inv H as songs Hs. injection H as <-.
      apply K. reflexivity.
    + rewrite Song_init_api in H.
      bind_inv H as id Hid. bind_inv H as name Hname.
      bind_inv H as artist Ha. bind_inv H as album Hb. bind_inv H as time Ht.
      injection H as <-. apply K. reflexivity.
  - intros [H | [H | H]].
    + rewrite Artist_init_json in H.
      bind_inv H as id Hid. bind_inv H as name Hname.
      bind_inv H as songs Hs. bind_inv H as albums Ha. injection H as <-.
      apply K. reflexivity.
    + rewrite Album_init_json in H.
      bind_inv H as id Hid. bind_inv H as name Hname.
      bind_inv H as artist Ha. bind_inv H as songs Hs. injection H as <-.
      apply K. reflexivity.
    + rewrite Song_init_json in H.
      bind_inv H as id Hid. bind_inv H as name Hname.
      bind_inv H as artist Ha. bind_inv H as album Hb. bind_inv H as time Ht.
      injection H as <-. apply K. reflexivity.
  - intros [H | [H | H]].
    + rewrite Artist_init_eq in H. unfold Artist_body in H.
      rewrite Ea, Ej in H. injection H as <-. constructor.
    + rewrite Album_init_eq in H. unfold Album_body in H.
      rewrite Ea, Ej in H. injection H as <-. constructor.
    + rewrite Song_init_eq in H. unfold Song_body in H.
      rewrite Ea, Ej in H. injection H as <-. constructor.
Qed.

(** C4, as the code has it.  No class of the module defines [__eq__], so
    two entities are equal exactly when they are equal as dicts: each
    key of one is a key of the other, with an equal value.  Equal
    entities therefore have the same id, while the same id does not
    make two entities equal. *)
Theorem eq_is_dict_equality (a b : dict) :
  NoDup (map fst a) ->
  NoDup (map fst b) ->
  (MusicObject_eq a b = true <->
   forall k, match dict_get k a, dict_get k b with
             | Some v, Some v' => Py.eqb v v' = true
             | None, None => True
             | _, _ => False
             end) /\
  (MusicObject_eq a b = true ->
   forall s, dict_get "id" a = Some (VStr s) ->
             dict_get "id" b = Some (VStr s)).
Proof.
  intros Na Nb.
  assert (Hid : MusicObject_eq a b = true ->
                forall s, dict_get "id" a = Some (VStr s) ->
                          dict_get "id" b = Some (VStr s)).
  { intros E s Ha. destruct (MusicObject_eq_get a b "id" (VStr s) E Ha)
      as (v' & Hb & Hv). apply eqb_VStr in Hv. now subst. }
  split; [split|exact Hid].
  - intros E k. destruct (dict_get k a) as [v|] eqn:Ha.
    + destruct (MusicObject_eq_get a b k v E Ha) as (v' & -> & Hv). exact Hv.
    + assert (I : incl (map fst b) (map fst a)).
      { apply NoDup_length_incl; [exact Na| |].
        - unfold MusicObject_eq in E. rewrite eqb_VDict in E.
          apply andb_prop in E. destruct E as [E _].
          apply Nat.eqb_eq in E. rewrite !length_map. lia.
        - intros k' Hk'. apply in_map_iff in Hk'.
          destruct Hk' as ([k0 x] & <- & Hin). simpl.
          destruct (MusicObject_eq_get a b k0 x E (In_dict_get _ _ _ Na Hin))
            as (v' & Hb & _).
          apply dict_get_In in Hb. change k0 with (fst (k0, v')).
          now apply in_map. }
      destruct (dict_get k b) as [v'|] eqn:Hb; [|exact Logic.I].
      apply dict_get_None in Ha. apply Ha, I.
      apply dict_get_In in Hb. change k with (fst (k, v')). now apply in_map.
  - intros P. unfold MusicObject_eq. rewrite eqb_VDict.
    assert (S : forall d e : dict,
               (forall k, dict_get k d <> None -> dict_get k e <> None) ->
               incl (map fst d) (map fst e)).
    { intros d e H k Hk. destruct (dict_get k e) eqn:He.
      - apply dict_get_In in He. change k with (fst (k, v)). now apply in_map.
      - exfalso. apply (H k); [|exact He].
        intros Hn. now apply dict_get_None in Hn. }
    apply andb_true_intro. split.
    + apply Nat.eqb_eq. rewrite <- (length_map fst a), <- (length_map fst b).
      apply Nat.le_antisymm; apply NoDup_incl_length; try assumption;
        apply S; intros k Hk; specialize (P k);
        destruct (dict_get k a), (dict_get k b); tauto || discriminate.
    + apply forallb_forall. intros [k x] Hin. cbn [fst snd].
      specialize (P k). rewrite (In_dict_get _ _ _ Na Hin) in P.
      destruct (dict_get k b); [exact P | contradiction].
Qed.

(** C4, as stated, fails: two artists with the same id and different
    names are not equal. *)
Lemma same_id_not_equal :
  Artist_init (VDict [("artistId", VStr "A1"); ("name", VStr "Nina")])
    (VBool false) "api" = OK nina_partial /\
  Artist_init (VDict [("artistId", VStr "A1"); ("name", VStr "Simone")])
    (VBool false) "api" = OK simone_partial /\
  dict_get "id" nina_partial = dict_get "id" simone_partial /\
  MusicObject_eq nina_partial simone_partial = false.
Proof. vm_compute. repeat split. Qed.

(** ** The [artistId] of a song record *)

(** When [song['artistId'][0]] can be taken, that item is the id of the
    artist of the song and of the artist of its album: the first item
    of a list, and the first character of a string. *)
Lemma Song_init_api_subscriptable (song full : value)
    (sid title aname ids id0 alname alid ms : value) (t : string) :
  Py.getitem song "storeId" = OK sid ->
  Py.getitem song "title" = OK title ->
  Py.getitem song "artist" = OK aname ->
  Py.getitem song "artistId" = OK ids ->
  Py.getitem0 ids = OK id0 ->
  Py.getitem song "album" = OK alname ->
  Py.getitem song "albumId" = OK alid ->
  Py.getitem song "durationMillis" = OK ms ->
  Song_time_from_ms ms = OK t ->
  let artist :=
    [("id", id0); ("name", aname); ("kind", VStr "artist");
     ("full", VBool false); ("songs", entities []); ("albums", entities [])] in
  Song_init song full "api"
  = OK [("id", sid); ("name", title); ("kind", VStr "song"); ("full", full);
        ("artist", VDict artist);
        ("album",
         VDict [("id", alid); ("name", alname); ("kind", VStr "album");
                ("full", VBool false); ("artist", VDict artist);
                ("songs", entities [])]);
        ("time", VStr t)].
Proof.
  intros H1 H2 H3 H4 H5 H6 H7 H8 H9 artist.
  rewrite Song_init_api, H1, H2, H3, H4, H6, H7, H8. cbn [rbind].
  rewrite H5, H9. cbn [rbind].
  rewrite (proj2 (Artist_init_minimal id0 aname)). cbn [try_except rbind].
  rewrite Album_init_api. cbn [Py.getitem dict_get]. simpl String.eqb.
  cbn [rbind]. rewrite H5. cbn [rbind].
  rewrite (proj1 (Artist_init_minimal id0 aname)). reflexivity.
Qed.

(** When [song['artistId']] cannot be subscripted, the song falls back
    on the value itself for its artist, and then the album, which
    subscripts it again, raises. *)
Lemma Song_init_api_unsubscriptable (song full : value)
    (sid title aname ids alname alid : value) :
  Py.getitem song "storeId" = OK sid ->
  Py.getitem song "title" = OK title ->
  Py.getitem song "artist" = OK aname ->
  Py.getitem song "artistId" = OK ids ->
  Py.getitem0 ids = Raise TypeError ->
  Py.getitem song "album" = OK alname ->
  Py.getitem song "albumId" = OK alid ->
  Song_init song full "api" = Raise TypeError.
Proof.
  intros H1 H2 H3 H4 H5 H6 H7.
  rewrite Song_init_api, H1, H2, H3, H4, H6, H7. cbn [rbind].
  rewrite H5. cbn [rbind try_except is_TypeError].
  rewrite (proj2 (Artist_init_minimal ids aname)). cbn [rbind].
  rewrite Album_init_api. cbn [Py.getitem dict_get]. simpl String.eqb.
  cbn [rbind]. rewrite H5. reflexivity.
Qed.

(** C5.  A song record whose [artistId] is the string ["A1"] builds a
    song whose artist, and whose album's artist, has the id ["A"]; a
    song record whose [artistId] is the number 7 raises [TypeError]. *)
Theorem Song_scalar_artistId :
  (song <- Song_init (api_song "S1" "One" (VStr "A1")) (VBool true) "api" ;;
   artist <- Py.getitem (VDict song) "artist" ;;
   Py.getitem artist "id") = OK (VStr "A") /\
  (song <- Song_init (api_song "S1" "One" (VStr "A1")) (VBool true) "api" ;;
   album <- Py.getitem (VDict song) "album" ;;
   artist <- Py.getitem album "artist" ;;
   Py.getitem artist "id") = OK (VStr "A") /\
  Song_init (api_song "S1" "One" (VInt 7)) (VBool true) "api"
  = Raise TypeError.
Proof. vm_compute. repeat split. Qed.

(** ** Nested records that lack a key *)

(** The handler meant for a missing ['topTracks'] also takes the
    [KeyError] of a track: the artist is built with no songs. *)
Lemma Artist_init_swallows_KeyError (artist full : value) (k : string)
    (e : dict) :
  songs_of artist "topTracks" = Raise (KeyError k) ->
  Artist_init artist full "api" = OK e ->
  dict_get "songs" e = Some (entities []).
Proof.
  unfold songs_of. intros Hs H. rewrite Artist_init_api in H.
  bind_inv H as id Hid. bind_inv H as name Hname.
  rewrite Hs in H. cbn [try_except is_KeyError rbind] in H.
  bind_inv H as albums Ha. now injection H as <-.
Qed.

Lemma Album_init_swallows_KeyError (album full : value) (k : string)
    (e : dict) :
  songs_of album "tracks" = Raise (KeyError k) ->
  Album_init album full "api" = OK e ->
  dict_get "songs" e = Some (entities []).
Proof.
  unfold songs_of. intros Hs H. rewrite Album_init_api in H.
  bind_inv H as id Hid. bind_inv H as name Hname. bind_inv H as artist Ha.
  rewrite Hs in H. cbn [try_except is_KeyError rbind] in H.
  now injection H as <-.
Qed.

(** C6.  A track without its ['storeId'] raises [KeyError] when built on
    its own.  An artist record whose ['topTracks'] holds that track, and
    an album record whose ['tracks'] holds it, are built all the same,
    with an empty list of songs. *)
Theorem malformed_track_gives_no_songs :
  Song_init api_song_no_id (VBool true) "api" = Raise (KeyError "storeId") /\
  Artist_init
    (VDict [("artistId", VStr "A1"); ("name", VStr "Nina");
            ("topTracks", VList [api_song_no_id])])
    (VBool false) "api"
  = OK [("id", VStr "A1"); ("name", VStr "Nina"); ("kind", VStr "artist");
        ("full", VBool false); ("songs", VList []); ("albums", VList [])] /\
  Album_init
    (VDict [("albumId", VStr "B1"); ("name", VStr "Live");
            ("artistId", VList [VStr "A1"]); ("artist", VStr "Nina");
            ("tracks", VList [api_song_no_id])])
    (VBool false) "api"
  = OK [("id", VStr "B1"); ("name", VStr "Live"); ("kind", VStr "album");
        ("full", VBool false);
        ("artist",
         VDict [("id", VStr "A1"); ("name", VStr "Nina");
                ("kind", VStr "artist"); ("full", VBool false);
                ("songs", VList []); ("albums", VList [])]);
        ("songs", VList [])].
Proof. vm_compute. repeat split. Qed.

(** ** The theorems at work on the sample records *)


Lemma json_roundtrip_witness :
  Artist_init json_artist (VBool false) "json" = OK nina_short /\
  Artist_init (persisted nina_short) (VBool false) "json" = OK nina_short /\
  Album_init (persisted live) (VBool true) "json"
  = OK (dict_set "full" (VBool true) live) /\
  Album_init (persisted (dict_set "full" (VBool true) live)) (VBool true) "json"
  = OK (dict_set "full" (VBool true) live) /\
  Song_init (persisted song_one) (VBool true) "json" = OK song_one.
Proof.
  assert (A : Artist_init json_artist (VBool false) "json" = OK nina_short)
    by (vm_compute; reflexivity).
  assert (B : Album_init (persisted live) (VBool true) "json"
              = OK (dict_set "full" (VBool true) live))
    by (vm_compute; reflexivity).
  assert (C : Song_init (persisted song_one) (VBool true) "json" = OK song_one)
    by (vm_compute; reflexivity).
  split; [exact A|]. split.
  { exact (proj1 (json_roundtrip json_artist (VBool false) nina_short) A). }
  split; [exact B|]. split; [|exact C].
  exact (proj1 (proj2 (json_roundtrip (persisted live) (VBool true) _)) B).
Defined.

Lemma eq_is_dict_equality_witness :
  (forall k,
      match dict_get k nina_partial, dict_get k (List.rev nina_partial) with
      | Some v, Some v' => Py.eqb v v' = true
      | None, None => True
      | _, _ => False
      end) /\
  dict_get "id" (List.rev nina_partial) = Some (VStr "A1").
Proof.
  assert (N : NoDup (map fst nina_partial)).
  { apply (entity_keys_NoDup
             (VDict [("artistId", VStr "A1"); ("name", VStr "Nina")])
             (VBool false) "api").
    left. reflexivity. }
  assert (N' : NoDup (map fst (List.rev nina_partial))).
  { rewrite map_rev. apply NoDup_rev. exact N. }
  destruct (eq_is_dict_equality nina_partial (List.rev nina_partial) N N')
    as [[F _] I].
  split; [apply F; reflexivity | apply I; reflexivity].
Defined.

Lemma fill_full_noop_witness :
  Artist_fill sample_lookup 100 (snd (run (Artist_fill sample_lookup 100)
                                        nina_partial))
  = (OK tt, snd (run (Artist_fill sample_lookup 100) nina_partial)).
Proof.
  apply (proj1 (proj1 (fill_full_noop sample_lookup sample_lookup 100 100
                         (snd (run (Artist_fill sample_lookup 100) nina_partial))
                         (VBool true) eq_refl eq_refl))).
Defined.

Lemma collect_lists_witness :
  Artist_collect 2 (mkState nina [])
  = (OK (VDict [("songs", VList (firstn 2 nina_songs));
                ("artists", VList [VDict nina]);
                ("albums", VList (firstn 2 nina_albums))]), mkState nina [])
  /\ List.length nina_songs = 3
  /\ Z.of_nat (List.length (firstn 2 nina_songs)) = 2%Z.
Proof.
  destruct (proj1 (collect_lists (mkState nina []) 2 ltac:(lia))
              nina_songs nina_albums eq_refl eq_refl) as (E & L & _).
  split; [exact E|]. split; [reflexivity | exact L].
Defined.

Lemma play_without_conf_witness :
  MusicObject_play (sample_world false 0) queue3 (mkState [] [])
  = (Raise (SystemExit "No mpv_input.conf found."),
     mkState []
       [EvIsFile "/home/nina/.config/pmcli/mpv_input.conf";
        EvGoodbye "No mpv_input.conf found."]).
Proof.
  exact (proj1 (play_without_conf (sample_world false 0) queue3 (mkState [] []))
           _ eq_refl eq_refl).
Defined.

Lemma fill_frame_witness :
  dict_get "full" nina_partial = Some (VBool false) /\
  dict_get "full" (self_of (snd (run (Artist_fill sample_lookup 100)
                                   nina_partial))) = Some (VBool true) /\
  dict_get "id" (self_of (snd (run (Artist_fill sample_lookup 100)
                                 nina_partial))) = dict_get "id" nina_partial /\
  dict_get "artist" (self_of (snd (run (Album_fill sample_lookup 100)
                                     (dict_set "songs" (VList []) live))))
  = dict_get "artist" live.
Proof.
  split; [reflexivity|]. split; [reflexivity|]. split.
  - apply (proj1 (fill_frame sample_lookup 100 (mkState nina_partial [])
                    (snd (run (Artist_fill sample_lookup 100) nina_partial)))).
    vm_compute. reflexivity.
  - apply (proj2 (fill_frame sample_lookup 100
                    (mkState (dict_set "songs" (VList []) live) [])
                    (snd (run (Album_fill sample_lookup 100)
                            (dict_set "songs" (VList []) live))))).
    vm_compute. reflexivity.
Defined.

(** * Further properties of the constructors *)

Lemma try_except_OK {A} (body handler : result A) (c : exn -> bool) (a : A) :
  try_except body c handler = OK a ->
  body = OK a \/ (exists e, body = Raise e /\ c e = true /\ handler = OK a).
Proof.
  unfold try_except. destruct body as [x|e]; [auto|].
  destruct (c e) eqn:E; [|discriminate]. intros H. right. eauto.
Qed.

(** X1.  What the API mode of each constructor stores: the id and the
    name come from the record keys of the class ([artistId]/[name],
    [albumId]/[name], [storeId]/[title]), the kind is the name of the
    class, the full flag is the argument, and the entity has the keys of
    its class, in the order of assignment. *)
Theorem api_fields (record full : value) (e : dict) :
  (Artist_init record full "api" = OK e ->
   map fst e = ["id"; "name"; "kind"; "full"; "songs"; "albums"] /\
   Py.getitem record "artistId" = Py.getitem (VDict e) "id" /\
   Py.getitem record "name" = Py.getitem (VDict e) "name" /\
   dict_get "kind" e = Some (VStr "artist") /\
   dict_get "full" e = Some full) /\
  (Album_init record full "api" = OK e ->
   map fst e = ["id"; "name"; "kind"; "full"; "artist"; "songs"] /\
   Py.getitem record "albumId" = Py.getitem (VDict e) "id" /\
   Py.getitem record "name" = Py.getitem (VDict e) "name" /\
   dict_get "kind" e = Some (VStr "album") /\
   dict_get "full" e = Some full) /\
  (Song_init record full "api" = OK e ->
   map fst e = ["id"; "name"; "kind"; "full"; "artist"; "album"; "time"] /\
   Py.getitem record "storeId" = Py.getitem (VDict e) "id" /\
   Py.getitem record "title" = Py.getitem (VDict e) "name" /\
   dict_get "kind" e = Some (VStr "song") /\
   dict_get "full" e = Some full /\
   (ms <- Py.getitem record "durationMillis" ;;
    t <- Song_time_from_ms ms ;; OK (VStr t)) = Py.getitem (VDict e) "time").
Proof.
  split; [|split]; intros H.
  - rewrite Artist_init_api in H.
    bind_inv H as id Hid. bind_inv H as name Hname.
    bind_inv H as songs Hs. bind_inv H as albums Ha. injection H as <-.
    rewrite Hid, Hname. repeat split.
  - rewrite Album_init_api in H.
    bind_inv H as id Hid. bind_inv H as name Hname.
    bind_inv H as artist Ha. bind_inv H as songs Hs. injection H as <-.
    rewrite Hid, Hname. repeat split.
  - rewrite Song_init_api in H.
    bind_inv H as id Hid. bind_inv H as name Hname.
    bind_inv H as artist Ha. bind_inv H as album Hb. bind_inv H as time Ht.
    injection H as <-. bind_inv Ht as ms Hms.
    rewrite Hid, Hname, Hms. cbn [rbind]. rewrite Ht. repeat split.
Qed.

(** X2.  The json mode reads ['id'] and ['name'] from the record and
    nothing else of the four common fields: the kind is the name of the
    class and the full flag is the argument, whatever the record has
    under ['kind'] and ['full'] (it need not have them at all). *)
Theorem json_fields (record full : value) (e : dict) :
  (Artist_init record full "json" = OK e ->
   map fst e = ["id"; "name"; "kind"; "full"; "songs"; "albums"] /\
   Py.getitem record "id" = Py.getitem (VDict e) "id" /\
   Py.getitem record "name" = Py.getitem (VDict e) "name" /\
   dict_get "kind" e = Some (VStr "artist") /\
   dict_get "full" e = Some full) /\
  (Album_init record full "json" = OK e ->
   map fst e = ["id"; "name"; "kind"; "full"; "artist"; "songs"] /\
   Py.getitem record "id" = Py.getitem (VDict e) "id" /\
   Py.getitem record "name" = Py.getitem (VDict e) "name" /\
   dict_get "kind" e = Some (VStr "album") /\
   dict_get "full" e = Some full) /\
  (Song_init record full "json" = OK e ->
   map fst e = ["id"; "name"; "kind"; "full"; "artist"; "album"; "time"] /\
   Py.getitem record "id" = Py.getitem (VDict e) "id" /\
   Py.getitem record "name" = Py.getitem (VDict e) "name" /\
   dict_get "kind" e = Some (VStr "song") /\
   dict_get "full" e = Some full /\
   Py.getitem record "time" = Py.getitem (VDict e) "time").
Proof.
  split; [|split]; intros H.
  - rewrite Artist_init_json in H.
    bind_inv H as id Hid. bind_inv H as name Hname.
    bind_inv H as songs Hs. bind_inv H as albums Ha. injection H as <-.
    rewrite Hid, Hname. repeat split.
  - rewrite Album_init_json in H.
    bind_inv H as id Hid. bind_inv H as name Hname.
    bind_inv H as artist Ha. bind_inv H as songs Hs. injection H as <-.
    rewrite Hid, Hname. repeat split.
  - rewrite Song_init_json in H.
    bind_inv H as id Hid. bind_inv H as name Hname.
    bind_inv H as artist Ha. bind_inv H as album Hb. bind_inv H as time Ht.
    injection H as <-. rewrite Hid, Hname, Ht. repeat split.
Qed.

(** X3.  A [source] that is neither ['api'] nor ['json'] matches no
    branch of the constructors: whatever the record, they return an
    entity with no key at all, which [Artist.verify] and [Album.verify]
    turn down. *)
Theorem unknown_source_empty (record full : value) (source : string) :
  source <> "api" -> source <> "json" ->
  Artist_init record full source = OK [] /\
  Album_init record full source = OK [] /\
  Song_init record full source = OK [] /\
  Artist_verify [] = false /\ Album_verify [] = false.
Proof.
  intros H1 H2. apply String.eqb_neq in H1, H2.
  rewrite Artist_init_eq, Album_init_eq, Song_init_eq.
  unfold Artist_body, Album_body, Song_body. rewrite H1, H2. repeat split.
Qed.

Lemma getitem_missing (d : dict) (k : string) :
  dict_mem k d = false -> Py.getitem (VDict d) k = Raise (KeyError k).
Proof.
  unfold dict_mem, Py.getitem. destruct (dict_get k d); [discriminate|auto].
Qed.

Lemma getitem_present (d : dict) (k : string) :
  dict_mem k d = true -> exists v, Py.getitem (VDict d) k = OK v.
Proof.
  unfold dict_mem, Py.getitem. destruct (dict_get k d); [eauto|discriminate].
Qed.

Lemma getitem_not_dict (v : value) (k : string) :
  is_dict v = false -> Py.getitem v k = Raise TypeError.
Proof. destruct v; simpl; auto; discriminate. Qed.

Ltac first_key d k :=
  destruct (dict_mem k d) eqn:?;
  [ let v := fresh "v" in
    let E := fresh "E" in
    destruct (getitem_present d k) as [v E]; [assumption|];
    rewrite E; cbn [rbind negb]
  | cbn [negb]; intros [= <-]; rewrite (getitem_missing d k) by assumption;
    reflexivity ].

(** X4.  A record that lacks a key the constructor reads before it builds
    anything nested raises [KeyError] for the first such key, in the
    order the constructor reads them; a record that is not a dict raises
    [TypeError].  In json mode ['songs'] and ['artist'] are such keys:
    unlike ['topTracks'] in API mode, their absence is not made up for. *)
Theorem missing_key_raises (record full : value) (d : dict) (k : string) :
  (is_dict record = false ->
   forall source, source = "api" \/ source = "json" ->
     Artist_init record full source = Raise TypeError /\
     Album_init record full source = Raise TypeError /\
     Song_init record full source = Raise TypeError) /\
  (first_missing ["artistId"; "name"] d = Some k ->
   Artist_init (VDict d) full "api" = Raise (KeyError k)) /\
  (first_missing ["id"; "name"; "songs"] d = Some k ->
   Artist_init (VDict d) full "json" = Raise (KeyError k)) /\
  (first_missing ["albumId"; "name"; "artistId"] d = Some k ->
   Album_init (VDict d) full "api" = Raise (KeyError k)) /\
  (first_missing ["id"; "name"; "artist"] d = Some k ->
   Album_init (VDict d) full "json" = Raise (KeyError k)) /\
  (first_missing ["storeId"; "title"; "artist"; "artistId"] d = Some k ->
   Song_init (VDict d) full "api" = Raise (KeyError k)) /\
  (first_missing ["id"; "name"; "artist"] d = Some k ->
   Song_init (VDict d) full "json" = Raise (KeyError k)).
Proof.
  split.
  { intros Hd source [-> | ->].
    - rewrite Artist_init_api, Album_init_api, Song_init_api.
      rewrite !(getitem_not_dict record) by assumption. repeat split.
    - rewrite Artist_init_json, Album_init_json, Song_init_json.
      rewrite !(getitem_not_dict record) by assumption. repeat split. }
  unfold first_missing. cbn [find].
  repeat split.
  - rewrite Artist_init_api. first_key d "artistId". first_key d "name".
    discriminate.
  - rewrite Artist_init_json. first_key d "id". first_key d "name".
    first_key d "songs". discriminate.
  - rewrite Album_init_api. first_key d "albumId". first_key d "name".
    first_key d "artistId". discriminate.
  - rewrite Album_init_json. first_key d "id". first_key d "name".
    first_key d "artist". discriminate.
  - rewrite Song_init_api. first_key d "storeId". first_key d "title".
    first_key d "artist". first_key d "artistId". discriminate.
  - rewrite Song_init_json. first_key d "id". first_key d "name".
    first_key d "artist". discriminate.
Qed.

(** X5.  In API mode the nested collections are optional: an artist
    record without ['topTracks'] and ['albums'] builds an artist with no
    songs and no albums, and an album record without ['tracks'] builds an
    album with no songs (its artist being the minimal one made of
    [artistId[0]] and the artist name). *)
Theorem absent_collections_empty (d : dict) (full id name : value) :
  (Py.getitem (VDict d) "artistId" = OK id ->
   Py.getitem (VDict d) "name" = OK name ->
   dict_mem "topTracks" d = false ->
   dict_mem "albums" d = false ->
   Artist_init (VDict d) full "api"
   = OK [("id", id); ("name", name); ("kind", VStr "artist"); ("full", full);
         ("songs", VList []); ("albums", VList [])]) /\
  (forall ids id0 aname,
      Py.getitem (VDict d) "albumId" = OK id ->
      Py.getitem (VDict d) "name" = OK name ->
      Py.getitem (VDict d) "artistId" = OK ids ->
      Py.getitem0 ids = OK id0 ->
      Py.getitem (VDict d) "artist" = OK aname ->
      dict_mem "tracks" d = false ->
      Album_init (VDict d) full "api"
      = OK [("id", id); ("name", name); ("kind", VStr "album"); ("full", full);
            ("artist",
             VDict [("id", id0); ("name", aname); ("kind", VStr "artist");
                    ("full", VBool false); ("songs", VList []);
                    ("albums", VList [])]);
            ("songs", VList [])]).
Proof.
  split.
  - intros Hid Hname Ht Ha. rewrite Artist_init_api, Hid, Hname.
    rewrite (getitem_missing d "topTracks" Ht), (getitem_missing d "albums" Ha).
    reflexivity.
  - intros ids id0 aname Hid Hname Hids H0 Han Ht.
    rewrite Album_init_api, Hid, Hname, Hids, Han. cbn [rbind].
    rewrite H0. cbn [rbind].
    rewrite (proj1 (Artist_init_minimal id0 aname)).
    rewrite (getitem_missing d "tracks" Ht). reflexivity.
Qed.

(** X6.  The handler of a missing collection takes [KeyError] only: any
    other exception raised while the nested songs or albums are built
    ([TypeError], [IndexError], [ValueError]) ends the construction of
    the artist or of the album with that exception. *)
Theorem nested_errors_surface (record full id name : value) (e : exn) :
  is_KeyError e = false ->
  (Py.getitem record "artistId" = OK id ->
   Py.getitem record "name" = OK name ->
   songs_of record "topTracks" = Raise e ->
   Artist_init record full "api" = Raise e) /\
  (Py.getitem record "artistId" = OK id ->
   Py.getitem record "name" = OK name ->
   (forall e', songs_of record "topTracks" = Raise e' -> is_KeyError e' = true) ->
   albums_of record "albums" = Raise e ->
   Artist_init record full "api" = Raise e) /\
  (forall ids id0 aname,
      Py.getitem record "albumId" = OK id ->
      Py.getitem record "name" = OK name ->
      Py.getitem record "artistId" = OK ids ->
      Py.getitem0 ids = OK id0 ->
      Py.getitem record "artist" = OK aname ->
      songs_of record "tracks" = Raise e ->
      Album_init record full "api" = Raise e).
Proof.
  intros He. unfold songs_of, albums_of. split; [|split].
  - intros Hid Hname Hs. rewrite Artist_init_api, Hid, Hname. cbn [rbind].
    rewrite Hs. cbn [try_except]. now rewrite He.
  - intros Hid Hname Hs Ha. rewrite Artist_init_api, Hid, Hname. cbn [rbind].
    rewrite Ha.
    match goal with |- context [try_except ?b is_KeyError (OK [])] =>
      destruct b as [songs|e'] eqn:Eb end.
    + cbn [try_except rbind]. now rewrite He.
    + cbn [try_except]. rewrite (Hs e' eq_refl). cbn [rbind try_except].
      now rewrite He.
  - intros ids id0 aname Hid Hname Hids H0 Han Hs.
    rewrite Album_init_api, Hid, Hname, Hids, Han. cbn [rbind].
    rewrite H0. cbn [rbind].
    rewrite (proj1 (Artist_init_minimal id0 aname)). cbn [rbind].
    rewrite Hs. cbn [try_except]. now rewrite He.
Qed.

(** What a song built from an API record is made of. *)
Lemma Song_api_built (record full : value) (e : dict) :
  Song_init record full "api" = OK e ->
  exists sid title ids id0 aname alid alname ms t,
    Py.getitem record "storeId" = OK sid /\
    Py.getitem record "title" = OK title /\
    Py.getitem record "artistId" = OK ids /\
    Py.getitem0 ids = OK id0 /\
    Py.getitem record "artist" = OK aname /\
    Py.getitem record "albumId" = OK alid /\
    Py.getitem record "album" = OK alname /\
    Py.getitem record "durationMillis" = OK ms /\
    Song_time_from_ms ms = OK t /\
    let artist :=
      VDict [("id", id0); ("name", aname); ("kind", VStr "artist");
             ("full", VBool false); ("songs", VList []); ("albums", VList [])] in
    e = [("id", sid); ("name", title); ("kind", VStr "song"); ("full", full);
         ("artist", artist);
         ("album",
          VDict [("id", alid); ("name", alname); ("kind", VStr "album");
                 ("full", VBool false); ("artist", artist);
                 ("songs", VList [])]);
         ("time", VStr t)].
Proof.
  intros H. rewrite Song_init_api in H.
  bind_inv H as id Hid. bind_inv H as name Hname.
  bind_inv H as artist Ha. bind_inv H as album Hb. bind_inv H as time Ht.
  injection H as <-. bind_inv Ht as ms Hms.
  bind_inv Hb as alname Haln. bind_inv Hb as alid Hali.
  bind_inv Hb as aname Han. bind_inv Hb as ids Hids.
  rewrite Album_init_api in Hb. cbn [Py.getitem dict_get] in Hb.
  simpl String.eqb in Hb. cbn [rbind] in Hb.
  destruct (Py.getitem0 ids) as [id0|] eqn:H0; [|discriminate].
  cbn [rbind] in Hb.
  rewrite (proj1 (Artist_init_minimal id0 aname)) in Hb. cbn [rbind] in Hb.
  injection Hb as <-.
  rewrite Han, Hids in Ha. cbn [rbind] in Ha. rewrite H0 in Ha.
  cbn [rbind] in Ha.
  rewrite (proj2 (Artist_init_minimal id0 aname)) in Ha.
  cbn [try_except] in Ha. injection Ha as <-.
  exists id, name, ids, id0, aname, alid, alname, ms, time.
  repeat split; assumption.
Qed.

(** X7.  Whenever a song is built from an API record, its artist and the
    artist of its album are one and the same minimal artist, whose id is
    [artistId[0]]: the fallback of [Song.__init__] on an [artistId] that
    cannot be subscripted never ends in a song, and the album of the
    song has no songs of its own. *)
Theorem song_artist_is_album_artist (record full : value) (e : dict) :
  Song_init record full "api" = OK e ->
  exists ids id0 aname alid alname,
    Py.getitem record "artistId" = OK ids /\
    Py.getitem0 ids = OK id0 /\
    Py.getitem record "artist" = OK aname /\
    Py.getitem record "albumId" = OK alid /\
    Py.getitem record "album" = OK alname /\
    let artist :=
      VDict [("id", id0); ("name", aname); ("kind", VStr "artist");
             ("full", VBool false); ("songs", VList []); ("albums", VList [])] in
    dict_get "artist" e = Some artist /\
    dict_get "album" e
    = Some (VDict [("id", alid); ("name", alname); ("kind", VStr "album");
                   ("full", VBool false); ("artist", artist);
                   ("songs", VList [])]).
Proof.
  intros H. destruct (Song_api_built record full e H)
    as (sid & title & ids & id0 & aname & alid & alname & ms & t
        & H1 & H2 & H3 & H4 & H5 & H6 & H7 & H8 & H9 & ->).
  exists ids, id0, aname, alid, alname. repeat split; assumption.
Qed.

(** X9.  How built entities print.  A song built from an API record
    prints as its title, [" - "], and the name of its artist (the album
    is not part of it); an album as its name, [" - "], and the name of
    its artist; an artist as its name.  When one of these is not a
    string, [str()] raises [TypeError]. *)
Theorem str_of_built (record full : value) (e : dict) :
  (Song_init record full "api" = OK e ->
   Song_str (VDict e)
   = (title <- Py.getitem record "title" ;;
      aname <- Py.getitem record "artist" ;;
      Py.join " - " [title; aname])) /\
  (Album_init record full "api" = OK e ->
   Album_str (VDict e)
   = (name <- Py.getitem record "name" ;;
      aname <- Py.getitem record "artist" ;;
      Py.join " - " [name; aname])) /\
  (Artist_init record full "api" = OK e ->
   Artist_str (VDict e) = Artist_str record) /\
  (forall a b : string,
      Py.join " - " [VStr a; VStr b] = OK (a ++ " - " ++ b)) /\
  (forall a b : value,
      (forall s, a <> VStr s) \/ (forall s, b <> VStr s) ->
      Py.join " - " [a; b] = Raise TypeError).
Proof.
  split; [|split; [|split; [|split]]].
  - intros H. destruct (Song_api_built record full e H)
      as (sid & title & ids & id0 & aname & alid & alname & ms & t
          & H1 & H2 & H3 & H4 & H5 & H6 & H7 & H8 & H9 & ->).
    rewrite H2, H5. reflexivity.
  - intros H. rewrite Album_init_api in H.
    bind_inv H as id Hid. bind_inv H as name Hname.
    bind_inv H as artist Ha. bind_inv H as songs Hs. injection H as <-.
    bind_inv Ha as ids Hids. bind_inv Ha as id0 H0. bind_inv Ha as aname Han.
    rewrite (proj1 (Artist_init_minimal id0 aname)) in Ha. injection Ha as <-.
    rewrite Hname, Han. reflexivity.
  - intros H. rewrite Artist_init_api in H.
    bind_inv H as id Hid. bind_inv H as name Hname.
    bind_inv H as songs Hs. bind_inv H as albums Ha. injection H as <-.
    unfold Artist_str. rewrite Hname. reflexivity.
  - reflexivity.
  - intros a b [H | H].
    + destruct a; try reflexivity. now destruct (H s).
    + destruct a; try reflexivity. destruct b; try reflexivity.
      now destruct (H s0).
Qed.

Ltac below :=
  repeat match goal with
    | H : Py.getitem _ _ = OK _ |- _ => apply getitem_height in H
    | H : Py.getitem0 _ = OK _ |- _ => apply getitem0_height in H
    end; lia.

Lemma api_reload_below (n : nat) :
  forall r full e,
    (3 * height r < n ->
     Artist_init r full "api" = OK e ->
     Artist_init (persisted e) full "json" = OK e) /\
    (3 * height r + 1 < n ->
     Album_init r full "api" = OK e ->
     Album_init (persisted e) full "json" = OK e) /\
    (3 * height r + 2 < n ->
     Song_init r full "api" = OK e ->
     Song_init (persisted e) full "json" = OK e).
Proof.
  induction n as [|n IH]; intros r full e; (split; [|split]); intros Hn H;
    try lia.
  - assert (Hsongs : forall songs,
               try_except
                 (tracks <- Py.getitem r "topTracks" ;;
                  items <- Py.iter tracks ;;
                  mapM (fun s => Song_init s (VBool true) "api") items)
                 is_KeyError (OK []) = OK songs ->
               mapM (fun song => Song_init song (VBool true) "json")
                 (map VDict songs) = OK songs).
    { intros songs Hs. apply try_except_OK in Hs.
      destruct Hs as [Hs | (e' & _ & _ & Hs)]; [|now injection Hs as <-].
      bind_inv Hs as c Hc. bind_inv Hs as items Hi.
      refine (mapM_reparse _ _ items songs _ Hs).
      intros x e' Hx. apply (IH x).
      pose proof (items_height _ _ _ _ _ Hc Hi Hx). lia. }
    assert (Halbums : forall albums,
               try_except
                 (albums <- Py.getitem r "albums" ;;
                  items <- Py.iter albums ;;
                  mapM (fun a => Album_init a (VBool false) "api") items)
                 is_KeyError (OK []) = OK albums ->
               mapM (fun album => Album_init album (VBool false) "json")
                 (map VDict albums) = OK albums).
    { intros albums Hs. apply try_except_OK in Hs.
      destruct Hs as [Hs | (e' & _ & _ & Hs)]; [|now injection Hs as <-].
      bind_inv Hs as c Hc. bind_inv Hs as items Hi.
      refine (mapM_reparse _ _ items albums _ Hs).
      intros x e' Hx. apply (IH x).
      pose proof (items_height _ _ _ _ _ Hc Hi Hx). lia. }
    rewrite Artist_init_api in H.
    bind_inv H as id Hid. bind_inv H as name Hname.
    bind_inv H as songs Hs. bind_inv H as albums Ha. injection H as <-.
    rewrite Artist_init_json. unfold persisted, entities.
    cbn [Py.getitem dict_get]. simpl String.eqb. cbn [rbind Py.iter].
    rewrite (Hsongs _ Hs). cbn [rbind]. rewrite (Halbums _ Ha). reflexivity.
  - rewrite Album_init_api in H.
    bind_inv H as id Hid. bind_inv H as name Hname.
    bind_inv H as artist Ha. bind_inv H as songs Hs. injection H as <-.
    bind_inv Ha as ids Hids. bind_inv Ha as id0 H0. bind_inv Ha as aname Han.
    assert (Ea : Artist_init (VDict artist) (VBool false) "json" = OK artist).
    { apply (IH _ (VBool false) artist) in Ha; [exact Ha|].
      enough (height (VDict [("artistId", id0); ("name", aname)]) <= height r)
        by lia.
      apply fresh2_height; below. }
    assert (Es : mapM (fun song => Song_init song (VBool true) "json")
                   (map VDict songs) = OK songs).
    { apply try_except_OK in Hs.
      destruct Hs as [Hs | (e' & _ & _ & Hs)]; [|now injection Hs as <-].
      bind_inv Hs as c Hc. bind_inv Hs as items Hi.
      refine (mapM_reparse _ _ items songs _ Hs).
      intros x e' Hx. apply (IH x).
      pose proof (items_height _ _ _ _ _ Hc Hi Hx). lia. }
    rewrite Album_init_json. unfold persisted, entities.
    cbn [Py.getitem dict_get]. simpl String.eqb. cbn [rbind Py.iter].
    rewrite Ea. cbn [rbind]. rewrite Es. reflexivity.
  - rewrite Song_init_api in H.
    bind_inv H as id Hid. bind_inv H as name Hname.
    bind_inv H as artist Ha. bind_inv H as album Hb. bind_inv H as time Ht.
    injection H as <-.
    assert (Ea : Artist_init (VDict artist) (VBool false) "json" = OK artist).
    { apply try_except_OK in Ha. destruct Ha as [Ha | (e' & _ & _ & Ha)].
      - bind_inv Ha as aname Han. bind_inv Ha as ids Hids.
        bind_inv Ha as id0 H0.
        apply (IH _ (VBool false) artist) in Ha; [exact Ha|].
        enough (height (VDict [("name", aname); ("artistId", id0)]) <= height r)
          by lia.
        apply fresh2_height; below.
      - bind_inv Ha as aname Han. bind_inv Ha as ids Hids.
        apply (IH _ (VBool false) artist) in Ha; [exact Ha|].
        enough (height (VDict [("name", aname); ("artistId", ids)]) <= height r)
          by lia.
        apply fresh2_height; below. }
    assert (Eb : Album_init (VDict album) (VBool false) "json" = OK album).
    { bind_inv Hb as alname Haln. bind_inv Hb as alid Hali.
      bind_inv Hb as aname Han. bind_inv Hb as ids Hids.
      apply (IH _ (VBool false) album) in Hb; [exact Hb|].
      enough (height (VDict [("name", alname); ("albumId", alid);
                             ("artist", aname); ("artistId", ids)]) <= height r)
        by lia.
      apply fresh4_height; below. }
    rewrite Song_init_json. unfold persisted.
    cbn [Py.getitem dict_get]. simpl String.eqb. cbn [rbind].
    rewrite Ea. cbn [rbind]. rewrite Eb. reflexivity.
Qed.

(** X8.  An entity built from an API record, written out in the
    persisted shape and read back in json mode with the same full
    argument, is the entity itself: nothing the API mode builds is lost
    or changed by saving and restoring it. *)
Theorem api_reload (record full : value) (e : dict) :
  (Artist_init record full "api" = OK e ->
   Artist_init (persisted e) full "json" = OK e) /\
  (Album_init record full "api" = OK e ->
   Album_init (persisted e) full "json" = OK e) /\
  (Song_init record full "api" = OK e ->
   Song_init (persisted e) full "json" = OK e).
Proof.
  pose proof (api_reload_below (3 * height record + 3) record full e)
    as (A & B & C).
  repeat split; [apply A | apply B | apply C]; lia.
Qed.

(** * Further properties of playback *)

Section PlaybackMore.

Variable w : world.

(** What the loop appends to the trace, whatever the songs are and
    however the round of each ends. *)
Lemma play_from_rounds (songs : list value) :
  forall n i st,
  exists evs,
    trace (snd (play_from w n i songs st)) = (trace st ++ evs)%list /\
    self_of (snd (play_from w n i songs st)) = self_of st /\
    Forall (fun e => is_round e = true) evs /\
    count_events is_report evs = count_events is_call evs /\
    count_events is_call evs <= count_events is_url evs /\
    count_events is_url evs <= S (count_events is_call evs) /\
    count_events is_call evs <= List.length songs.
Proof.
  induction songs as [|song rest IH]; intros n i st.
  - exists []. simpl. rewrite app_nil_r. repeat split; auto.
  - cbn [play_from].
    unfold bind, lift, stream_url, now_playing, call, emit, bind, lift.
    destruct (Py.getitem song "id") as [id|];
      [|exists []; simpl; rewrite app_nil_r; repeat split; auto with arith].
    cbn -[now_playing_line count_events Nat.ltb Z.eqb List.app play_from].
    assert (U : exists evs : list event,
               (trace st ++ [EvGetStreamUrl id])%list = (trace st ++ evs)%list /\
               self_of st = self_of st /\
               Forall (fun e => is_round e = true) evs /\
               count_events is_report evs = count_events is_call evs /\
               count_events is_call evs <= count_events is_url evs /\
               count_events is_url evs <= S (count_events is_call evs) /\
               count_events is_call evs <= List.length (song :: rest)).
    { exists [EvGetStreamUrl id]. cbn. repeat split; auto with arith. }
    destruct (get_stream_url w id) as [url|]; [|exact U].
    destruct (Song_str song) as [title|]; [|exact U].
    destruct (Py.getitem song "time") as [time|]; [|exact U].
    cbn -[now_playing_line count_events Nat.ltb Z.eqb List.app play_from
          Py.str].
    destruct (Py.str time) as [shown|]; [|exact U].
    clear U.
    cbn -[now_playing_line count_events Nat.ltb Z.eqb List.app play_from].
    rewrite <- !app_assoc. cbn [List.app].
    match goal with |- context [Z.eqb ?c 11] => destruct (Z.eqb c 11) end.
    + eexists. cbn [ret snd fst trace self_of]. split; [reflexivity|].
      cbn. repeat split; auto with arith.
    + match goal with |- context [play_from w n (S i) rest ?s] =>
        destruct (IH n (S i) s) as (evs & E & S & F & R & C1 & C2 & C3) end.
      rewrite E, S. cbn [trace self_of]. rewrite <- app_assoc. cbn [List.app].
      eexists. split; [reflexivity|]. split; [reflexivity|].
      split; [repeat constructor; exact F|].
      change (?a :: ?b :: ?c :: evs) with ([a; b; c] ++ evs)%list.
      rewrite !count_events_app. cbn [count_events filter is_report is_call
                                       is_url List.length].
      cbn [List.length]. lia.
Qed.

(** A resume point handed back by the loop is the number of a song that
    is not the last. *)
Lemma play_from_resume (songs : list value) :
  forall n i st k,
    fst (play_from w n i songs st) = OK (Some k) ->
    i <= k < n /\ k < i + List.length songs.
Proof.
  induction songs as [|song rest IH]; intros n i st k.
  - simpl. discriminate.
  - cbn [play_from].
    unfold bind, lift, stream_url, now_playing, call, emit, bind, lift.
    destruct (Py.getitem song "id") as [id|]; [|discriminate].
    cbn -[now_playing_line count_events Nat.ltb Z.eqb List.app play_from].
    destruct (get_stream_url w id) as [url|]; [|discriminate].
    destruct (Song_str song) as [title|]; [|discriminate].
    destruct (Py.getitem song "time") as [time|]; [|discriminate].
    cbn -[now_playing_line count_events Nat.ltb Z.eqb List.app play_from
          Py.str].
    destruct (Py.str time) as [shown|]; [|discriminate].
    cbn -[now_playing_line count_events Nat.ltb Z.eqb List.app play_from].
    match goal with |- context [Z.eqb ?c 11] => destruct (Z.eqb c 11) end.
    + cbn [ret fst]. destruct (Nat.ltb_spec i n); [|discriminate].
      intros [= <-]. cbn [List.length]. lia.
    + intros H. apply IH in H. cbn [List.length]. lia.
Qed.

End PlaybackMore.

(** X11.  A resume point returned by [play] is the number of a song of
    the list that is not the last one: [1 <= i < len(songs)].  So [play]
    on a single song, or on no song, never returns a resume point,
    whatever the player and the rest of the world do. *)
Theorem play_resume_bound (w : world) (songs : list value) (st : state)
    (i : nat) :
  fst (MusicObject_play w songs st) = OK (Some i) ->
  1 <= i < List.length songs.
Proof.
  unfold MusicObject_play, check_isfile, goodbye, bind, emit, ret, lift.
  destruct (isfile w (conf_path w)); cbn [negb].
  - intros H. apply play_from_resume in H. lia.
  - destruct (goodbye_outcome w "No mpv_input.conf found."); [|discriminate].
    intros H. apply play_from_resume in H. lia.
Qed.

(** The events of a run of [play]. *)
Lemma play_events (w : world) (songs : list value) (st : state) :
  exists evs,
    trace (snd (MusicObject_play w songs st))
    = (trace st ++ EvIsFile (conf_path w) :: evs)%list /\
    self_of (snd (MusicObject_play w songs st)) = self_of st /\
    count_events is_lookup evs = 0 /\
    count_events is_isfile evs = 0 /\
    count_events is_report evs = count_events is_call evs /\
    count_events is_call evs <= count_events is_url evs /\
    count_events is_url evs <= S (count_events is_call evs) /\
    count_events is_call evs <= List.length songs.
Proof.
  assert (Z : forall evs, Forall (fun e => is_round e = true) evs ->
                          count_events is_lookup evs = 0 /\
                          count_events is_isfile evs = 0).
  { induction 1 as [|e evs He _ [IH1 IH2]]; [auto|].
    destruct e; try discriminate; cbn; auto. }
  unfold MusicObject_play, check_isfile, goodbye, bind, emit, ret, lift.
  destruct (isfile w (conf_path w)); cbn [negb self_of trace].
  - match goal with |- context [play_from w ?n 1 songs ?s] =>
      destruct (play_from_rounds w songs n 1 s)
        as (evs & E & S & F & R & C1 & C2 & C3) end.
    exists evs. rewrite E, S. cbn [trace self_of]. rewrite <- app_assoc.
    destruct (Z evs F). repeat split; auto.
  - destruct (goodbye_outcome w "No mpv_input.conf found.") as [[]|e].
    + match goal with |- context [play_from w ?n 1 songs ?s] =>
        destruct (play_from_rounds w songs n 1 s)
          as (evs & E & S & F & R & C1 & C2 & C3) end.
      exists (EvGoodbye "No mpv_input.conf found." :: evs).
      rewrite E, S. cbn [trace self_of]. rewrite <- !app_assoc.
      destruct (Z evs F). cbn [List.app]. repeat split; auto.
    + exists [EvGoodbye "No mpv_input.conf found."].
      cbn [snd trace self_of]. rewrite <- app_assoc. cbn.
      repeat split; auto with arith.
Qed.




(** X10.  A song built from an API record whose title and artist name
    are strings can be played as soon as its stream URL resolves: the
    hypothesis of the playback theorems holds for it. *)
Theorem built_song_playable (w : world) (record full sid : value)
    (title aname : string) (url : string) (e : dict) :
  Song_init record full "api" = OK e ->
  Py.getitem record "storeId" = OK sid ->
  Py.getitem record "title" = OK (VStr title) ->
  Py.getitem record "artist" = OK (VStr aname) ->
  get_stream_url w sid = OK url ->
  playable w (VDict e) = true.
Proof.
  intros H Hs Ht Ha Hu. destruct (Song_api_built record full e H)
    as (sid' & title' & ids & id0 & aname' & alid & alname & ms & t
        & H1 & H2 & H3 & H4 & H5 & H6 & H7 & H8 & H9 & ->).
  rewrite Hs in H1. injection H1 as <-.
  rewrite Ht in H2. injection H2 as <-.
  rewrite Ha in H5. injection H5 as <-.
  unfold playable. cbn [Py.getitem dict_get]. simpl String.eqb.
  cbn [rbind]. rewrite Hu. reflexivity.
Qed.


(** * Further properties of fill, play and collect *)

Lemma dict_set_keys (k : string) (v : value) (d : dict) :
  dict_mem k d = true -> map fst (dict_set k v d) = map fst d.
Proof.
  unfold dict_mem. induction d as [|[k' v'] d IH]; simpl; [discriminate|].
  destruct (k =? k') eqn:E.
  - apply String.eqb_eq in E. now subst.
  - intros H. simpl. now rewrite IH.
Qed.

Lemma dict_mem_keys (k : string) (d d' : dict) :
  map fst d = map fst d' -> dict_mem k d = dict_mem k d'.
Proof.
  unfold dict_mem. revert d'.
  induction d as [|[k1 v1] d IH]; intros [|[k2 v2] d']; simpl;
    try discriminate; [reflexivity|].
  intros [= <- H]. destruct (k =? k1); [reflexivity | auto].
Qed.

(** The state a [fill] of a partial entity ends in, whatever its
    outcome. *)
Lemma Artist_fill_outcome (func : lookup_fn) (limit : Z) (st : state)
    (full id : value) :
  dict_get "full" (self_of st) = Some full ->
  Py.truthy full = false ->
  dict_get "id" (self_of st) = Some id ->
  let tr := (trace st ++ [EvLookup id (Some limit)])%list in
  match func id (Some limit) with
  | Raise e => Artist_fill func limit st = (Raise e, mkState (self_of st) tr)
  | OK data =>
      match songs_of data "topTracks" with
      | Raise e => Artist_fill func limit st = (Raise e, mkState (self_of st) tr)
      | OK songs =>
          let self1 := dict_set "songs" (entities songs) (self_of st) in
          match albums_of data "albums" with
          | Raise e => Artist_fill func limit st = (Raise e, mkState self1 tr)
          | OK albums =>
              Artist_fill func limit st
              = (OK tt,
                 mkState (dict_set "full" (VBool true)
                            (dict_set "albums" (entities albums) self1)) tr)
          end
      end
  end.
Proof.
  intros Hf Ht Hid tr. subst tr.
  destruct (func id (Some limit)) as [data|] eqn:Ed;
    [destruct (songs_of data "topTracks") as [songs|] eqn:Es;
     [destruct (albums_of data "albums") as [albums|] eqn:Ea|]|];
    cbv zeta;
    unfold Artist_fill, bind at 1, self_getitem at 1, Py.getitem;
    rewrite Hf, Ht;
    unfold bind, self_getitem, call_lookup, bind, emit, lift, self_setitem,
      Py.getitem;
    rewrite Hid; cbn [self_of trace]; rewrite Ed; try rewrite Es;
    cbn [self_of trace]; try rewrite Ea; reflexivity.
Qed.

Lemma Album_fill_outcome (func : lookup_fn) (limit : Z) (st : state)
    (full id : value) :
  dict_get "full" (self_of st) = Some full ->
  Py.truthy full = false ->
  dict_get "id" (self_of st) = Some id ->
  let tr := (trace st ++ [EvLookup id None])%list in
  match func id None with
  | Raise e => Album_fill func limit st = (Raise e, mkState (self_of st) tr)
  | OK data =>
      match songs_of data "tracks" with
      | Raise e => Album_fill func limit st = (Raise e, mkState (self_of st) tr)
      | OK songs =>
          Album_fill func limit st
          = (OK tt,
             mkState (dict_set "full" (VBool true)
                        (dict_set "songs" (entities songs) (self_of st))) tr)
      end
  end.
Proof.
  intros Hf Ht Hid tr. subst tr.
  destruct (func id None) as [data|] eqn:Ed;
    [destruct (songs_of data "tracks") as [songs|] eqn:Es|];
    cbv zeta;
    unfold Album_fill, bind at 1, self_getitem at 1, Py.getitem;
    rewrite Hf, Ht;
    unfold bind, self_getitem, call_lookup, bind, emit, lift, self_setitem,
      Py.getitem;
    rewrite Hid; cbn [self_of trace]; rewrite Ed; try rewrite Es;
    reflexivity.
Qed.

(** A [fill] that finds no ['full'] or no ['id'] raises [KeyError] and
    touches nothing. *)
Lemma fill_no_key (func : lookup_fn) (limit : Z) (st : state) :
  (dict_get "full" (self_of st) = None ->
   Artist_fill func limit st = (Raise (KeyError "full"), st) /\
   Album_fill func limit st = (Raise (KeyError "full"), st)) /\
  (forall full,
      dict_get "full" (self_of st) = Some full -> Py.truthy full = false ->
      dict_get "id" (self_of st) = None ->
      Artist_fill func limit st = (Raise (KeyError "id"), st) /\
      Album_fill func limit st = (Raise (KeyError "id"), st)).
Proof.
  split.
  - intros H. unfold Artist_fill, Album_fill, bind, self_getitem, Py.getitem.
    now rewrite H.
  - intros full Hf Ht Hid.
    unfold Artist_fill, Album_fill, bind, self_getitem, Py.getitem.
    now rewrite Hf, Ht, Hid.
Qed.

(** X14.  On a partial entity that has an id, [fill] calls the lookup
    capability exactly once, whether it then succeeds or not: an artist
    passes its id and the limit as [max_top_tracks], an album passes its
    id alone, its limit being unused. *)
Theorem fill_calls_lookup_once (func : lookup_fn) (limit : Z) (st : state)
    (full id : value) :
  dict_get "full" (self_of st) = Some full ->
  Py.truthy full = false ->
  dict_get "id" (self_of st) = Some id ->
  trace (snd (Artist_fill func limit st))
  = (trace st ++ [EvLookup id (Some limit)])%list /\
  trace (snd (Album_fill func limit st))
  = (trace st ++ [EvLookup id None])%list.
Proof.
  intros Hf Ht Hid.
  pose proof (Artist_fill_outcome func limit st full id Hf Ht Hid) as A.
  pose proof (Album_fill_outcome func limit st full id Hf Ht Hid) as B.
  cbv zeta in A, B. split.
  - destruct (func id (Some limit)) as [data|]; [|now rewrite A].
    destruct (songs_of data "topTracks") as [songs|]; [|now rewrite A].
    destruct (albums_of data "albums") as [albums|]; now rewrite A.
  - destruct (func id None) as [data|]; [|now rewrite B].
    destruct (songs_of data "tracks") as [songs|]; now rewrite B.
Qed.

(** X15.  A [fill] that raises never marks the entity full.  For an
    album it changes nothing at all; for an artist it may already have
    replaced ['songs'] (when building the albums is what failed), and
    every other key, ['full'] included, is as it was. *)
Theorem fill_failure_frame (func : lookup_fn) (limit : Z) (st st' : state)
    (e : exn) :
  (Artist_fill func limit st = (Raise e, st') ->
   forall k, k <> "songs" ->
             dict_get k (self_of st') = dict_get k (self_of st)) /\
  (Album_fill func limit st = (Raise e, st') -> self_of st' = self_of st).
Proof.
  destruct (dict_get "full" (self_of st)) as [full|] eqn:Hf.
  2:{ destruct (proj1 (fill_no_key func limit st) Hf) as [A B].
      rewrite A, B. split; intros [= _ <-]; auto. }
  destruct (Py.truthy full) eqn:Ht.
  { destruct (fill_full func limit st full Hf Ht) as [A B].
    rewrite A, B. split; discriminate. }
  destruct (dict_get "id" (self_of st)) as [id|] eqn:Hid.
  2:{ destruct (proj2 (fill_no_key func limit st) full Hf Ht Hid) as [A B].
      rewrite A, B. split; intros [= _ <-]; auto. }
  pose proof (Artist_fill_outcome func limit st full id Hf Ht Hid) as A.
  pose proof (Album_fill_outcome func limit st full id Hf Ht Hid) as B.
  cbv zeta in A, B. split.
  - destruct (func id (Some limit)) as [data|];
      [|rewrite A; intros [= _ <-]; auto].
    destruct (songs_of data "topTracks") as [songs|];
      [|rewrite A; intros [= _ <-]; auto].
    destruct (albums_of data "albums") as [albums|]; rewrite A;
      [discriminate|].
    intros [= _ <-] k Hk. cbn [self_of]. now apply dict_get_set_other.
  - destruct (func id None) as [data|];
      [|rewrite B; intros [= _ <-]; auto].
    destruct (songs_of data "tracks") as [songs|]; rewrite B;
      [discriminate | intros [= _ <-]; auto].
Qed.

(** X16.  [fill] keeps the shape of an entity: on an entity that has
    the keys of its class, a successful [fill] leaves the keys and their
    order as they were, so the entity still passes [verify]. *)
Theorem fill_keeps_keys (func : lookup_fn) (limit : Z) (st st' : state) :
  (Artist_verify (self_of st) = true ->
   Artist_fill func limit st = (OK tt, st') ->
   map fst (self_of st') = map fst (self_of st) /\
   Artist_verify (self_of st') = true) /\
  (Album_verify (self_of st) = true ->
   Album_fill func limit st = (OK tt, st') ->
   map fst (self_of st') = map fst (self_of st) /\
   Album_verify (self_of st') = true).
Proof.
  split; intros V H.
  - assert (K : map fst (self_of st') = map fst (self_of st)).
    { rewrite Artist_verify_iff in V.
      destruct (fill_has_full _ st st' (ex_intro _ _ eq_refl) H) as [full Hf].
      destruct (Py.truthy full) eqn:Ht.
      - destruct (fill_full func limit st full Hf Ht) as [E _].
        rewrite E in H. now injection H as <-.
      - destruct (Artist_fill_partial func limit st st' full Hf Ht H)
          as (id & data & songs & albums & _ & _ & _ & _ & ->).
        cbn [self_of].
        assert (S1 : map fst (dict_set "songs" (entities songs) (self_of st))
                     = map fst (self_of st))
          by (apply dict_set_keys, V; simpl; auto 10).
        assert (S2 : map fst (dict_set "albums" (entities albums)
                                (dict_set "songs" (entities songs) (self_of st)))
                     = map fst (self_of st)).
        { rewrite dict_set_keys; [exact S1|].
          rewrite (dict_mem_keys _ _ _ S1). apply V. simpl. auto 10. }
        rewrite dict_set_keys; [exact S2|].
        rewrite (dict_mem_keys _ _ _ S2). apply V. simpl. auto 10. }
    split; [exact K|]. unfold Artist_verify in *. cbn [forallb] in *.
    now rewrite !(dict_mem_keys _ (self_of st') (self_of st) K).
  - assert (K : map fst (self_of st') = map fst (self_of st)).
    { rewrite Album_verify_iff in V.
      destruct (fill_has_full _ st st' (ex_intro _ _ eq_refl) H) as [full Hf].
      destruct (Py.truthy full) eqn:Ht.
      - destruct (fill_full func limit st full Hf Ht) as [_ E].
        rewrite E in H. now injection H as <-.
      - destruct (Album_fill_partial func limit st st' full Hf Ht H)
          as (id & data & songs & _ & _ & _ & ->).
        cbn [self_of].
        assert (S1 : map fst (dict_set "songs" (entities songs) (self_of st))
                     = map fst (self_of st))
          by (apply dict_set_keys, V; simpl; auto 10).
        rewrite dict_set_keys; [exact S1|].
        rewrite (dict_mem_keys _ _ _ S1). apply V. simpl. auto 10. }
    split; [exact K|]. unfold Album_verify in *. cbn [forallb] in *.
    now rewrite !(dict_mem_keys _ (self_of st') (self_of st) K).
Qed.

(** [play] on an object that can be iterated is [play] on its items. *)
Lemma MusicObject_play_value_items (w : world) (songs : value)
    (items : list value) (st : state) :
  Py.iter songs = OK items ->
  MusicObject_play_value w songs st = MusicObject_play w items st.
Proof.
  intros Hi.
  unfold MusicObject_play_value, MusicObject_play, check_isfile, goodbye,
    bind, emit, ret, lift.
  rewrite Hi. destruct (isfile w (conf_path w)); cbn [negb]; [reflexivity|].
  now destruct (goodbye_outcome w "No mpv_input.conf found.").
Qed.

(** [play] on an object that cannot be iterated: the existence check and
    the exit come first, then the error. *)
Lemma MusicObject_play_value_not_iterable (w : world) (songs : value)
    (e : exn) (st : state) :
  Py.iter songs = Raise e ->
  MusicObject_play_value w songs st
  = (if isfile w (conf_path w)
     then (Raise e,
           mkState (self_of st) (trace st ++ [EvIsFile (conf_path w)])%list)
     else (match goodbye_outcome w "No mpv_input.conf found." with
           | OK _ => Raise e
           | Raise e' => Raise e'
           end,
           mkState (self_of st)
             (trace st ++ [EvIsFile (conf_path w);
                           EvGoodbye "No mpv_input.conf found."])%list)).
Proof.
  intros Hi.
  unfold MusicObject_play_value, check_isfile, goodbye, bind, emit, ret, lift.
  rewrite Hi. destruct (isfile w (conf_path w)); cbn [negb fst snd self_of trace].
  - reflexivity.
  - rewrite <- app_assoc.
    now destruct (goodbye_outcome w "No mpv_input.conf found.") as [[]|].
Qed.

Lemma play_value_events (w : world) (songs : value) (st : state) :
  exists evs,
    trace (snd (MusicObject_play_value w songs st))
    = (trace st ++ EvIsFile (conf_path w) :: evs)%list /\
    self_of (snd (MusicObject_play_value w songs st)) = self_of st /\
    count_events is_lookup evs = 0.
Proof.
  destruct (Py.iter songs) as [items|e] eqn:Hi.
  - rewrite (MusicObject_play_value_items w songs items st Hi).
    destruct (play_events w items st) as (evs & E & S & L & _).
    exists evs. auto.
  - rewrite (MusicObject_play_value_not_iterable w songs e st Hi).
    destruct (isfile w (conf_path w)).
    + exists []. cbn. auto.
    + exists [EvGoodbye "No mpv_input.conf found."]. cbn. auto.
Qed.

Lemma play_own_songs_events (w : world) (st : state) :
  exists evs,
    trace (snd (play_own_songs w st)) = (trace st ++ evs)%list /\
    count_events is_lookup evs = 0 /\
    self_of (snd (play_own_songs w st)) = self_of st.
Proof.
  unfold play_own_songs, bind, self_getitem, lift.
  destruct (Py.getitem (VDict (self_of st)) "songs") as [songs|];
    [|exists []; cbn; rewrite app_nil_r; auto].
  destruct (play_value_events w songs st) as (evs & E & S & L).
  exists (EvIsFile (conf_path w) :: evs).
  destruct (MusicObject_play_value w songs st) as [[r|e] st1];
    cbn [snd fst ret] in *; rewrite E, S; repeat split; exact L.
Qed.

Lemma entity_play_unfold (w : world) (lookup : lookup_fn) (st : state)
    (full : value) :
  dict_get "full" (self_of st) = Some full ->
  Artist_play w lookup st
  = bind (if negb (Py.truthy full) then Artist_fill lookup 100 else ret tt)
      (fun _ => play_own_songs w) st /\
  Album_play w lookup st
  = bind (if negb (Py.truthy full) then Album_fill lookup 100 else ret tt)
      (fun _ => play_own_songs w) st.
Proof.
  intros Hf. split.
  - change (Artist_play w lookup st)
      with (bind (self_getitem "full")
              (fun full =>
                 bind (if negb (Py.truthy full) then Artist_fill lookup 100
                       else ret tt)
                   (fun _ => play_own_songs w)) st).
    unfold bind at 1, self_getitem at 1, Py.getitem. now rewrite Hf.
  - change (Album_play w lookup st)
      with (bind (self_getitem "full")
              (fun full =>
                 bind (if negb (Py.truthy full) then Album_fill lookup 100
                       else ret tt)
                   (fun _ => play_own_songs w)) st).
    unfold bind at 1, self_getitem at 1, Py.getitem. now rewrite Hf.
Qed.

(** X17.  [Artist.play] and [Album.play] fill before they play.  On a
    full entity they make no catalogue lookup.  On a partial entity the
    lookup is the first thing they do and the only lookup they make (an
    artist asks for 100 top tracks); when it raises, the call ends with
    that exception before the existence check of the player
    configuration, and nothing is played. *)
Theorem entity_play_fills_first (w : world) (lookup : lookup_fn) (st : state)
    (full : value) :
  dict_get "full" (self_of st) = Some full ->
  (Py.truthy full = true ->
   count_events is_lookup (trace (snd (Artist_play w lookup st)))
   = count_events is_lookup (trace st) /\
   count_events is_lookup (trace (snd (Album_play w lookup st)))
   = count_events is_lookup (trace st)) /\
  (Py.truthy full = false ->
   forall id,
     dict_get "id" (self_of st) = Some id ->
     (exists evs,
         trace (snd (Artist_play w lookup st))
         = (trace st ++ EvLookup id (Some 100%Z) :: evs)%list /\
         count_events is_lookup evs = 0) /\
     (exists evs,
         trace (snd (Album_play w lookup st))
         = (trace st ++ EvLookup id None :: evs)%list /\
         count_events is_lookup evs = 0) /\
     (forall e, lookup id (Some 100%Z) = Raise e ->
                Artist_play w lookup st
                = (Raise e,
                   mkState (self_of st)
                     (trace st ++ [EvLookup id (Some 100%Z)])%list)) /\
     (forall e, lookup id None = Raise e ->
                Album_play w lookup st
                = (Raise e,
                   mkState (self_of st)
                     (trace st ++ [EvLookup id None])%list))).
Proof.
  intros Hf. destruct (entity_play_unfold w lookup st full Hf) as [EA EB].
  rewrite EA, EB. clear EA EB. split; intros Ht; rewrite Ht; cbn [negb].
  - unfold bind, ret.
    destruct (play_own_songs_events w st) as (evs & E & L & _).
    rewrite E, count_events_app, L. split; lia.
  - intros id Hid.
    pose proof (Artist_fill_outcome lookup 100 st full id Hf Ht Hid) as A.
    pose proof (Album_fill_outcome lookup 100 st full id Hf Ht Hid) as B.
    cbv zeta in A, B.
    assert (T : forall (m : M unit) ev self1 r,
               m st = (r, mkState self1 (trace st ++ [ev])%list) ->
               exists evs,
                 trace (snd (bind m (fun _ => play_own_songs w) st))
                 = (trace st ++ ev :: evs)%list /\
                 count_events is_lookup evs = 0).
    { intros m ev self1 r Hm. unfold bind. rewrite Hm. destruct r as [[]|e].
      - destruct (play_own_songs_events w
                    (mkState self1 (trace st ++ [ev])%list))
          as (evs & E & L & _).
        exists evs. rewrite E. cbn [trace]. now rewrite <- app_assoc.
      - exists []. cbn. auto. }
    repeat split.
    + destruct (lookup id (Some 100%Z)) as [data|]; [|eapply T; exact A].
      destruct (songs_of data "topTracks") as [songs|]; [|eapply T; exact A].
      destruct (albums_of data "albums") as [albums|]; eapply T; exact A.
    + destruct (lookup id None) as [data|]; [|eapply T; exact B].
      destruct (songs_of data "tracks") as [songs|]; eapply T; exact B.
    + intros e He. rewrite He in A. unfold bind. now rewrite A.
    + intros e He. rewrite He in B. unfold bind. now rewrite B.
Qed.

(** * collect, for any limit *)

Lemma self_first_negative (key : string) (limit : Z) (st : state)
    (l : list value) :
  dict_get key (self_of st) = Some (VList l) ->
  (limit < 0)%Z ->
  self_first key limit st
  = (OK (VList (firstn (List.length l - Z.to_nat (- limit)) l)), st).
Proof.
  intros Hk Hl. unfold self_first, bind, self_getitem, lift, Py.getitem.
  rewrite Hk. cbn [Py.len Py.slice_to]. unfold Py.slice_stop.
  replace (Z.min (Z.of_nat (List.length l)) limit) with limit by lia.
  destruct (Z.ltb_spec limit 0); [|lia].
  do 4 f_equal. lia.
Qed.

(** X18.  [collect] with a negative limit does not yield an empty list:
    [songs[:min(len(songs), limit)]] is then [songs[:limit]], the songs
    without the last [-limit] of them (none when there are no more than
    that), and the same for the albums of an artist. *)
Theorem collect_negative_limit (st : state) (limit : Z) :
  (limit < 0)%Z ->
  let cut (l : list value) :=
    VList (firstn (List.length l - Z.to_nat (- limit)) l) in
  (forall songs albums,
      dict_get "songs" (self_of st) = Some (VList songs) ->
      dict_get "albums" (self_of st) = Some (VList albums) ->
      Artist_collect limit st
      = (OK (VDict [("songs", cut songs);
                    ("artists", VList [VDict (self_of st)]);
                    ("albums", cut albums)]), st)) /\
  (forall songs artist,
      dict_get "songs" (self_of st) = Some (VList songs) ->
      dict_get "artist" (self_of st) = Some artist ->
      Album_collect limit st
      = (OK (VDict [("songs", cut songs);
                    ("artists", VList [artist]);
                    ("albums", VList [VDict (self_of st)])]), st)).
Proof.
  intros Hl cut. split.
  - intros songs albums Hs Ha. unfold Artist_collect, bind, get_self, ret.
    now rewrite (self_first_negative "songs" limit st songs Hs Hl),
      (self_first_negative "albums" limit st albums Ha Hl).
  - intros songs artist Hs Ha.
    unfold Album_collect, bind, get_self, ret, self_getitem, Py.getitem.
    now rewrite (self_first_negative "songs" limit st songs Hs Hl), Ha.
Qed.

Lemma self_first_state (key : string) (limit : Z) (st : state) :
  snd (self_first key limit st) = st /\
  (dict_get key (self_of st) = None ->
   fst (self_first key limit st) = Raise (KeyError key)).
Proof.
  unfold self_first, bind, self_getitem, lift, Py.getitem.
  destruct (dict_get key (self_of st)) as [v|]; [|split; reflexivity].
  split; [|discriminate]. cbn [fst snd]. destruct (Py.len v); reflexivity.
Qed.

(** X19.  [collect] only reads: whatever the entity and the limit, and
    whether it returns or raises, the state after the call is the state
    before it.  On an entity without ['songs'] (such as the empty entity
    of an unknown source) an artist's and an album's [collect] raise
    [KeyError('songs')], and a song's [collect] without ['artist']
    raises [KeyError('artist')]. *)
Theorem collect_read_only (st : state) (limit : Z) (any_limit : option Z) :
  (snd (Artist_collect limit st) = st /\
   snd (Album_collect limit st) = st /\
   snd (Song_collect any_limit st) = st) /\
  (dict_get "songs" (self_of st) = None ->
   fst (Artist_collect limit st) = Raise (KeyError "songs") /\
   fst (Album_collect limit st) = Raise (KeyError "songs")) /\
  (dict_get "artist" (self_of st) = None ->
   fst (Song_collect any_limit st) = Raise (KeyError "artist")).
Proof.
  assert (F : forall key,
             self_first key limit st
             = (fst (self_first key limit st), st)).
  { intros key. rewrite <- (proj1 (self_first_state key limit st)) at 3.
    now destruct (self_first key limit st). }
  split; [split; [|split] | split; [intros H; split | intros H]];
    try revert H.
  - unfold Artist_collect, bind, get_self, ret. rewrite (F "songs").
    destruct (fst (self_first "songs" limit st)); [|reflexivity].
    rewrite (F "albums").
    destruct (fst (self_first "albums" limit st)); reflexivity.
  - unfold Album_collect, bind, get_self, ret, self_getitem.
    rewrite (F "songs").
    destruct (fst (self_first "songs" limit st)); [|reflexivity].
    destruct (Py.getitem (VDict (self_of st)) "artist"); reflexivity.
  - unfold Song_collect, bind, get_self, ret, self_getitem.
    destruct (Py.getitem (VDict (self_of st)) "artist"); [|reflexivity].
    destruct (Py.getitem (VDict (self_of st)) "album"); reflexivity.
  - intros H. unfold Artist_collect, bind. rewrite (F "songs").
    now rewrite (proj2 (self_first_state "songs" limit st) H).
  - intros H. unfold Album_collect, bind. rewrite (F "songs").
    now rewrite (proj2 (self_first_state "songs" limit st) H).
  - intros H. unfold Song_collect, bind, get_self, self_getitem, Py.getitem.
    now rewrite H.
Qed.

(** * Durations read back *)

Lemma is_digit_plain (c : ascii) :
  is_digit c = true ->
  Py.is_space c = false /\ Ascii.eqb c "-" = false /\ Ascii.eqb c "+" = false.
Proof.
  destruct c as [[] [] [] [] [] [] [] []]; vm_compute; intros H;
    try discriminate; repeat split.
Qed.

Lemma lstrip_head (c : ascii) (l : list ascii) :
  Py.is_space c = false -> Py.lstrip (c :: l) = c :: l.
Proof. intros H. simpl. now rewrite H. Qed.

Lemma strip_no_space (l : list ascii) :
  forallb (fun c => negb (Py.is_space c)) l = true -> Py.strip l = l.
Proof.
  intros H. unfold Py.strip.
  assert (L : forall m, forallb (fun c => negb (Py.is_space c)) m = true ->
                        Py.lstrip m = m).
  { intros [|c m]; [reflexivity|]. cbn [forallb]. intros Hm.
    apply andb_prop in Hm. apply lstrip_head.
    now destruct (Py.is_space c), Hm. }
  rewrite (L l H), L, rev_involutive; [reflexivity|].
  rewrite forallb_forall in *. intros c Hc. apply H. now apply in_rev.
Qed.

Lemma digits_no_space (l : list ascii) :
  forallb is_digit l = true ->
  forallb (fun c => negb (Py.is_space c)) l = true.
Proof.
  rewrite !forallb_forall. intros H c Hc.
  now rewrite (proj1 (is_digit_plain c (H c Hc))).
Qed.

Lemma chars_app (a b : string) :
  list_ascii_of_string (a ++ b)
  = (list_ascii_of_string a ++ list_ascii_of_string b)%list.
Proof. induction a as [|c a IH]; simpl; [reflexivity | now rewrite IH]. Qed.

Lemma uint_digits (d : Decimal.uint) :
  forallb is_digit (list_ascii_of_string (NilEmpty.string_of_uint d)) = true.
Proof. induction d; simpl; auto. Qed.

Lemma zeros_digits (k : nat) :
  forallb is_digit (list_ascii_of_string (Py.zeros k)) = true.
Proof. induction k; simpl; auto. Qed.

Lemma parse_digits_pos (d : Decimal.uint) :
  forall p b,
    Py.parse_digits (Z.pos p) b (list_ascii_of_string (NilEmpty.string_of_uint d))
    = match d with
      | Decimal.Nil => if b then Some (Z.pos p) else None
      | _ => Some (Z.pos (Pos.of_uint_acc d p))
      end.
Proof.
  induction d; intros p b; [reflexivity|..];
    cbn [NilEmpty.string_of_uint list_ascii_of_string Py.parse_digits];
    match goal with |- context [Py.digit_of ?c] =>
      let v := eval vm_compute in (Py.digit_of c) in
      change (Py.digit_of c) with v end;
    cbv iota;
    match goal with |- Py.parse_digits ?a true _ = Some (Z.pos ?q) =>
      let q' := eval cbn [Pos.of_uint_acc] in q in
      match q' with
      | Pos.of_uint_acc d ?r => replace a with (Z.pos r) by lia
      end end;
    rewrite IHd; destruct d; reflexivity.
Qed.

Lemma parse_digits_zero (d : Decimal.uint) :
  forall b,
    d <> Decimal.Nil \/ b = true ->
    Py.parse_digits 0 b (list_ascii_of_string (NilEmpty.string_of_uint d))
    = Some (Z.of_N (Pos.of_uint d)).
Proof.
  induction d; intros b Hb;
    [destruct Hb as [Hb | ->]; [congruence | reflexivity] | ..];
    cbn [NilEmpty.string_of_uint list_ascii_of_string Py.parse_digits];
    match goal with |- context [Py.digit_of ?c] =>
      let v := eval vm_compute in (Py.digit_of c) in
      change (Py.digit_of c) with v end;
    cbv iota; cbn [Z.mul Z.add Pos.of_uint].
  - apply IHd. now right.
  - rewrite (parse_digits_pos d 1 true). destruct d; reflexivity.
  - rewrite (parse_digits_pos d 2 true). destruct d; reflexivity.
  - rewrite (parse_digits_pos d 3 true). destruct d; reflexivity.
  - rewrite (parse_digits_pos d 4 true). destruct d; reflexivity.
  - rewrite (parse_digits_pos d 5 true). destruct d; reflexivity.
  - rewrite (parse_digits_pos d 6 true). destruct d; reflexivity.
  - rewrite (parse_digits_pos d 7 true). destruct d; reflexivity.
  - rewrite (parse_digits_pos d 8 true). destruct d; reflexivity.
  - rewrite (parse_digits_pos d 9 true). destruct d; reflexivity.
Qed.

Lemma parse_digits_zeros (k : nat) (l : list ascii) :
  forall b,
    Py.parse_digits 0 b (list_ascii_of_string (Py.zeros k) ++ l)%list
    = Py.parse_digits 0 (b || (0 <? k)%nat) l.
Proof.
  induction k as [|k IH]; intros b.
  - simpl. now rewrite orb_false_r.
  - cbn [Py.zeros list_ascii_of_string List.app Py.parse_digits].
    change (Py.digit_of "0") with (Some 0%Z). cbn [Z.mul Z.add].
    rewrite IH. now rewrite orb_true_r.
Qed.

(** [int()] of a run of zeros followed by the digits of a number. *)
Lemma parse_int_padded (k : nat) (d : Decimal.uint) :
  d <> Decimal.Nil ->
  Py.parse_int (Py.zeros k ++ NilEmpty.string_of_uint d)
  = Some (Z.of_N (Pos.of_uint d)).
Proof.
  intros Hd. unfold Py.parse_int. rewrite chars_app.
  assert (D : forallb is_digit
                (list_ascii_of_string (Py.zeros k)
                 ++ list_ascii_of_string (NilEmpty.string_of_uint d))%list
              = true)
    by (rewrite forallb_app, zeros_digits, uint_digits; reflexivity).
  rewrite (strip_no_space _ (digits_no_space _ D)).
  assert (V : Py.parse_digits 0 false
                (list_ascii_of_string (Py.zeros k)
                 ++ list_ascii_of_string (NilEmpty.string_of_uint d))%list
              = Some (Z.of_N (Pos.of_uint d))).
  { rewrite parse_digits_zeros. apply parse_digits_zero. now left. }
  destruct (list_ascii_of_string (Py.zeros k)
            ++ list_ascii_of_string (NilEmpty.string_of_uint d))%list
    as [|c l] eqn:E.
  - exfalso. apply app_eq_nil in E. destruct E as [_ E].
    destruct d; try discriminate; congruence.
  - cbn [forallb] in D. apply andb_prop in D. destruct D as [Dc _].
    destruct (is_digit_plain c Dc) as (_ & -> & ->). exact V.
Qed.

Lemma str_of_Z_pos (p : positive) :
  Py.str_of_Z (Z.pos p) = NilEmpty.string_of_uint (Pos.to_uint p) /\
  Py.str_of_Z (Z.neg p) = String "-" (NilEmpty.string_of_uint (Pos.to_uint p)).
Proof.
  unfold Py.str_of_Z. cbn [Z.to_int NilZero.string_of_int].
  unfold NilZero.string_of_uint.
  pose proof (DecimalPos.Unsigned.to_uint_nonnil p).
  destruct (Pos.to_uint p); [congruence|..]; split; reflexivity.
Qed.

(** [int(str(z))] is [z], also after [zfill(2)]. *)
Lemma int_of_str (z : Z) :
  Py.parse_int (Py.str_of_Z z) = Some z /\
  Py.parse_int (Py.zfill 2 (Py.str_of_Z z)) = Some z.
Proof.
  destruct z as [|p|p]; [split; reflexivity|..];
    destruct (str_of_Z_pos p) as [Ep En];
    pose proof (DecimalPos.Unsigned.to_uint_nonnil p) as Hn;
    pose proof (DecimalPos.Unsigned.of_to p) as Hv.
  - rewrite Ep.
    assert (P : forall k, Py.parse_int
                            (Py.zeros k ++ NilEmpty.string_of_uint (Pos.to_uint p))
                          = Some (Z.pos p)).
    { intros k. rewrite parse_int_padded by assumption. now rewrite Hv. }
    split; [exact (P 0)|]. unfold Py.zfill.
    destruct (2 <=? String.length (NilEmpty.string_of_uint (Pos.to_uint p)))%nat;
      [exact (P 0)|].
    pose proof (uint_digits (Pos.to_uint p)) as D.
    destruct (NilEmpty.string_of_uint (Pos.to_uint p)) as [|c rest] eqn:E.
    + destruct (Pos.to_uint p); try discriminate; congruence.
    + cbn [list_ascii_of_string forallb] in D. apply andb_prop in D.
      destruct (is_digit_plain c (proj1 D)) as (_ & -> & ->).
      cbn [orb]. apply P.
  - rewrite En.
    assert (N : Py.parse_int
                  (String "-" (NilEmpty.string_of_uint (Pos.to_uint p)))
                = Some (Z.neg p)).
    { unfold Py.parse_int. cbn [list_ascii_of_string].
      rewrite strip_no_space.
      - change (Ascii.eqb "-" "-") with true. cbv iota.
        rewrite parse_digits_zero by (now left). now rewrite Hv.
      - cbn [forallb]. apply (digits_no_space _ (uint_digits _)). }
    split; [exact N|]. unfold Py.zfill.
    destruct (NilEmpty.string_of_uint (Pos.to_uint p)) as [|c rest] eqn:E.
    + destruct (Pos.to_uint p); try discriminate; congruence.
    + exact N.
Qed.

Lemma string_length_app (a b : string) :
  String.length (a ++ b) = String.length a + String.length b.
Proof. induction a as [|c a IH]; simpl; [reflexivity | now rewrite IH]. Qed.

Lemma length_zeros (k : nat) : String.length (Py.zeros k) = k.
Proof. induction k; simpl; auto. Qed.

Lemma zfill_length (w : nat) (s : string) :
  String.length (Py.zfill w s) = Nat.max w (String.length s).
Proof.
  unfold Py.zfill. destruct (Nat.leb_spec w (String.length s)); [lia|].
  destruct s as [|c rest].
  - rewrite length_zeros. simpl. lia.
  - destruct (Ascii.eqb c "+" || Ascii.eqb c "-")%bool;
      cbn [String.length] in *; rewrite string_length_app, length_zeros;
      cbn [String.length]; lia.
Qed.

Lemma seconds_length (v : Z) :
  (0 <= v < 60)%Z -> String.length (Py.str_of_Z v) <= 2.
Proof.
  intros H. rewrite <- (Z2Nat.id v) by lia.
  assert (Hn : Z.to_nat v < 60) by lia.
  generalize dependent (Z.to_nat v). clear. intros n Hn.
  do 60 (destruct n as [|n]; [vm_compute; lia|]). lia.
Qed.

(** ** The digit limit *)

Lemma string_length_chars (s : string) :
  String.length s = List.length (list_ascii_of_string s).
Proof. induction s as [|c s IH]; simpl; auto. Qed.

Lemma count_digits_le (s : string) : Py.count_digits s <= String.length s.
Proof.
  unfold Py.count_digits. rewrite string_length_chars. apply filter_length_le.
Qed.

Lemma count_digits_all (s : string) :
  forallb is_digit (list_ascii_of_string s) = true ->
  Py.count_digits s = String.length s.
Proof.
  unfold Py.count_digits. rewrite string_length_chars.
  fold is_digit.
  induction (list_ascii_of_string s) as [|c l IH]; [reflexivity|].
  cbn [forallb filter]. intros H. apply andb_prop in H. destruct H as [-> H].
  cbn [List.length]. now rewrite IH.
Qed.

(** The digit characters of [str(z)] are the digits of [z]. *)
Lemma count_digits_str (z : Z) :
  Py.count_digits (Py.str_of_Z z) = Py.int_digits z.
Proof.
  unfold Py.int_digits. destruct z as [|p|p]; [reflexivity|..]; cbn [Z.abs].
  - apply count_digits_all. rewrite (proj1 (str_of_Z_pos p)).
    apply uint_digits.
  - rewrite (proj2 (str_of_Z_pos p)), (proj1 (str_of_Z_pos p)).
    rewrite <- (count_digits_all _ (uint_digits (Pos.to_uint p))).
    reflexivity.
Qed.

(** [int()] of a string that reads as a number and is within the digit
    limit. *)
Lemma int_within_limit (s : string) (z : Z) :
  Py.parse_int s = Some z ->
  Py.count_digits s <= Py.max_str_digits ->
  Py.int (VStr s) = OK z.
Proof.
  intros H L. unfold Py.int. rewrite H.
  destruct (Nat.ltb_spec Py.max_str_digits (Py.count_digits s));
    [lia | reflexivity].
Qed.

(** [int()] of a string beyond the digit limit, or with no digit. *)
Lemma int_beyond_limit (s : string) :
  Py.max_str_digits < Py.count_digits s ->
  Py.int (VStr s) = Raise ValueError.
Proof.
  intros L. unfold Py.int. destruct (Py.parse_int s); [|reflexivity].
  destruct (Nat.ltb_spec Py.max_str_digits (Py.count_digits s));
    [reflexivity | lia].
Qed.

Lemma str_int_within (z : Z) :
  Py.int_digits z <= Py.max_str_digits ->
  Py.str_int z = OK (Py.str_of_Z z).
Proof.
  intros L. unfold Py.str_int.
  destruct (Nat.ltb_spec Py.max_str_digits (Py.int_digits z));
    [lia | reflexivity].
Qed.

Lemma str_int_beyond (z : Z) :
  Py.max_str_digits < Py.int_digits z ->
  Py.str_int z = Raise ValueError.
Proof.
  intros L. unfold Py.str_int.
  destruct (Nat.ltb_spec Py.max_str_digits (Py.int_digits z));
    [reflexivity | lia].
Qed.

Lemma str_int_OK (z : Z) (s : string) :
  Py.str_int z = OK s ->
  s = Py.str_of_Z z /\ Py.int_digits z <= Py.max_str_digits.
Proof.
  unfold Py.str_int.
  destruct (Nat.ltb_spec Py.max_str_digits (Py.int_digits z));
    [discriminate|].
  intros [= <-]. split; [reflexivity | assumption].
Qed.

Lemma str_int_seconds (v : Z) :
  (0 <= v < 60)%Z -> Py.str_int v = OK (Py.str_of_Z v).
Proof.
  intros H. apply str_int_within. unfold Py.int_digits.
  rewrite Z.abs_eq by lia. pose proof (seconds_length v H).
  unfold Py.max_str_digits. lia.
Qed.

(** [zfill(2)] of [str(z)] reads back as [z] whenever [str(z)] is within
    the digit limit. *)
Lemma int_of_zfill (z : Z) :
  Py.int_digits z <= Py.max_str_digits ->
  Py.int (VStr (Py.str_of_Z z)) = OK z /\
  Py.int (VStr (Py.zfill 2 (Py.str_of_Z z))) = OK z.
Proof.
  intros L. split.
  - apply int_within_limit; [exact (proj1 (int_of_str z))|].
    now rewrite count_digits_str.
  - apply int_within_limit; [exact (proj2 (int_of_str z))|].
    unfold Py.zfill.
    destruct (Nat.leb_spec 2 (String.length (Py.str_of_Z z))) as [H|H].
    + now rewrite count_digits_str.
    + pose proof (zfill_length 2 (Py.str_of_Z z)) as Z.
      unfold Py.zfill in Z.
      destruct (Nat.leb_spec 2 (String.length (Py.str_of_Z z))); [lia|].
      match type of Z with String.length ?s = _ =>
        pose proof (count_digits_le s) end.
      unfold Py.max_str_digits. lia.
Qed.

(** A string that [int()] reads has a digit. *)
Lemma lstrip_incl (l : list ascii) (c : ascii) :
  In c (Py.lstrip l) -> In c l.
Proof.
  induction l as [|x l IH]; simpl; [tauto|].
  destruct (Py.is_space x); simpl; tauto.
Qed.

Lemma strip_incl (l : list ascii) (c : ascii) :
  In c (Py.strip l) -> In c l.
Proof.
  unfold Py.strip. intros H. apply in_rev in H. apply lstrip_incl in H.
  apply in_rev in H. now apply lstrip_incl in H.
Qed.

Lemma parse_digits_head (acc : Z) (l : list ascii) (z : Z) :
  Py.parse_digits acc false l = Some z ->
  exists c l', l = c :: l' /\ is_digit c = true.
Proof.
  destruct l as [|c l]; cbn [Py.parse_digits]; [discriminate|].
  unfold is_digit. destruct (Py.digit_of c) eqn:E.
  - intros _. exists c, l. now rewrite E.
  - rewrite andb_false_r. discriminate.
Qed.

Lemma parse_int_digit (s : string) (z : Z) :
  Py.parse_int s = Some z -> 0 < Py.count_digits s.
Proof.
  unfold Py.parse_int. intros H.
  assert (D : exists c, In c (Py.strip (list_ascii_of_string s))
                        /\ is_digit c = true).
  { destruct (Py.strip (list_ascii_of_string s)) as [|c l]; [discriminate|].
    destruct (Ascii.eqb c "-").
    - destruct (Py.parse_digits 0 false l) as [y|] eqn:E; [|discriminate].
      apply parse_digits_head in E. destruct E as (d & l' & -> & Hd).
      exists d. simpl. auto.
    - destruct (Ascii.eqb c "+").
      + apply parse_digits_head in H. destruct H as (d & l' & -> & Hd).
        exists d. simpl. auto.
      + apply parse_digits_head in H. destruct H as (d & l' & [= <- <-] & Hd).
        exists c. simpl. auto. }
  destruct D as (c & Hin & Hd). apply strip_incl in Hin.
  unfold Py.count_digits. fold is_digit.
  assert (F : In c (filter is_digit (list_ascii_of_string s)))
    by (apply filter_In; auto).
  destruct (filter is_digit (list_ascii_of_string s)); [destruct F|].
  simpl. lia.
Qed.

(** X20.  What [time_from_ms] accepts.  The decimal string of a number,
    as the API sends durations, gives what the number itself gives; a
    string without a digit, and a string of more than 4300 digits,
    raise [ValueError]; [None], a list and a dict raise [TypeError]. *)
Theorem time_from_ms_inputs :
  (forall z s, Py.str_int z = OK s ->
               Song_time_from_ms (VStr s) = Song_time_from_ms (VInt z)) /\
  (forall s, Py.count_digits s = 0 ->
             Song_time_from_ms (VStr s) = Raise ValueError) /\
  (forall s, Py.max_str_digits < Py.count_digits s ->
             Song_time_from_ms (VStr s) = Raise ValueError) /\
  (forall l d,
      Song_time_from_ms VNone = Raise TypeError /\
      Song_time_from_ms (VList l) = Raise TypeError /\
      Song_time_from_ms (VDict d) = Raise TypeError).
Proof.
  split; [|split; [|split]].
  - intros z s H. apply str_int_OK in H. destruct H as [-> L].
    unfold Song_time_from_ms.
    rewrite (proj1 (int_of_zfill z L)). reflexivity.
  - intros s H. unfold Song_time_from_ms, Py.int.
    destruct (Py.parse_int s) as [z|] eqn:E; [|reflexivity].
    apply parse_int_digit in E. lia.
  - intros s H. unfold Song_time_from_ms.
    now rewrite (int_beyond_limit s H).
  - repeat split.
Qed.

(** X21.  The shape of a duration and what it reads back to.  When the
    whole minutes [ms // 60000] have no more than 4300 digits,
    [time_from_ms] gives [mm:ss] where [ss] has two characters and [mm]
    at least two; read back with [int()], [mm] is the whole minutes
    (not capped at an hour) and [ss] the seconds [ms // 1000 % 60], so
    that [60 * mm + ss] is the whole seconds of the duration.  When the
    minutes have more digits, [str] refuses them and [time_from_ms]
    raises [ValueError]. *)
Theorem time_from_ms_reads_back (ms : Z) :
  (Py.int_digits (ms / 60000) <= Py.max_str_digits ->
   exists mm ss,
     Song_time_from_ms (VInt ms) = OK (mm ++ ":" ++ ss) /\
     String.length ss = 2 /\
     2 <= String.length mm /\
     Py.int (VStr mm) = OK (ms / 60000)%Z /\
     Py.int (VStr ss) = OK ((ms / 1000) mod 60)%Z /\
     (60 * (ms / 60000) + (ms / 1000) mod 60 = ms / 1000)%Z) /\
  (Py.max_str_digits < Py.int_digits (ms / 60000) ->
   Song_time_from_ms (VInt ms) = Raise ValueError).
Proof.
  assert (B : (0 <= (ms / 1000) mod 60 < 60)%Z)
    by (apply Z.mod_pos_bound; lia).
  split.
  - intros L.
    exists (Py.zfill 2 (Py.str_of_Z (ms / 60000))),
      (Py.zfill 2 (Py.str_of_Z ((ms / 1000) mod 60))).
    split; [|split; [|split; [|split; [|split]]]].
    + unfold Song_time_from_ms. cbn [Py.int rbind].
      rewrite (str_int_within _ L). cbn [rbind].
      rewrite (str_int_seconds _ B). reflexivity.
    + rewrite zfill_length. pose proof (seconds_length _ B). lia.
    + rewrite zfill_length. lia.
    + apply int_of_zfill, L.
    + apply int_of_zfill. unfold Py.int_digits.
      rewrite Z.abs_eq by lia. pose proof (seconds_length _ B).
      unfold Py.max_str_digits. lia.
    + replace (ms / 60000)%Z with (ms / 1000 / 60)%Z
        by (rewrite Z.div_div by lia; reflexivity).
      pose proof (Z.div_mod (ms / 1000) 60). lia.
  - intros L. unfold Song_time_from_ms. cbn [Py.int rbind].
    now rewrite (str_int_beyond _ L).
Qed.

(** * The further properties at work on the sample records *)

Lemma api_fields_witness :
  map fst nina = ["id"; "name"; "kind"; "full"; "songs"; "albums"] /\
  dict_get "kind" nina = Some (VStr "artist") /\
  dict_get "full" nina = Some (VBool false) /\
  dict_get "kind" song_one = Some (VStr "song").
Proof.
  assert (A : Artist_init api_artist (VBool false) "api" = OK nina)
    by (vm_compute; reflexivity).
  assert (S : Song_init (api_song "S1" "One" (VList [VStr "A1"])) (VBool true)
                "api" = OK song_one)
    by (vm_compute; reflexivity).
  destruct (proj1 (api_fields api_artist (VBool false) nina) A)
    as (K & _ & _ & Kd & F).
  destruct (proj2 (proj2 (api_fields _ (VBool true) song_one)) S)
    as (_ & _ & _ & Ks & _).
  exact (conj K (conj Kd (conj F Ks))).
Defined.

Lemma json_fields_witness :
  Py.getitem mislabelled_artist "kind" = OK (VStr "album") /\
  Py.getitem mislabelled_artist "full" = OK (VBool true) /\
  dict_get "kind" (built (Artist_init mislabelled_artist (VBool false) "json"))
  = Some (VStr "artist") /\
  dict_get "full" (built (Artist_init mislabelled_artist (VBool false) "json"))
  = Some (VBool false).
Proof.
  assert (A : Artist_init mislabelled_artist (VBool false) "json"
              = OK (built (Artist_init mislabelled_artist (VBool false) "json")))
    by (vm_compute; reflexivity).
  destruct (proj1 (json_fields mislabelled_artist (VBool false) _) A)
    as (_ & _ & _ & K & F).
  split; [reflexivity|]. split; [reflexivity|]. exact (conj K F).
Defined.

Lemma unknown_source_empty_witness :
  Artist_init api_artist (VBool false) "xml" = OK [] /\
  Song_init (api_song "S1" "One" (VList [VStr "A1"])) (VBool true) "xml" = OK [].
Proof.
  destruct (unknown_source_empty api_artist (VBool false) "xml"
              ltac:(discriminate) ltac:(discriminate)) as (A & _).
  destruct (unknown_source_empty (api_song "S1" "One" (VList [VStr "A1"]))
              (VBool true) "xml" ltac:(discriminate) ltac:(discriminate))
    as (_ & _ & S & _).
  exact (conj A S).
Defined.

Lemma missing_key_raises_witness :
  Artist_init (VDict [("name", VStr "Nina")]) (VBool false) "api"
  = Raise (KeyError "artistId") /\
  Artist_init (VDict [("id", VStr "A1"); ("name", VStr "Nina")]) (VBool false)
    "json" = Raise (KeyError "songs") /\
  Song_init (VStr "S1") (VBool true) "api" = Raise TypeError.
Proof.
  split; [|split].
  - exact (proj1 (proj2 (missing_key_raises VNone (VBool false)
                           [("name", VStr "Nina")] "artistId")) eq_refl).
  - exact (proj1 (proj2 (proj2 (missing_key_raises VNone (VBool false)
                                  [("id", VStr "A1"); ("name", VStr "Nina")]
                                  "songs"))) eq_refl).
  - exact (proj2 (proj2 (proj1 (missing_key_raises (VStr "S1") (VBool true)
                                  [] "") eq_refl "api" (or_introl eq_refl)))).
Defined.

Lemma absent_collections_empty_witness :
  Artist_init (VDict [("artistId", VStr "A1"); ("name", VStr "Nina")])
    (VBool true) "api"
  = OK [("id", VStr "A1"); ("name", VStr "Nina"); ("kind", VStr "artist");
        ("full", VBool true); ("songs", VList []); ("albums", VList [])].
Proof.
  exact (proj1 (absent_collections_empty
                  [("artistId", VStr "A1"); ("name", VStr "Nina")]
                  (VBool true) (VStr "A1") (VStr "Nina"))
           eq_refl eq_refl eq_refl eq_refl).
Defined.

Lemma nested_errors_surface_witness :
  Artist_init (VDict [("artistId", VStr "A1"); ("name", VStr "Nina");
                      ("topTracks", VInt 3)]) (VBool false) "api"
  = Raise TypeError /\
  Artist_init (VDict [("artistId", VStr "A1"); ("name", VStr "Nina");
                      ("topTracks",
                       VList [api_song "S1" "One" (VList [])])])
    (VBool false) "api"
  = Raise IndexError.
Proof.
  split.
  - apply (proj1 (nested_errors_surface _ (VBool false) (VStr "A1")
                    (VStr "Nina") TypeError eq_refl)); reflexivity.
  - apply (proj1 (nested_errors_surface _ (VBool false) (VStr "A1")
                    (VStr "Nina") IndexError eq_refl));
      [reflexivity | reflexivity | vm_compute; reflexivity].
Defined.

Lemma song_artist_is_album_artist_witness :
  exists artist album,
    dict_get "artist" song_one = Some artist /\
    dict_get "album" song_one = Some album /\
    Py.getitem album "artist" = OK artist /\
    Py.getitem artist "id" = OK (VStr "A1").
Proof.
  assert (S : Song_init (api_song "S1" "One" (VList [VStr "A1"])) (VBool true)
                "api" = OK song_one)
    by (vm_compute; reflexivity).
  destruct (song_artist_is_album_artist _ _ _ S)
    as (ids & id0 & aname & alid & alname & Hids & H0 & _ & _ & _ & Ha & Hb).
  injection Hids as <-. injection H0 as <-.
  eexists. eexists. split; [exact Ha|]. split; [exact Hb|].
  split; reflexivity.
Defined.

Lemma api_reload_witness :
  Artist_init (persisted nina) (VBool false) "json" = OK nina /\
  Album_init (persisted live) (VBool false) "json" = OK live.
Proof.
  split.
  - apply (proj1 (api_reload api_artist (VBool false) nina)).
    vm_compute. reflexivity.
  - apply (proj1 (proj2 (api_reload api_album (VBool false) live))).
    vm_compute. reflexivity.
Defined.

Lemma str_of_built_witness :
  Song_str (VDict song_one) = OK "One - Nina" /\
  Album_str (VDict live) = OK "Live - Nina" /\
  Artist_str (VDict nina) = OK "Nina".
Proof.
  split; [|split].
  - rewrite (proj1 (str_of_built (api_song "S1" "One" (VList [VStr "A1"]))
                      (VBool true) song_one));
      [reflexivity | vm_compute; reflexivity].
  - rewrite (proj1 (proj2 (str_of_built api_album (VBool false) live)));
      [reflexivity | vm_compute; reflexivity].
  - rewrite (proj1 (proj2 (proj2 (str_of_built api_artist (VBool false) nina))));
      [reflexivity | vm_compute; reflexivity].
Defined.

Lemma built_song_playable_witness :
  playable (sample_world true 0) (VDict song_one) = true.
Proof.
  apply (built_song_playable (sample_world true 0)
           (api_song "S1" "One" (VList [VStr "A1"])) (VBool true) (VStr "S1")
           "One" "Nina" "https://stream/S1" song_one);
    [vm_compute; reflexivity | reflexivity..].
Defined.

Lemma play_resume_bound_witness :
  fst (MusicObject_play (sample_world true 2) queue3 (mkState [] []))
  = OK (Some 2) /\ 1 <= 2 < List.length queue3.
Proof.
  assert (R : fst (MusicObject_play (sample_world true 2) queue3
                     (mkState [] [])) = OK (Some 2))
    by (vm_compute; reflexivity).
  exact (conj R (play_resume_bound _ _ _ _ R)).
Defined.


Lemma fill_calls_lookup_once_witness :
  trace (snd (Artist_fill sample_lookup 7 (mkState nina_partial [])))
  = [EvLookup (VStr "A1") (Some 7%Z)] /\
  trace (snd (Album_fill offline_lookup 7
                (mkState (dict_set "id" (VStr "B9") nina_partial) [])))
  = [EvLookup (VStr "B9") None].
Proof.
  split.
  - exact (proj1 (fill_calls_lookup_once sample_lookup 7
                    (mkState nina_partial []) (VBool false) (VStr "A1")
                    eq_refl eq_refl eq_refl)).
  - exact (proj2 (fill_calls_lookup_once offline_lookup 7
                    (mkState (dict_set "id" (VStr "B9") nina_partial) [])
                    (VBool false) (VStr "B9") eq_refl eq_refl eq_refl)).
Defined.

Lemma fill_failure_frame_witness :
  fst (Artist_fill broken_albums_lookup 100 (mkState nina_partial []))
  = Raise TypeError /\
  dict_get "full"
    (self_of (snd (Artist_fill broken_albums_lookup 100
                     (mkState nina_partial []))))
  = Some (VBool false) /\
  dict_get "songs"
    (self_of (snd (Artist_fill broken_albums_lookup 100
                     (mkState nina_partial []))))
  = Some (VList [VDict song_one]) /\
  self_of (snd (Album_fill offline_lookup 100 (mkState live []))) = live.
Proof.
  split; [vm_compute; reflexivity|]. split; [|split].
  - rewrite (proj1 (fill_failure_frame broken_albums_lookup 100
                      (mkState nina_partial [])
                      (snd (Artist_fill broken_albums_lookup 100
                              (mkState nina_partial [])))
                      TypeError) ltac:(vm_compute; reflexivity) "full"
               ltac:(discriminate)).
    reflexivity.
  - vm_compute. reflexivity.
  - apply (proj2 (fill_failure_frame offline_lookup 100 (mkState live [])
                    (snd (Album_fill offline_lookup 100 (mkState live [])))
                    (ExternalError "offline"))).
    vm_compute. reflexivity.
Defined.

Lemma fill_keeps_keys_witness :
  map fst (self_of (snd (Artist_fill sample_lookup 100
                           (mkState nina_partial []))))
  = ["id"; "name"; "kind"; "full"; "songs"; "albums"] /\
  Artist_verify (self_of (snd (Artist_fill sample_lookup 100
                                 (mkState nina_partial [])))) = true.
Proof.
  destruct (proj1 (fill_keeps_keys sample_lookup 100 (mkState nina_partial [])
                     (snd (Artist_fill sample_lookup 100
                             (mkState nina_partial []))))
              eq_refl ltac:(vm_compute; reflexivity)) as [K V].
  split; [rewrite K; reflexivity | exact V].
Defined.

Lemma entity_play_fills_first_witness :
  Artist_play (sample_world true 0) offline_lookup (mkState nina_partial [])
  = (Raise (ExternalError "offline"),
     mkState nina_partial [EvLookup (VStr "A1") (Some 100%Z)]) /\
  count_events is_lookup
    (trace (snd (Artist_play (sample_world true 0) offline_lookup
                   (mkState (dict_set "full" (VBool true) nina) []))))
  = 0.
Proof.
  split.
  - exact (proj1 (proj2 (proj2 (proj2 (entity_play_fills_first
             (sample_world true 0) offline_lookup (mkState nina_partial [])
             (VBool false) eq_refl) eq_refl (VStr "A1") eq_refl)))
             (ExternalError "offline") eq_refl).
  - exact (proj1 (proj1 (entity_play_fills_first
             (sample_world true 0) offline_lookup
             (mkState (dict_set "full" (VBool true) nina) [])
             (VBool true) eq_refl) eq_refl)).
Defined.

Lemma collect_negative_limit_witness :
  fst (Artist_collect (-1) (mkState nina []))
  = OK (VDict [("songs", VList (firstn 2 nina_songs));
               ("artists", VList [VDict nina]);
               ("albums", VList [])]) /\
  List.length nina_songs = 3.
Proof.
  split; [|reflexivity].
  rewrite (proj1 (collect_negative_limit (mkState nina []) (-1) eq_refl)
             nina_songs nina_albums eq_refl eq_refl).
  reflexivity.
Defined.

Lemma collect_read_only_witness :
  Artist_collect 20 (mkState [] []) = (Raise (KeyError "songs"), mkState [] []) /\
  Song_collect None (mkState [] []) = (Raise (KeyError "artist"), mkState [] []).
Proof.
  destruct (collect_read_only (mkState [] []) 20 None)
    as ((SA & _ & SS) & KA & KS).
  destruct (KA eq_refl) as [KA' _]. specialize (KS eq_refl).
  split.
  - rewrite (surjective_pairing (Artist_collect 20 (mkState [] []))).
    now rewrite SA, KA'.
  - rewrite (surjective_pairing (Song_collect None (mkState [] []))).
    now rewrite SS, KS.
Defined.

Lemma time_from_ms_inputs_witness :
  Song_time_from_ms (VStr "228000") = OK "03:48" /\
  Song_time_from_ms (VStr "soon") = Raise ValueError /\
  Song_time_from_ms (VStr (Py.zeros 4301)) = Raise ValueError.
Proof.
  destruct time_from_ms_inputs as (A & B & C & _).
  split; [|split].
  - rewrite (A 228000%Z "228000" eq_refl). reflexivity.
  - exact (B "soon" eq_refl).
  - apply C. apply Nat.ltb_lt. vm_compute. reflexivity.
Defined.

Lemma time_from_ms_reads_back_witness :
  (exists mm ss,
      Song_time_from_ms (VInt 228000) = OK (mm ++ ":" ++ ss) /\
      String.length ss = 2 /\
      Py.int (VStr mm) = OK 3%Z /\
      Py.int (VStr ss) = OK 48%Z) /\
  Song_time_from_ms (VInt (60000 * 10 ^ 4300)) = Raise ValueError.
Proof.
  split.
  - destruct (proj1 (time_from_ms_reads_back 228000))
      as (mm & ss & E & L & _ & M & S & _).
    + apply Nat.leb_le. vm_compute. reflexivity.
    + exists mm, ss. repeat split; assumption.
  - apply (proj2 (time_from_ms_reads_back (60000 * 10 ^ 4300))).
    apply Nat.ltb_lt. vm_compute. reflexivity.
Defined.

(** * verify, fill and artistId once more *)

(** X22.  [Artist.verify] and [Album.verify] are consistent with the
    constructors: they accept every entity that the constructor of their
    class builds, from an API record or from a persisted one, and they
    turn down every record that lacks one of the six keys of the class. *)
Theorem verify_artist_album (record full : value) (source : string)
    (e item : dict) (k : string) :
  (source = "api" \/ source = "json" ->
   (Artist_init record full source = OK e -> Artist_verify e = true) /\
   (Album_init record full source = OK e -> Album_verify e = true)) /\
  (dict_mem k item = false ->
   (In k ["id"; "name"; "kind"; "full"; "songs"; "albums"] ->
    Artist_verify item = false) /\
   (In k ["id"; "name"; "kind"; "full"; "artist"; "songs"] ->
    Album_verify item = false)).
Proof.
  split.
  - intros Hs. destruct (verify_built record full source e Hs) as (A & B & _).
    exact (conj A B).
  - apply verify_missing_key.
Qed.

(** X23.  [fill] is done once.  After a [fill] that succeeded, on a
    partial entity or on a full one, the entity has its ['full'] key and
    a further [fill], with any lookup capability and any limit, returns
    at once: same entity, same trace, no lookup. *)
Theorem fill_twice (func func' : lookup_fn) (limit limit' : Z)
    (st st' : state) :
  (Artist_fill func limit st = (OK tt, st') ->
   Artist_fill func' limit' st' = (OK tt, st')) /\
  (Album_fill func limit st = (OK tt, st') ->
   Album_fill func' limit' st' = (OK tt, st')).
Proof.
  destruct (fill_then_full func func' limit limit' st st') as [A B].
  split; intros H; [apply (A H) | apply (B H)].
Qed.

(** X24.  The [artistId] of an API record as a list.  When it is a list
    with a first item, that item is the id of the artist of the song
    built from the record and of the artist of its album; when it is the
    empty list, the construction of a song and of an album raises
    [IndexError], which the fallback for a scalar [artistId] does not
    take. *)
Theorem artistId_list (record full : value) :
  (forall sid title aname a rest alname alid ms t,
      Py.getitem record "storeId" = OK sid ->
      Py.getitem record "title" = OK title ->
      Py.getitem record "artist" = OK aname ->
      Py.getitem record "artistId" = OK (VList (a :: rest)) ->
      Py.getitem record "album" = OK alname ->
      Py.getitem record "albumId" = OK alid ->
      Py.getitem record "durationMillis" = OK ms ->
      Song_time_from_ms ms = OK t ->
      exists song artist album,
        Song_init record full "api" = OK song /\
        dict_get "artist" song = Some artist /\
        Py.getitem artist "id" = OK a /\
        dict_get "album" song = Some album /\
        Py.getitem album "artist" = OK artist) /\
  (forall sid title aname,
      Py.getitem record "storeId" = OK sid ->
      Py.getitem record "title" = OK title ->
      Py.getitem record "artist" = OK aname ->
      Py.getitem record "artistId" = OK (VList []) ->
      Song_init record full "api" = Raise IndexError) /\
  (forall alid name,
      Py.getitem record "albumId" = OK alid ->
      Py.getitem record "name" = OK name ->
      Py.getitem record "artistId" = OK (VList []) ->
      Album_init record full "api" = Raise IndexError).
Proof.
  split; [|split].
  - intros sid title aname a rest alname alid ms t H1 H2 H3 H4 H5 H6 H7 H8.
    pose proof (Song_init_api_subscriptable record full sid title aname
                  (VList (a :: rest)) a alname alid ms t
                  H1 H2 H3 H4 eq_refl H5 H6 H7 H8) as E.
    cbv zeta in E. rewrite E. do 3 eexists.
    split; [reflexivity|]. repeat split.
  - intros sid title aname H1 H2 H3 H4.
    rewrite Song_init_api, H1, H2, H3, H4. reflexivity.
  - intros alid name H1 H2 H3.
    rewrite Album_init_api, H1, H2, H3. reflexivity.
Qed.

Lemma verify_artist_album_witness :
  Artist_verify nina = true /\ Album_verify live = true /\
  Artist_verify (persisted_without "songs" nina) = false.
Proof.
  split; [|split].
  - apply (proj1 (proj1 (verify_artist_album api_artist (VBool false) "api"
                           nina [] "") (or_introl eq_refl))).
    vm_compute. reflexivity.
  - apply (proj2 (proj1 (verify_artist_album api_album (VBool false) "api"
                           live [] "") (or_introl eq_refl))).
    vm_compute. reflexivity.
  - apply (proj1 (proj2 (verify_artist_album VNone VNone "" []
                           (persisted_without "songs" nina) "songs")
                    eq_refl)).
    simpl. auto 10.
Defined.

Lemma fill_twice_witness :
  Artist_fill offline_lookup 5
    (snd (Artist_fill sample_lookup 100 (mkState nina_partial [])))
  = (OK tt, snd (Artist_fill sample_lookup 100 (mkState nina_partial []))).
Proof.
  apply (proj1 (fill_twice sample_lookup offline_lookup 100 5
                  (mkState nina_partial []) _)).
  vm_compute. reflexivity.
Defined.

Lemma artistId_list_witness :
  (exists song artist,
      Song_init (api_song "S1" "One" (VList [VStr "A1"; VStr "A2"]))
        (VBool true) "api" = OK song /\
      dict_get "artist" song = Some artist /\
      Py.getitem artist "id" = OK (VStr "A1")) /\
  Song_init (api_song "S1" "One" (VList [])) (VBool true) "api"
  = Raise IndexError.
Proof.
  split.
  - destruct (proj1 (artistId_list
                       (api_song "S1" "One" (VList [VStr "A1"; VStr "A2"]))
                       (VBool true))
                (VStr "S1") (VStr "One") (VStr "Nina") (VStr "A1") [VStr "A2"]
                (VStr "Live") (VStr "B1") (VStr "125000") "02:05"
                eq_refl eq_refl eq_refl eq_refl eq_refl eq_refl eq_refl eq_refl)
      as (song & artist & album & E & A & I & _).
    exists song, artist. auto.
  - exact (proj1 (proj2 (artistId_list (api_song "S1" "One" (VList []))
                           (VBool true)))
             (VStr "S1") (VStr "One") (VStr "Nina") eq_refl eq_refl eq_refl
             eq_refl).
Defined.
